(** * PaperBuddy: the state normalizer, the payload builder, the focus
      analytics and the Pomodoro timer, embedded from the TypeScript sources

    The repository has two variants of [App.tsx]: the local-storage variant
    (module [Local]) and the Supabase-backed variant (module [Remote]).
    The first part fixes the fragment of JavaScript the two files rely on:
    IEEE-754 binary64 numbers, strings, JSON-shaped values, the conversions
    [Number(...)] and [String.prototype.trim], and run-time type errors. *)

From Stdlib Require Import ZArith List String Ascii Bool Lia SpecFloat.
From Stdlib Require Import DecimalString.
From Stdlib Require Import Sorted Permutation.
Import ListNotations.

Open Scope bool_scope.
Open Scope string_scope.
Open Scope Z_scope.

(* ================================================================== *)
(** * The JavaScript fragment                                          *)
(* ================================================================== *)

(** ** Numbers

    A JavaScript Number is an IEEE-754 binary64 value with a single NaN:
    exactly [spec_float] at precision 53 and maximal exponent 1024. *)

Definition number : Type := spec_float.

Definition prec : Z := 53.
Definition emax : Z := 1024.

Definition NaN : number := S754_nan.
Definition Infinity : number := S754_infinity false.
Definition pzero : number := S754_zero false.
Definition nzero : number := S754_zero true.

(** The Number nearest to an integer (ties to even); exact below 2^53. *)
Definition ofZ (z : Z) : number := binary_normalize prec emax z 0 false.

(** [a + b], [a < b], [a <= b], [a === b] on Numbers. *)
Definition num_add (a b : number) : number := SFadd prec emax a b.
Definition num_ltb (a b : number) : bool := SFltb a b.
Definition num_leb (a b : number) : bool := SFleb a b.
Definition num_eqb (a b : number) : bool := SFeqb a b.

(** [Number.isFinite(x)] for a Number [x]. *)
Definition Number_isFinite (x : number) : bool :=
  match x with
  | S754_zero _ | S754_finite _ _ _ => true
  | S754_infinity _ | S754_nan => false
  end.

(** [Math.max(a, b)]: NaN if either argument is NaN; [+0] is larger
    than [-0]. *)
Definition Math_max (a b : number) : number :=
  match a, b with
  | S754_nan, _ | _, S754_nan => NaN
  | _, _ =>
      if num_ltb a b then b
      else if num_ltb b a then a
      else match a with S754_zero true => b | _ => a end
  end.

(** [Math.min(a, b)]: NaN if either argument is NaN; [-0] is smaller
    than [+0]. *)
Definition Math_min (a b : number) : number :=
  match a, b with
  | S754_nan, _ | _, S754_nan => NaN
  | _, _ =>
      if num_ltb a b then a
      else if num_ltb b a then b
      else match a with S754_zero false => b | _ => a end
  end.

(** The Number denoted by the decimal [m * 10^e10] (with [m >= 0]),
    correctly rounded; [neg] is the sign of the literal. *)
Definition ofDecimal (neg : bool) (m e10 : Z) : number :=
  if m =? 0 then S754_zero neg
  else if 0 <=? e10 then
    binary_normalize prec emax ((if neg then - m else m) * 10 ^ e10) 0 false
  else
    let '(q, e', l) := SFdiv_core_binary prec emax m 0 (10 ^ (- e10)) 0 in
    binary_round_aux prec emax neg q e' l.

(** ** Strings

    A string is a sequence of code units; the model carries the code
    units 0..255, one per [ascii]. *)

(** WhiteSpace and LineTerminator code units: TAB, LF, VT, FF, CR, SP and
    NBSP (the ones below 256). *)
Definition isWhiteSpace (c : ascii) : bool :=
  let n := nat_of_ascii c in
  (Nat.eqb n 9 || Nat.eqb n 10 || Nat.eqb n 11 || Nat.eqb n 12
   || Nat.eqb n 13 || Nat.eqb n 32 || Nat.eqb n 160)%bool.

Definition isEmpty (s : string) : bool :=
  match s with EmptyString => true | String _ _ => false end.

Fixpoint trimStart (s : string) : string :=
  match s with
  | EmptyString => EmptyString
  | String c s' => if isWhiteSpace c then trimStart s' else s
  end.

Fixpoint trimEnd (s : string) : string :=
  match s with
  | EmptyString => EmptyString
  | String c s' =>
      let t := trimEnd s' in
      if isWhiteSpace c && isEmpty t then EmptyString else String c t
  end.

(** [s.trim()]. *)
Definition trim (s : string) : string := trimEnd (trimStart s).

(** The decimal rendering of a natural number, as a template literal
    [`${n}`] produces it for a non-negative integer. *)
Definition showNat (n : nat) : string := NilEmpty.string_of_uint (Nat.to_uint n).

(** ** [Number(s)] for a string [s] (StringToNumber)

    The StringNumericLiteral grammar: surrounding white space is dropped;
    the empty string is [+0]; then an optionally signed [Infinity] or
    decimal literal (digits, optional fraction, optional exponent), or an
    unsigned [0x], [0o] or [0b] integer literal; anything else is NaN. *)

Definition digitOf (radix : Z) (c : ascii) : option Z :=
  let n := Z.of_nat (nat_of_ascii c) in
  let d :=
    if (48 <=? n) && (n <=? 57) then n - 48
    else if (97 <=? n) && (n <=? 102) then n - 87
    else if (65 <=? n) && (n <=? 70) then n - 55
    else radix in
  if d <? radix then Some d else None.

(** Reads the longest prefix of digits of [s] in the given radix: the
    value accumulated onto [acc], the number of digits read, the rest. *)
Fixpoint digits (radix acc : Z) (count : nat) (s : string) : Z * nat * string :=
  match s with
  | EmptyString => (acc, count, s)
  | String c s' =>
      match digitOf radix c with
      | Some d => digits radix (radix * acc + d) (S count) s'
      | None => (acc, count, s)
      end
  end.

(** A non-empty string made of digits of the radix only. *)
Definition integerLiteral (radix : Z) (s : string) : option number :=
  let '(v, n, rest) := digits radix 0 0 s in
  if negb (Nat.eqb n 0) && isEmpty rest then Some (ofZ v) else None.

Definition isExponentIndicator (c : ascii) : bool :=
  (Ascii.eqb c "e" || Ascii.eqb c "E")%bool.

(** ExponentPart: [e] or [E], an optional sign, at least one digit, and
    nothing after it. *)
Definition exponentPart (s : string) : option Z :=
  match s with
  | EmptyString => Some 0
  | String c r =>
      if isExponentIndicator c then
        let '(neg, r') :=
          match r with
          | String "-" r' => (true, r')
          | String "+" r' => (false, r')
          | _ => (false, r)
          end in
        let '(e, n, rest) := digits 10 0 0 r' in
        if negb (Nat.eqb n 0) && isEmpty rest
        then Some (if neg then - e else e) else None
      else None
  end.

(** StrUnsignedDecimalLiteral without [Infinity]: mantissa and decimal
    exponent. *)
Definition unsignedDecimal (s : string) : option (Z * Z) :=
  let '(i, ni, r1) := digits 10 0 0 s in
  let '(m, nf, r2) :=
    match r1 with
    | String "." r => digits 10 i 0 r
    | _ => (i, 0%nat, r1)
    end in
  if Nat.eqb (ni + nf) 0 then None
  else match exponentPart r2 with
       | Some e => Some (m, e - Z.of_nat nf)
       | None => None
       end.

Definition signedDecimal (neg : bool) (s : string) : number :=
  if String.eqb s "Infinity" then S754_infinity neg
  else match unsignedDecimal s with
       | Some (m, e) => ofDecimal neg m e
       | None => NaN
       end.

Definition orNaN (o : option number) : number :=
  match o with Some n => n | None => NaN end.

Definition StringToNumber (s : string) : number :=
  match trim s with
  | EmptyString => pzero
  | String "0" (String "x" r) | String "0" (String "X" r) => orNaN (integerLiteral 16 r)
  | String "0" (String "o" r) | String "0" (String "O" r) => orNaN (integerLiteral 8 r)
  | String "0" (String "b" r) | String "0" (String "B" r) => orNaN (integerLiteral 2 r)
  | String "-" r => signedDecimal true r
  | String "+" r => signedDecimal false r
  | t => signedDecimal false t
  end.



(** ** Values

    What [JSON.parse] can produce, and [undefined]: the inputs of the
    normalizer ([any] in the source).  An object is the list of its own
    properties, in insertion order. *)

#[local] Set Warnings "-register-all".

Inductive value : Type :=
  | Undefined
  | Null
  | Boolean (b : bool)
  | Num (n : number)
  | Str (s : string)
  | Arr (elems : list value)
  | Obj (props : list (string * value)).

(** [typeof v]. *)
Definition typeof (v : value) : string :=
  match v with
  | Undefined => "undefined"
  | Null | Arr _ | Obj _ => "object"
  | Boolean _ => "boolean"
  | Num _ => "number"
  | Str _ => "string"
  end.

(** ToBoolean: the truthiness tested by [!v], [v && ...] and
    [filter(Boolean)]. *)
Definition truthy (v : value) : bool :=
  match v with
  | Undefined | Null => false
  | Boolean b => b
  | Num (S754_zero _) | Num S754_nan => false
  | Num _ => true
  | Str s => negb (isEmpty s)
  | Arr _ | Obj _ => true
  end.

Definition Array_isArray (v : value) : bool :=
  match v with Arr _ => true | _ => false end.

(** The own property [k] of a property list. *)
Fixpoint lookup (k : string) (props : list (string * value)) : option value :=
  match props with
  | [] => None
  | (k', v) :: rest => if String.eqb k k' then Some v else lookup k rest
  end.

Definition hasOwn (k : string) (props : list (string * value)) : bool :=
  match lookup k props with Some _ => true | None => false end.

(** [a ?? b]. *)
Definition nullish (a b : value) : value :=
  match a with Undefined | Null => b | _ => a end.

(** ** Abrupt completion

    The source has no [throw]; what can go wrong at run time is a
    TypeError: reading a property of [undefined] or [null], calling a
    method a value does not have, or converting to a primitive an object
    whose [toString] is not callable; [JSON.parse] raises a SyntaxError. *)

Inductive error : Type := TypeError | SyntaxError.

Inductive outcome (A : Type) : Type :=
  | Return (a : A)
  | Throw (e : error).
Arguments Return {A} a.
Arguments Throw {A} e.

Definition obind {A B : Type} (c : outcome A) (k : A -> outcome B) : outcome B :=
  match c with
  | Return a => k a
  | Throw e => Throw e
  end.

(** [a && b] on conditions whose evaluation may throw: [b] is evaluated
    only when [a] is truthy. *)
Definition oand (a b : outcome bool) : outcome bool :=
  obind a (fun x => if x then b else Return false).

Declare Scope outcome_scope.
Delimit Scope outcome_scope with outcome.
Notation "x <- c ;; k" := (obind c (fun x => k))
  (at level 61, c at next level, right associativity) : outcome_scope.
Notation "a &&& b" := (oand a b)
  (at level 40, left associativity) : outcome_scope.

Open Scope outcome_scope.

(** [v.k] for the property names the sources read ([id], [name], [exams],
    [paper], [mcq], [essay], [total], [completion], [subjects],
    [activeSubjectId]); none of them is inherited from [Object.prototype],
    [Array.prototype] or a primitive wrapper, so on anything but a plain
    object the read yields [undefined], and on [undefined] and [null] it
    throws. *)
Definition get (v : value) (k : string) : outcome value :=
  match v with
  | Undefined | Null => Throw TypeError
  | Obj props => Return (match lookup k props with Some x => x | None => Undefined end)
  | Boolean _ | Num _ | Str _ | Arr _ => Return Undefined
  end.

(** [v.trim()]: only strings have the method. *)
Definition String_trim (v : value) : outcome string :=
  match v with
  | Str s => Return (trim s)
  | _ => Throw TypeError
  end.

(** The elements of [v] when a method of [Array.prototype] ([every],
    [some], [map], [forEach]) or [length] is used on it. *)
Definition asArray (v : value) : outcome (list value) :=
  match v with
  | Arr elems => Return elems
  | _ => Throw TypeError
  end.

(** [xs.every(f)] and [xs.some(f)]: left to right, stopping at the first
    element that decides. *)
Fixpoint every {A : Type} (f : A -> outcome bool) (xs : list A) : outcome bool :=
  match xs with
  | [] => Return true
  | x :: rest => b <- f x ;; if b then every f rest else Return false
  end.

Fixpoint some {A : Type} (f : A -> outcome bool) (xs : list A) : outcome bool :=
  match xs with
  | [] => Return false
  | x :: rest => b <- f x ;; if b then Return true else some f rest
  end.

(** ** [Number(v)] for a value (ToNumber)

    ToPrimitive on a plain object tries [valueOf] and [toString].  The
    inherited [valueOf] returns the object itself, the inherited
    [toString] returns ["[object Object]"]; an own property of either name
    holds JSON data, which is not callable, and is skipped.  So the
    conversion of an object throws exactly when the object has an own
    [toString], and otherwise goes through ["[object Object]"].  An array
    is converted through [join], which converts each element that is not
    [undefined] or [null] to a string. *)

(** ToString(v) completes normally. *)
Fixpoint stringifies (v : value) : bool :=
  match v with
  | Obj props => negb (hasOwn "toString" props)
  | Arr elems => forallb stringifies elems
  | _ => true
  end.

Definition isZero (n : number) : bool :=
  match n with S754_zero _ => true | _ => false end.

(** [Number(String(v))] for a [v] that stringifies.  For a number [n],
    [String(n)] reads back as [n], except that [-0] prints as ["0"]; the
    elements of an array are joined with [","], which no numeric literal
    contains. *)
Fixpoint numberOfString (v : value) : number :=
  match v with
  | Undefined => NaN
  | Null => NaN
  | Boolean _ => NaN
  | Num n => if isZero n then pzero else n
  | Str s => StringToNumber s
  | Obj _ => NaN
  | Arr [] => pzero
  | Arr [x] =>
      match x with
      | Undefined | Null => pzero
      | _ => numberOfString x
      end
  | Arr (_ :: _ :: _) => NaN
  end.

Definition ToNumber (v : value) : outcome number :=
  match v with
  | Undefined => Return NaN
  | Null => Return pzero
  | Boolean b => Return (if b then ofZ 1 else pzero)
  | Num n => Return n
  | Str s => Return (StringToNumber s)
  | Arr _ | Obj _ =>
      if stringifies v then Return (numberOfString v) else Throw TypeError
  end.

(** [a === b] between two strings. *)
Notation "a === b" := (String.eqb a b) (at level 70, no associativity).

(** ** [JSON.parse(JSON.stringify(v))]

    Serialization writes a non-finite number as [null] and [-0] as [0],
    writes [undefined] as [null] inside an array and omits a property
    whose value is [undefined]; own [toJSON] properties hold data, not
    functions, and are ignored.  Everything else reads back as it was
    written.  At top level [JSON.stringify(undefined)] is [undefined],
    which [JSON.parse] rejects. *)

Fixpoint jsonCopy (v : value) : value :=
  match v with
  | Undefined => Null
  | Null => Null
  | Boolean b => Boolean b
  | Num n => if Number_isFinite n then Num (if isZero n then pzero else n) else Null
  | Str s => Str s
  | Arr elems => Arr (map jsonCopy elems)
  | Obj props =>
      Obj ((fix copyProps (ps : list (string * value)) : list (string * value) :=
              match ps with
              | [] => []
              | (k, Undefined) :: rest => copyProps rest
              | (k, x) :: rest => (k, jsonCopy x) :: copyProps rest
              end) props)
  end.

Definition JSON_roundtrip (v : value) : outcome value :=
  match v with
  | Undefined => Throw SyntaxError
  | _ => Return (jsonCopy v)
  end.

(** ** Deep equality

    Same shape, [===] on the leaves, objects compared property by
    property whatever the order of their keys. *)

Fixpoint deepEqual (a b : value) : bool :=
  match a, b with
  | Undefined, Undefined => true
  | Null, Null => true
  | Boolean x, Boolean y => Bool.eqb x y
  | Num x, Num y => num_eqb x y
  | Str x, Str y => x === y
  | Arr xs, Arr ys =>
      (fix all2 (xs ys : list value) : bool :=
         match xs, ys with
         | [], [] => true
         | x :: xs', y :: ys' => deepEqual x y && all2 xs' ys'
         | _, _ => false
         end) xs ys
  | Obj ps, Obj qs =>
      Nat.eqb (List.length ps) (List.length qs) &&
      (fix allProps (ps : list (string * value)) : bool :=
         match ps with
         | [] => true
         | (k, x) :: rest =>
             match lookup k qs with
             | Some y => deepEqual x y
             | None => false
             end && allProps rest
         end) ps
  | _, _ => false
  end.

(** ** Dates

    A valid [Date] is its time value, the milliseconds since the epoch.
    Local time is UTC shifted by a fixed offset [tz] (in milliseconds):
    daylight-saving changes are not modelled. *)

Definition msPerDay : Z := 86400000.

(** The number of the local calendar day a time value falls on. *)
Definition localDay (tz t : Z) : Z := (t + tz) / msPerDay.

(** [d.setHours(0, 0, 0, 0)]: local midnight of the day of [t]. *)
Definition Date_setHours0 (tz t : Z) : Z := localDay tz t * msPerDay - tz.

(** [d.setDate(d.getDate() + k)]: the same local time of day, [k]
    calendar days later. *)
Definition Date_addDays (t k : Z) : Z := t + k * msPerDay.

(** Days from 1970-01-01 to the proleptic Gregorian date [y]-[m]-[d]. *)
Definition daysFromCivil (y m d : Z) : Z :=
  let y' := if m <=? 2 then y - 1 else y in
  let era := y' / 400 in
  let yoe := y' - era * 400 in
  let doy := (153 * (if 2 <? m then m - 3 else m + 9) + 2) / 5 + d - 1 in
  let doe := yoe * 365 + yoe / 4 - yoe / 100 + doy in
  era * 146097 + doe - 719468.

Definition daysInMonth (y m : Z) : Z :=
  if m =? 2 then
    (if ((y mod 4 =? 0) && negb (y mod 100 =? 0)) || (y mod 400 =? 0) then 29 else 28)
  else if (m =? 4) || (m =? 6) || (m =? 9) || (m =? 11) then 30 else 31.

(** Exactly [n] decimal digits. *)
Fixpoint fixedDigits (n : nat) (acc : Z) (s : string) : option (Z * string) :=
  match n with
  | O => Some (acc, s)
  | S n' =>
      match s with
      | String c r =>
          match digitOf 10 c with
          | Some d => fixedDigits n' (10 * acc + d) r
          | None => None
          end
      | EmptyString => None
      end
  end.

Definition expect (c : ascii) (s : string) : option string :=
  match s with
  | String c' r => if Ascii.eqb c c' then Some r else None
  | EmptyString => None
  end.

Definition andThen {A B : Type} (o : option A) (k : A -> option B) : option B :=
  match o with Some a => k a | None => None end.

(** [Date.parse] on the format [toISOString] writes,
    [YYYY-MM-DDTHH:mm:ss.sssZ]; the milliseconds may be left out. *)
Definition Date_parse_ISO (s : string) : option Z :=
  andThen (fixedDigits 4 0 s) (fun '(y, s) =>
  andThen (expect "-" s) (fun s =>
  andThen (fixedDigits 2 0 s) (fun '(mo, s) =>
  andThen (expect "-" s) (fun s =>
  andThen (fixedDigits 2 0 s) (fun '(d, s) =>
  andThen (expect "T" s) (fun s =>
  andThen (fixedDigits 2 0 s) (fun '(h, s) =>
  andThen (expect ":" s) (fun s =>
  andThen (fixedDigits 2 0 s) (fun '(mi, s) =>
  andThen (expect ":" s) (fun s =>
  andThen (fixedDigits 2 0 s) (fun '(sec, s) =>
  andThen (match s with
           | String "." r => fixedDigits 3 0 r
           | _ => Some (0, s)
           end) (fun '(ms, s) =>
  if (s === "Z") && (1 <=? mo) && (mo <=? 12) && (1 <=? d) && (d <=? daysInMonth y mo)
     && (h <=? 23) && (mi <=? 59) && (sec <=? 59)
  then Some (daysFromCivil y mo d * msPerDay
             + h * 3600000 + mi * 60000 + sec * 1000 + ms)
  else None)))))))))))).

(** ** The random source

    [createId] draws from [crypto.randomUUID()] or [Math.random()]; the
    draws are the successive values of [random], [drawn] counts them. *)

Record World : Type := mkWorld { random : nat -> string; drawn : nat }.

Definition draw (w : World) : string * World :=
  (random w (drawn w), mkWorld (random w) (S (drawn w))).

(** Computations that may draw and may throw. *)
Definition M (A : Type) : Type := World -> outcome (A * World).

Definition ret {A : Type} (a : A) : M A := fun w => Return (a, w).

Definition bind {A B : Type} (c : M A) (k : A -> M B) : M B :=
  fun w => match c w with
           | Return (a, w') => k a w'
           | Throw e => Throw e
           end.

Definition lift {A : Type} (c : outcome A) : M A :=
  fun w => match c with
           | Return a => Return (a, w)
           | Throw e => Throw e
           end.

Declare Scope M_scope.
Delimit Scope M_scope with M.
Notation "x <~ c ;; k" := (bind c (fun x => k))
  (at level 61, c at next level, right associativity) : M_scope.

(** [xs.map((x, index) => f(x, index))], indices counted from [i]. *)
Fixpoint mapi {A B : Type} (f : A -> nat -> M B) (i : nat) (xs : list A) : M (list B) :=
  match xs with
  | [] => ret []
  | x :: rest =>
      bind (f x i) (fun y => bind (mapi f (S i) rest) (fun ys => ret (y :: ys)))
  end.

(** [xs.filter(Boolean)] on a list of entries and [null]s. *)
Fixpoint dropNulls {A : Type} (xs : list (option A)) : list A :=
  match xs with
  | [] => []
  | Some a :: rest => a :: dropNulls rest
  | None :: rest => dropNulls rest
  end.

(* ================================================================== *)
(** * The data model                                                   *)
(* ================================================================== *)

Module ExamEntry.
Record t : Type := mk {
  id : string;
  paper : string;
  mcq : number;
  essay : number;
  total : number;
  completion : number
}.
End ExamEntry.

(** [Omit<ExamEntry, "id">]. *)
Module ExamPayload.
Record t : Type := mk {
  paper : string;
  mcq : number;
  essay : number;
  total : number;
  completion : number
}.
End ExamPayload.

Module Subject.
Record t : Type := mk {
  id : string;
  name : string;
  exams : list ExamEntry.t
}.
End Subject.

Module AppState.
Record t : Type := mk {
  subjects : list Subject.t;
  activeSubjectId : string
}.
End AppState.

(** The object literal of each record, and the record read off a value
    that has its shape (the view behind the type guards
    [raw is ExamEntry], [raw is Subject] and [raw is AppState]). *)

Definition ExamEntry_toValue (e : ExamEntry.t) : value :=
  Obj [ ("id", Str (ExamEntry.id e));
        ("paper", Str (ExamEntry.paper e));
        ("mcq", Num (ExamEntry.mcq e));
        ("essay", Num (ExamEntry.essay e));
        ("total", Num (ExamEntry.total e));
        ("completion", Num (ExamEntry.completion e)) ].

Definition Subject_toValue (s : Subject.t) : value :=
  Obj [ ("id", Str (Subject.id s));
        ("name", Str (Subject.name s));
        ("exams", Arr (map ExamEntry_toValue (Subject.exams s))) ].

Definition AppState_toValue (s : AppState.t) : value :=
  Obj [ ("subjects", Arr (map Subject_toValue (AppState.subjects s)));
        ("activeSubjectId", Str (AppState.activeSubjectId s)) ].

Definition field (v : value) (k : string) : value :=
  match v with
  | Obj props => match lookup k props with Some x => x | None => Undefined end
  | _ => Undefined
  end.

Fixpoint traverse {A B : Type} (f : A -> option B) (xs : list A) : option (list B) :=
  match xs with
  | [] => Some []
  | x :: rest =>
      match f x, traverse f rest with
      | Some y, Some ys => Some (y :: ys)
      | _, _ => None
      end
  end.

Definition asExamEntry (v : value) : option ExamEntry.t :=
  match field v "id", field v "paper", field v "mcq", field v "essay",
        field v "total", field v "completion" with
  | Str id, Str paper, Num mcq, Num essay, Num total, Num completion =>
      Some (ExamEntry.mk id paper mcq essay total completion)
  | _, _, _, _, _, _ => None
  end.

Definition asSubject (v : value) : option Subject.t :=
  match field v "id", field v "name", field v "exams" with
  | Str id, Str name, Arr xs =>
      match traverse asExamEntry xs with
      | Some exams => Some (Subject.mk id name exams)
      | None => None
      end
  | _, _, _ => None
  end.

Definition asAppState (v : value) : option AppState.t :=
  match field v "subjects", field v "activeSubjectId" with
  | Arr xs, Str active =>
      match traverse asSubject xs with
      | Some subjects => Some (AppState.mk subjects active)
      | None => None
      end
  | _, _ => None
  end.

(** [Number.isFinite(v) ? Math.min(100, Math.max(0, v)) : 0]. *)
Definition clampCompletion (v : number) : number :=
  if Number_isFinite v then Math_min (ofZ 100) (Math_max (ofZ 0) v) else ofZ 0.

Inductive SessionType : Type := focus | break.

Definition FOCUS_DURATION : Z := 25 * 60.
Definition BREAK_DURATION : Z := 5 * 60.

(** ** Derived views and the clock face

    [chartData], [examSummaries] and [formatTime] read the same in the two
    variants of [App.tsx]. *)

Module ExamScore.
Record t : Type := mk {
  paper : string;
  total : number;
  mcq : number;
  essay : number
}.
End ExamScore.

(** [[...exams].slice(0, 6).reverse().map(({ paper, total, mcq, essay }) => ...)]. *)
Definition chartData (exams : list ExamEntry.t) : list ExamScore.t :=
  map (fun exam =>
         ExamScore.mk (ExamEntry.paper exam) (ExamEntry.total exam)
                      (ExamEntry.mcq exam) (ExamEntry.essay exam))
      (rev (firstn 6 exams)).

(** [exams.slice(0, 4)]. *)
Definition examSummaries (exams : list ExamEntry.t) : list ExamEntry.t := firstn 4 exams.

(** [n.toString()] for an integer [n] (below 10^21 in size). *)
Definition showInt (n : Z) : string :=
  if n <? 0 then "-" ++ showNat (Z.to_nat (- n)) else showNat (Z.to_nat n).

(** [s.padStart(2, "0")]. *)
Definition padStart2 (s : string) : string :=
  match String.length s with
  | O => "00"
  | S O => "0" ++ s
  | _ => s
  end.

(** [formatTime] of [PomodoroTimer], on a whole number of seconds:
    [Math.floor(value / 60)] and [Math.floor(value % 60)], each padded to
    two digits. *)
Definition formatTime (value : Z) : string :=
  let minutes := padStart2 (showInt (value / 60)) in
  let seconds := padStart2 (showInt (Z.rem value 60)) in
  minutes ++ ":" ++ seconds.

(* ================================================================== *)
(** * The local-storage variant                                        *)
(* ================================================================== *)

Module Local.

(** Both branches of [createId] build [`${prefix}-${r}`] from a drawn
    string [r] (a UUID, or up to eight base-36 digits, possibly none). *)
Definition createId (prefix : string) : M string :=
  fun w => let (r, w') := draw w in Return (prefix ++ "-" ++ r, w').

Definition DEFAULT_EXAMS : list ExamEntry.t :=
  [ ExamEntry.mk "exam-1" "2025 S2 MAIN PAPER 03" (ofZ 15) (ofZ 0) (ofZ 15) (ofZ 96);
    ExamEntry.mk "exam-2" "2025 FINAL PAPER 02" (ofZ 8) (ofZ 1) (ofZ 9) (ofZ 82);
    ExamEntry.mk "exam-3" "2025 FINAL PAPER 04" (ofZ 13) (ofZ 1) (ofZ 14) (ofZ 88);
    ExamEntry.mk "exam-4" "2025 FINAL PAPER 05" (ofZ 12) (ofZ 0) (ofZ 12) (ofZ 74) ].

Definition cloneExam (exam : ExamEntry.t) : ExamEntry.t := exam.

(** [typeof v === "string" && v.trim().length > 0]. *)
Definition nonBlankString (v : value) : outcome bool :=
  Return (typeof v === "string") &&&
  (t <- String_trim v ;; Return (0 <? String.length t)%nat).

Definition isValidExam (raw : value) : outcome bool :=
  Return (truthy raw) &&&
  Return (typeof raw === "object") &&&
  (id <- get raw "id" ;; nonBlankString id) &&&
  (paper <- get raw "paper" ;; nonBlankString paper) &&&
  (mcq <- get raw "mcq" ;; Return (typeof mcq === "number")) &&&
  (essay <- get raw "essay" ;; Return (typeof essay === "number")) &&&
  (total <- get raw "total" ;; Return (typeof total === "number")) &&&
  (completion <- get raw "completion" ;; Return (typeof completion === "number")).

Definition isValidSubject (raw : value) : outcome bool :=
  Return (truthy raw) &&&
  Return (typeof raw === "object") &&&
  (id <- get raw "id" ;; nonBlankString id) &&&
  (name <- get raw "name" ;; nonBlankString name) &&&
  (exams <- get raw "exams" ;; Return (Array_isArray exams)) &&&
  (exams <- get raw "exams" ;; xs <- asArray exams ;; every isValidExam xs).

Definition isValidAppState (raw : value) : outcome bool :=
  if negb (truthy raw) || negb (typeof raw === "object") || Array_isArray raw
  then Return false
  else
    subjects <- get raw "subjects" ;;
    (* [!Array.isArray(subjects) || subjects.length === 0] *)
    match subjects with
    | Arr [] => Return false
    | Arr xs =>
        activeSubjectId <- get raw "activeSubjectId" ;;
        match activeSubjectId with
        | Str active =>
            valid <- every isValidSubject xs ;;
            if negb valid then Return false
            else some (fun subject =>
                         id <- get subject "id" ;;
                         Return (match id with Str s => s === active | _ => false end))
                      xs
        | _ => Return false
        end
    | _ => Return false
    end.

Definition createDefaultState : M AppState.t :=
  bind (createId "subject") (fun subjectId =>
  ret (AppState.mk
         [ Subject.mk subjectId "Physics" (map cloneExam DEFAULT_EXAMS) ]
         subjectId)).

(** [typeof v === "string" && v.trim() ? thenS(v) : otherwise]. *)
Definition ifNonBlank {A : Type} (v : value) (thenS : string -> A) (otherwise : A) : A :=
  match v with
  | Str s => if isEmpty (trim s) then otherwise else thenS s
  | _ => otherwise
  end.

Definition sanitizeExam (raw : value) (index : nat) : M (option ExamEntry.t) :=
  if negb (truthy raw) || negb (typeof raw === "object") then ret None
  else
    (rawPaper <~ lift (get raw "paper") ;;
     let paper := ifNonBlank rawPaper trim ("Paper " ++ showNat (index + 1)) in
     rawMcq <~ lift (get raw "mcq") ;;
     mcqValue <~ lift (ToNumber (nullish rawMcq (Num (ofZ 0)))) ;;
     rawEssay <~ lift (get raw "essay") ;;
     essayValue <~ lift (ToNumber (nullish rawEssay (Num (ofZ 0)))) ;;
     rawTotal <~ lift (get raw "total") ;;
     totalValue <~ lift (ToNumber (nullish rawTotal (Num (num_add mcqValue essayValue)))) ;;
     rawCompletion <~ lift (get raw "completion") ;;
     completionValue <~ lift (ToNumber (nullish rawCompletion (Num (ofZ 0)))) ;;
     let mcq := if Number_isFinite mcqValue then mcqValue else ofZ 0 in
     let essay := if Number_isFinite essayValue then essayValue else ofZ 0 in
     let total := if Number_isFinite totalValue then totalValue else num_add mcq essay in
     let completion := clampCompletion completionValue in
     rawId <~ lift (get raw "id") ;;
     id <~ ifNonBlank rawId ret (createId "exam") ;;
     ret (Some (ExamEntry.mk id paper mcq essay total completion)))%M.

Definition sanitizeSubject (raw : value) (index : nat) : M (option Subject.t) :=
  if negb (truthy raw) || negb (typeof raw === "object") then ret None
  else
    (rawName <~ lift (get raw "name") ;;
     let name := ifNonBlank rawName trim ("Subject " ++ showNat (index + 1)) in
     rawId <~ lift (get raw "id") ;;
     id <~ ifNonBlank rawId ret (createId "subject") ;;
     rawExams <~ lift (get raw "exams") ;;
     let examsArray := match rawExams with Arr xs => xs | _ => [] end in
     sanitized <~ mapi sanitizeExam 0 examsArray ;;
     let exams := dropNulls sanitized in
     ret (Some (Subject.mk id name exams)))%M.

(** What [normalizeStoredValue] hands back: its argument, the very object
    it was given ([return value]), or a state built by an object
    literal. *)
Inductive Returned : Type :=
  | TheArgument
  | Built (state : AppState.t).

Definition normalizeStoredValue (value : value) : M Returned :=
  (valid <~ lift (isValidAppState value) ;;
   if valid then ret TheArgument
   else
     subjectsGuard <~ lift
       (Return (truthy value) &&&
        Return (typeof value === "object") &&&
        Return (negb (Array_isArray value)) &&&
        (subjects <- get value "subjects" ;; Return (Array_isArray subjects))) ;;
     if subjectsGuard then
       rawSubjects <~ lift (subjects <- get value "subjects" ;; asArray subjects) ;;
       (* the [forEach] that pushes every sanitized subject that is not null *)
       sanitized <~ mapi sanitizeSubject 0 rawSubjects ;;
       match dropNulls sanitized with
       | [] => state <~ createDefaultState ;; ret (Built state)
       | (first :: _) as sanitizedSubjects =>
           rawActive <~ lift (get value "activeSubjectId") ;;
           let activeSubjectId := ifNonBlank rawActive (fun s => s) (Subject.id first) in
           let activeSubjectId :=
             if negb (existsb (fun subject => Subject.id subject === activeSubjectId)
                              sanitizedSubjects)
             then Subject.id first else activeSubjectId in
           ret (Built (AppState.mk sanitizedSubjects activeSubjectId))
       end
     else
       match value with
       | Arr elems =>
           subjectId <~ createId "subject" ;;
           sanitized <~ mapi sanitizeExam 0 elems ;;
           let exams := dropNulls sanitized in
           ret (Built (AppState.mk [ Subject.mk subjectId "Physics" exams ] subjectId))
       | _ => state <~ createDefaultState ;; ret (Built state)
       end)%M.

(** *** The payload builder *)

Module ExamFormState.
Record t : Type := mk {
  paper : string;
  mcq : string;
  essay : string;
  total : string;
  completion : string
}.
End ExamFormState.

Definition prepareExamPayload (form : ExamFormState.t) : option ExamPayload.t :=
  let paper := trim (ExamFormState.paper form) in
  if isEmpty paper then None
  else
    let mcqValue := StringToNumber (ExamFormState.mcq form) in
    let essayValue := StringToNumber (ExamFormState.essay form) in
    let totalInput :=
      if negb (isEmpty (ExamFormState.total form))
      then StringToNumber (ExamFormState.total form)
      else num_add mcqValue essayValue in
    let completionValue := StringToNumber (ExamFormState.completion form) in
    let mcq := if Number_isFinite mcqValue then Math_max (ofZ 0) mcqValue else ofZ 0 in
    let essay := if Number_isFinite essayValue then Math_max (ofZ 0) essayValue else ofZ 0 in
    let totalCandidate := if Number_isFinite totalInput then totalInput else num_add mcq essay in
    let total := Math_max (ofZ 0) totalCandidate in
    let completion := clampCompletion completionValue in
    Some (ExamPayload.mk paper mcq essay total completion).

(** *** The Pomodoro timer

    [secondsLeft] only ever holds integers between 0 and [FOCUS_DURATION],
    on which Number arithmetic is exact: it is carried as an integer. *)

Record Timer : Type := mkTimer {
  timerOpen : bool;
  sessionType : SessionType;
  secondsLeft : Z;
  isRunning : bool;
  completedPomodoros : Z
}.

(** The [useState] initial values. *)
Definition initialTimer : Timer := mkTimer false focus FOCUS_DURATION false 0.

Definition setTimerOpen (v : bool) (t : Timer) : Timer :=
  mkTimer v (sessionType t) (secondsLeft t) (isRunning t) (completedPomodoros t).
Definition setSessionType (v : SessionType) (t : Timer) : Timer :=
  mkTimer (timerOpen t) v (secondsLeft t) (isRunning t) (completedPomodoros t).
Definition setSecondsLeft (v : Z) (t : Timer) : Timer :=
  mkTimer (timerOpen t) (sessionType t) v (isRunning t) (completedPomodoros t).
Definition setIsRunning (v : bool) (t : Timer) : Timer :=
  mkTimer (timerOpen t) (sessionType t) (secondsLeft t) v (completedPomodoros t).
Definition setCompletedPomodoros (v : Z) (t : Timer) : Timer :=
  mkTimer (timerOpen t) (sessionType t) (secondsLeft t) (isRunning t) v.

(** [nextSession === "focus" ? FOCUS_DURATION : BREAK_DURATION]. *)
Definition durationOf (s : SessionType) : Z :=
  match s with focus => FOCUS_DURATION | break => BREAK_DURATION end.

(** The effect on [timerOpen]: a closed timer is not running. *)
Definition timerOpenEffect (t : Timer) : Timer :=
  if negb (timerOpen t) then setIsRunning false t else t.

(** The interval callback: [setSecondsLeft((prev) => Math.max(0, prev - 1))]. *)
Definition tick (t : Timer) : Timer :=
  setSecondsLeft (Z.max 0 (secondsLeft t - 1)) t.

(** The countdown effect, run after a render: nothing when paused; the
    transition to the next session when the countdown has reached zero;
    otherwise it (re)installs the one-second interval, which changes no
    state. *)
Definition countdownEffect (t : Timer) : Timer :=
  if negb (isRunning t) then t
  else if secondsLeft t <=? 0 then
    let t1 := setIsRunning false t in
    let t2 := match sessionType t with
              | focus => setCompletedPomodoros (completedPomodoros t1 + 1) t1
              | break => t1
              end in
    let nextSession := match sessionType t with focus => break | break => focus end in
    setSecondsLeft (durationOf nextSession) (setSessionType nextSession t2)
  else t.

Definition handleSidebarClickAlerts (t : Timer) : Timer :=
  timerOpenEffect (setTimerOpen (negb (timerOpen t)) t).

Definition handleCloseTimer (t : Timer) : Timer :=
  timerOpenEffect (setTimerOpen false t).

Definition handleStartPauseTimer (t : Timer) : Timer :=
  setIsRunning (negb (isRunning t)) t.

Definition handleResetTimer (t : Timer) : Timer :=
  setCompletedPomodoros 0
    (setSecondsLeft FOCUS_DURATION (setSessionType focus (setIsRunning false t))).

Definition handleSkipSession (t : Timer) : Timer :=
  let nextSession := match sessionType t with focus => break | break => focus end in
  setIsRunning false (setSecondsLeft (durationOf nextSession) (setSessionType nextSession t)).

Definition handleSessionSelect (type : SessionType) (t : Timer) : Timer :=
  setIsRunning false (setSecondsLeft (durationOf type) (setSessionType type t)).

(** What can happen to the timer.  The interval callback is allowed in
    every state: an interval cleared by the effect's cleanup may still
    fire once before the cleanup runs. *)
Inductive TimerEvent : Type :=
  | IntervalTick
  | CountdownEffect
  | SidebarAlerts
  | CloseTimer
  | StartPause
  | ResetTimer
  | SkipSession
  | SessionSelect (type : SessionType).

Definition step (t : Timer) (e : TimerEvent) : Timer :=
  match e with
  | IntervalTick => tick t
  | CountdownEffect => countdownEffect t
  | SidebarAlerts => handleSidebarClickAlerts t
  | CloseTimer => handleCloseTimer t
  | StartPause => handleStartPauseTimer t
  | ResetTimer => handleResetTimer t
  | SkipSession => handleSkipSession t
  | SessionSelect type => handleSessionSelect type t
  end.

Definition run (events : list TimerEvent) : Timer := fold_left step events initialTimer.

(** *** The handlers that change the stored state

    A handler reads [activeSubject] off the state the component was
    rendered with, [rendered], and hands [updateState] an updater, which
    is applied to [current], the normalized stored value of that moment.
    Each handler is modelled by what it makes of [current]; where it
    returns before it calls [updateState], that is [current] itself. *)

(** [subjects.find((subject) => subject.id === state.activeSubjectId)
    ?? subjects[0]]. *)
Definition activeSubject (state : AppState.t) : option Subject.t :=
  match find (fun subject => Subject.id subject === AppState.activeSubjectId state)
             (AppState.subjects state) with
  | Some subject => Some subject
  | None => hd_error (AppState.subjects state)
  end.

(** [{ ...subject, exams }]. *)
Definition withExams (subject : Subject.t) (exams : list ExamEntry.t) : Subject.t :=
  Subject.mk (Subject.id subject) (Subject.name subject) exams.

(** [{ id, ...payload }] and [{ ...exam, ...payload }]. *)
Definition examOf (id : string) (payload : ExamPayload.t) : ExamEntry.t :=
  ExamEntry.mk id (ExamPayload.paper payload) (ExamPayload.mcq payload)
    (ExamPayload.essay payload) (ExamPayload.total payload)
    (ExamPayload.completion payload).

(** [id] is what [crypto.randomUUID()] or [`exam-${Date.now()}`] gives. *)
Definition handleAddExam (form : ExamFormState.t) (id : string)
           (rendered current : AppState.t) : AppState.t :=
  match prepareExamPayload form with
  | None => current
  | Some payload =>
      let newExam := examOf id payload in
      match activeSubject rendered with
      | None => current
      | Some active =>
          AppState.mk
            (map (fun subject =>
                    if Subject.id subject === Subject.id active
                    then withExams subject (newExam :: Subject.exams subject)
                    else subject)
                 (AppState.subjects current))
            (AppState.activeSubjectId current)
      end
  end.

(** [editingId] is [null] or a string; the empty string is falsy too. *)
Definition handleUpdateExam (editingId : option string) (editForm : ExamFormState.t)
           (rendered current : AppState.t) : AppState.t :=
  match editingId with
  | None => current
  | Some editing =>
      if isEmpty editing then current
      else
        match prepareExamPayload editForm with
        | None => current
        | Some payload =>
            match activeSubject rendered with
            | None => current
            | Some active =>
                AppState.mk
                  (map (fun subject =>
                          if negb (Subject.id subject === Subject.id active) then subject
                          else
                            withExams subject
                              (map (fun exam =>
                                      if ExamEntry.id exam === editing
                                      then examOf (ExamEntry.id exam) payload
                                      else exam)
                                   (Subject.exams subject)))
                       (AppState.subjects current))
                  (AppState.activeSubjectId current)
            end
        end
  end.

Definition handleDeleteExam (id : string) (rendered current : AppState.t) : AppState.t :=
  match activeSubject rendered with
  | None => current
  | Some active =>
      AppState.mk
        (map (fun subject =>
                if Subject.id subject === Subject.id active
                then withExams subject
                       (filter (fun exam => negb (ExamEntry.id exam === id))
                               (Subject.exams subject))
                else subject)
             (AppState.subjects current))
        (AppState.activeSubjectId current)
  end.

Definition handleSubjectSelect (subjectId : string) (current : AppState.t) : AppState.t :=
  if AppState.activeSubjectId current === subjectId then current
  else if negb (existsb (fun subject => Subject.id subject === subjectId)
                        (AppState.subjects current))
  then current
  else AppState.mk (AppState.subjects current) subjectId.

Definition handleCreateSubject (newSubjectName : string) (current : AppState.t)
  : M AppState.t :=
  let name := trim newSubjectName in
  if isEmpty name then ret current
  else
    bind (createId "subject") (fun subjectId =>
    ret (AppState.mk
           (AppState.subjects current ++ [ Subject.mk subjectId name [] ])
           subjectId)).

End Local.

(* ================================================================== *)
(** * The Supabase-backed variant                                      *)
(* ================================================================== *)

Module Remote.

(** *** The payload builder *)

Module ExamFormState.
Record t : Type := mk {
  paper : string;
  mcq : string;
  essay : string;
  completion : string
}.
End ExamFormState.

Definition prepareExamPayload (form : ExamFormState.t) : option ExamPayload.t :=
  let paper := trim (ExamFormState.paper form) in
  if isEmpty paper then None
  else
    let mcqValue := StringToNumber (ExamFormState.mcq form) in
    let essayValue := StringToNumber (ExamFormState.essay form) in
    let completionValue := StringToNumber (ExamFormState.completion form) in
    let mcq := if Number_isFinite mcqValue then Math_max (ofZ 0) mcqValue else ofZ 0 in
    let essay := if Number_isFinite essayValue then Math_max (ofZ 0) essayValue else ofZ 0 in
    let total := Math_max (ofZ 0) (num_add mcq essay) in
    let completion := clampCompletion completionValue in
    Some (ExamPayload.mk paper mcq essay total completion).

(** *** Focus entries

    [duration] is the column [duration integer] of [focus_entries], whole
    seconds far below 2^53: carried as an integer, where Number addition
    is exact. *)

Module FocusEntry.
Record t : Type := mk {
  id : string;
  timestamp : string;
  duration : Z
}.
End FocusEntry.

Definition getStartOfDay (tz date : Z) : Z := Date_setHours0 tz date.

(** Same year, month and date in local time: the same local day. *)
Definition isSameDay (tz a b : Z) : bool := localDay tz a =? localDay tz b.

(** *** The analytics aggregator *)

Module Bucket.
Record t : Type := mk { label : string; totalSeconds : Z }.
End Bucket.

Module DayStats.
Record t : Type := mk {
  totalSeconds : Z;
  entries : list (FocusEntry.t * Z)
}.
End DayStats.

Module PeriodStats.
Record t : Type := mk {
  totalSeconds : Z;
  breakdown : list Bucket.t
}.
End PeriodStats.

Module ProductivityStats.
Record t : Type := mk {
  day : DayStats.t;
  week : PeriodStats.t;
  month : PeriodStats.t;
  recentSessions : list (Z * Z)
}.
End ProductivityStats.

(** [entries.reduce((acc, entry) => acc + entry.duration, 0)]; a parsed
    entry is the entry paired with its [date]. *)
Definition sumDurations (entries : list (FocusEntry.t * Z)) : Z :=
  fold_left (fun acc entry => acc + FocusEntry.duration (fst entry)) entries 0.

(** Insertion into a list sorted by [(a, b) => b.date - a.date], before
    the first element that is not newer. *)
Fixpoint insertNewestFirst (x : FocusEntry.t * Z) (sorted : list (FocusEntry.t * Z))
  : list (FocusEntry.t * Z) :=
  match sorted with
  | [] => [x]
  | y :: rest => if snd x <? snd y then y :: insertNewestFirst x rest else x :: sorted
  end.

(** [xs.slice().sort((a, b) => b.date.getTime() - a.date.getTime())]
    (the sort is stable). *)
Definition sortNewestFirst (xs : list (FocusEntry.t * Z)) : list (FocusEntry.t * Z) :=
  fold_right insertNewestFirst [] xs.

Section Analytics.

(** [new Date(s).getTime()], [None] when it is NaN; the offset of local
    time; the short weekday name of a date in the host's locale. *)
Variable parse : string -> option Z.
Variable tz : Z.
Variable weekdayLabel : Z -> string.

Definition parseEntries (focusEntries : list FocusEntry.t) : list (FocusEntry.t * Z) :=
  dropNulls
    (map (fun entry =>
            match parse (FocusEntry.timestamp entry) with
            | None => None
            | Some date => Some (entry, date)
            end)
         focusEntries).

(** The [for] loop of the week breakdown, from index [i] with [n]
    indices left below 7. *)
Fixpoint weekLoop (weekStart todayStart : Z) (weekEntries : list (FocusEntry.t * Z))
         (n : nat) (i : Z) : list Bucket.t :=
  match n with
  | O => []
  | S n' =>
      let day := Date_addDays weekStart i in
      if todayStart <? day then []
      else
        let total :=
          fold_left (fun acc entry => acc + FocusEntry.duration (fst entry))
                    (filter (fun entry => isSameDay tz (snd entry) day) weekEntries) 0 in
        Bucket.mk (weekdayLabel day) total
          :: weekLoop weekStart todayStart weekEntries n' (i + 1)
  end.

(** The [while (cursor <= todayStart)] loop of the month breakdown;
    [fuel] bounds the number of iterations. *)
Fixpoint monthLoop (todayStart : Z) (monthEntries : list (FocusEntry.t * Z))
         (fuel : nat) (cursor : Z) (weekIndex : nat) : list Bucket.t :=
  match fuel with
  | O => []
  | S fuel' =>
      if cursor <=? todayStart then
        let periodStart := cursor in
        let periodEnd := Date_addDays cursor 6 in
        let periodEnd := if todayStart <? periodEnd then todayStart else periodEnd in
        let total :=
          fold_left (fun acc entry => acc + FocusEntry.duration (fst entry))
                    (filter (fun entry => (periodStart <=? snd entry) && (snd entry <=? periodEnd))
                            monthEntries) 0 in
        Bucket.mk ("Week " ++ showNat weekIndex) total
          :: monthLoop todayStart monthEntries fuel' (Date_addDays cursor 7) (S weekIndex)
      else []
  end.

(** The cursor advances by seven days from 29 days before today: the
    loop body runs five times. *)
Definition monthIterations : nat := 5.

Definition productivityStats (now : Z) (focusEntries : list FocusEntry.t)
  : ProductivityStats.t :=
  let todayStart := getStartOfDay tz now in
  let weekStart := Date_addDays todayStart (-6) in
  let monthStart := Date_addDays todayStart (-29) in
  let parsedEntries := parseEntries focusEntries in
  let dayEntries := filter (fun entry => todayStart <=? snd entry) parsedEntries in
  let weekEntries := filter (fun entry => weekStart <=? snd entry) parsedEntries in
  let monthEntries := filter (fun entry => monthStart <=? snd entry) parsedEntries in
  let weekBreakdown := weekLoop weekStart todayStart weekEntries 7 0 in
  let monthBreakdown := monthLoop todayStart monthEntries monthIterations monthStart 1 in
  let recentSessions :=
    map (fun entry => (snd entry, FocusEntry.duration (fst entry)))
        (firstn 5 (sortNewestFirst dayEntries)) in
  ProductivityStats.mk
    (DayStats.mk (sumDurations dayEntries) dayEntries)
    (PeriodStats.mk (sumDurations weekEntries) weekBreakdown)
    (PeriodStats.mk (sumDurations monthEntries) monthBreakdown)
    recentSessions.

End Analytics.

(** *** The backend

    The table [focus_entries], which the client reaches through requests
    that the backend accepts or rejects. *)

Module FocusRow.
Record t : Type := mk {
  duration : Z;
  started_at : string;
  user_id : string
}.
End FocusRow.

Module SupabaseFocusEntryRow.
Record t : Type := mk {
  id : string;
  duration : option Z;
  started_at : option string
}.
End SupabaseFocusEntryRow.

Inductive Reply (A : Type) : Type :=
  | Data (data : A)
  | Failed (message : string).
Arguments Data {A} data.
Arguments Failed {A} message.

(** What the outside answers to the requests of one run that nothing
    interrupts: the backend's replies to the insert and to the select
    that follows it, and the clock ([new Date().toISOString()]). *)
Record Net : Type := mkNet {
  insertReply : Reply unit;
  selectReply : Reply (list SupabaseFocusEntryRow.t);
  nowISO : string
}.

(** What goes on once an awaited call is over.  The countdown effect
    leaves the promise of [recordFocusSession] to itself; the handler
    [handleSkipSession] awaits it and runs its last three statements
    afterwards, with the [sessionType] of the render in which Skip was
    pressed. *)
Inductive Continuation : Type :=
  | Detached
  | SkipHandler (sessionAtClick : SessionType).

(** A request in flight: [recordFocusSession] awaits the insert of [row]
    and then, through [loadFocusEntries], the select; [handleSignOut]
    awaits [supabase.auth.signOut()].  Between the request and its reply
    anything else may happen. *)
Inductive Task : Type :=
  | Inserting (row : FocusRow.t) (k : Continuation)
  | Reloading (k : Continuation)
  | SigningOut.

(** The component state the timer and the recording touch, the table,
    and the requests in flight. *)
Record App : Type := mkApp {
  user : option string;
  error : option string;
  focusEntries : list FocusEntry.t;
  timerOpen : bool;
  sessionType : SessionType;
  secondsLeft : Z;
  isRunning : bool;
  productivityOpen : bool;
  focus_entries : list FocusRow.t;
  pending : list Task
}.

Definition setError (v : option string) (a : App) : App :=
  mkApp (user a) v (focusEntries a) (timerOpen a) (sessionType a) (secondsLeft a)
        (isRunning a) (productivityOpen a) (focus_entries a) (pending a).
Definition setFocusEntries (v : list FocusEntry.t) (a : App) : App :=
  mkApp (user a) (error a) v (timerOpen a) (sessionType a) (secondsLeft a)
        (isRunning a) (productivityOpen a) (focus_entries a) (pending a).
Definition setTimerOpen (v : bool) (a : App) : App :=
  mkApp (user a) (error a) (focusEntries a) v (sessionType a) (secondsLeft a)
        (isRunning a) (productivityOpen a) (focus_entries a) (pending a).
Definition setSessionType (v : SessionType) (a : App) : App :=
  mkApp (user a) (error a) (focusEntries a) (timerOpen a) v (secondsLeft a)
        (isRunning a) (productivityOpen a) (focus_entries a) (pending a).
Definition setSecondsLeft (v : Z) (a : App) : App :=
  mkApp (user a) (error a) (focusEntries a) (timerOpen a) (sessionType a) v
        (isRunning a) (productivityOpen a) (focus_entries a) (pending a).
Definition setIsRunning (v : bool) (a : App) : App :=
  mkApp (user a) (error a) (focusEntries a) (timerOpen a) (sessionType a) (secondsLeft a)
        v (productivityOpen a) (focus_entries a) (pending a).
Definition setProductivityOpen (v : bool) (a : App) : App :=
  mkApp (user a) (error a) (focusEntries a) (timerOpen a) (sessionType a) (secondsLeft a)
        (isRunning a) v (focus_entries a) (pending a).
Definition setPending (v : list Task) (a : App) : App :=
  mkApp (user a) (error a) (focusEntries a) (timerOpen a) (sessionType a) (secondsLeft a)
        (isRunning a) (productivityOpen a) (focus_entries a) v.
(** The backend storing a row. *)
Definition insertRow (row : FocusRow.t) (a : App) : App :=
  mkApp (user a) (error a) (focusEntries a) (timerOpen a) (sessionType a) (secondsLeft a)
        (isRunning a) (productivityOpen a) (focus_entries a ++ [row]) (pending a).

(** A request is sent. *)
Definition addTask (task : Task) (a : App) : App :=
  setPending (pending a ++ [task]) a.

(** The list without its element at [i]. *)
Definition removeNth {A : Type} (i : nat) (l : list A) : list A :=
  firstn i l ++ skipn (S i) l.

(** The timer is rendered for a signed-in user only; the initial values
    of [useState] around it.  A run is taken while this user stays
    signed in. *)
Definition initialApp (u : string) : App :=
  mkApp (Some u) None [] false focus FOCUS_DURATION false false [] [].

Definition durationOf (s : SessionType) : Z :=
  match s with focus => FOCUS_DURATION | break => BREAK_DURATION end.

Section Handlers.

(** Exported by [lib/supabaseClient]: whether the environment variables
    are set. *)
Variable isSupabaseConfigured : bool.

Definition timerOpenEffect (a : App) : App :=
  if negb (timerOpen a) then setIsRunning false a else a.

(** The last three statements of [handleSkipSession]. *)
Definition afterSkip (sessionAtClick : SessionType) (a : App) : App :=
  let nextSession := match sessionAtClick with focus => break | break => focus end in
  setIsRunning false (setSecondsLeft (durationOf nextSession) (setSessionType nextSession a)).

(** An awaited call is over: what awaits it goes on, before any other
    event. *)
Definition resume (k : Continuation) (a : App) : App :=
  match k with
  | Detached => a
  | SkipHandler sessionAtClick => afterSkip sessionAtClick a
  end.

(** [loadFocusEntries] up to its [await]: it returns at once without a
    user or a configured backend, and sends the select otherwise. *)
Definition loadFocusEntries (k : Continuation) (a : App) : App :=
  match user a with
  | None => resume k (setFocusEntries [] a)
  | Some _ =>
      if negb isSupabaseConfigured then resume k (setFocusEntries [] a)
      else addTask (Reloading k) (setError None a)
  end.

(** [loadFocusEntries] from the reply to the select on; [now] is the
    clock at that moment. *)
Definition loadFocusEntriesReply (reply : Reply (list SupabaseFocusEntryRow.t))
           (now : string) (k : Continuation) (a : App) : App :=
  resume k
    match reply with
    | Failed message => setFocusEntries [] (setError (Some message) a)
    | Data rows =>
        setFocusEntries
          (map (fun entry =>
                  FocusEntry.mk
                    (SupabaseFocusEntryRow.id entry)
                    (match SupabaseFocusEntryRow.started_at entry with
                     | Some s => s
                     | None => now
                     end)
                    (match SupabaseFocusEntryRow.duration entry with
                     | Some d => d
                     | None => 0
                     end))
               rows)
          a
    end.

(** [recordFocusSession(duration)] up to its [await]: it returns at once
    with an error message without a user or a configured backend, and
    sends the insert otherwise; [now] is the clock at the call. *)
Definition recordFocusSession (now : string) (duration : Z) (k : Continuation) (a : App)
  : App :=
  match user a with
  | None => resume k (setError (Some "You must be signed in to record focus sessions.") a)
  | Some userId =>
      if negb isSupabaseConfigured
      then resume k (setError (Some "Supabase environment variables are missing.") a)
      else addTask (Inserting (FocusRow.mk duration now userId) k) a
  end.

(** [recordFocusSession] from the reply to the insert on: a rejected
    insert leaves its message; an accepted one has stored the row, and
    the entries are loaded again. *)
Definition recordFocusSessionReply (row : FocusRow.t) (reply : Reply unit)
           (k : Continuation) (a : App) : App :=
  match reply with
  | Failed message => resume k (setError (Some message) a)
  | Data _ => loadFocusEntries k (insertRow row a)
  end.

Definition tick (a : App) : App :=
  setSecondsLeft (Z.max 0 (secondsLeft a - 1)) a.

(** The countdown effect; it does not await the recording it starts. *)
Definition countdownEffect (now : string) (a : App) : App :=
  if negb (isRunning a) then a
  else
    let sessionDuration := durationOf (sessionType a) in
    if secondsLeft a <=? 0 then
      let a1 := setIsRunning false a in
      let a2 := match sessionType a with
                | focus => recordFocusSession now sessionDuration Detached a1
                | break => a1
                end in
      let nextSession := match sessionType a with focus => break | break => focus end in
      setSecondsLeft (durationOf nextSession) (setSessionType nextSession a2)
    else a.

(** The three branches of [handleSidebarClick], each followed by the
    effect on [timerOpen]; [libraryOpen], which nothing here reads, is
    left out. *)
Definition handleSidebarClickPapers (a : App) : App :=
  timerOpenEffect (setProductivityOpen false (setTimerOpen false a)).

Definition handleSidebarClickAlerts (a : App) : App :=
  let next := negb (timerOpen a) in
  timerOpenEffect (setTimerOpen next (if next then setProductivityOpen false a else a)).

Definition handleSidebarClickAnalytics (a : App) : App :=
  let next := negb (productivityOpen a) in
  timerOpenEffect (setProductivityOpen next (if next then setTimerOpen false a else a)).

(** [onClose] of the productivity panel. *)
Definition handleCloseProductivity (a : App) : App :=
  setProductivityOpen false a.

Definition handleCloseTimer (a : App) : App :=
  timerOpenEffect (setTimerOpen false a).

Definition handleStartPauseTimer (a : App) : App :=
  setIsRunning (negb (isRunning a)) a.

Definition handleResetTimer (a : App) : App :=
  setSecondsLeft FOCUS_DURATION (setSessionType focus (setIsRunning false a)).

(** [handleSkipSession] up to its [await]: in a focus session it starts
    the recording and goes on when that is over; in a break it awaits
    nothing. *)
Definition handleSkipSession (now : string) (a : App) : App :=
  let sessionDuration := durationOf (sessionType a) in
  match sessionType a with
  | focus => recordFocusSession now sessionDuration (SkipHandler (sessionType a)) a
  | break => afterSkip (sessionType a) a
  end.

Definition handleSessionSelect (type : SessionType) (a : App) : App :=
  setIsRunning false (setSecondsLeft (durationOf type) (setSessionType type a)).

(** [handleSignOut] up to its [await], and from the reply on (a call
    that throws leaves its message like one that reports an error).
    [user] is not this handler's to set but the auth listener's; a
    request in flight keeps the [user] of the render that sent it, and
    without a user there is no timer on the page to click. *)
Definition handleSignOut (a : App) : App :=
  addTask SigningOut (setError None a).

Definition handleSignOutReply (reply : Reply unit) (a : App) : App :=
  match reply with
  | Failed message => setError (Some message) a
  | Data _ =>
      timerOpenEffect
        (setProductivityOpen false (setTimerOpen false (setFocusEntries [] a)))
  end.

(** What can happen to the timer: the interval callback (allowed in
    every state, as an interval may fire once more before its cleanup
    runs), the countdown effect, the clicks, and the replies to the
    requests in flight, in any order; [i] is the place of the request
    among those in flight. *)
Inductive TimerEvent : Type :=
  | IntervalTick
  | CountdownEffect (now : string)
  | SidebarPapers
  | SidebarAlerts
  | SidebarAnalytics
  | CloseProductivity
  | CloseTimer
  | StartPause
  | ResetTimer
  | SkipSession (now : string)
  | SessionSelect (type : SessionType)
  | SignOut
  | InsertSettles (i : nat) (reply : Reply unit)
  | SelectSettles (i : nat) (reply : Reply (list SupabaseFocusEntryRow.t)) (now : string)
  | SignOutSettles (i : nat) (reply : Reply unit).

Definition step (a : App) (e : TimerEvent) : App :=
  match e with
  | IntervalTick => tick a
  | CountdownEffect now => countdownEffect now a
  | SidebarPapers => handleSidebarClickPapers a
  | SidebarAlerts => handleSidebarClickAlerts a
  | SidebarAnalytics => handleSidebarClickAnalytics a
  | CloseProductivity => handleCloseProductivity a
  | CloseTimer => handleCloseTimer a
  | StartPause => handleStartPauseTimer a
  | ResetTimer => handleResetTimer a
  | SkipSession now => handleSkipSession now a
  | SessionSelect type => handleSessionSelect type a
  | SignOut => handleSignOut a
  | InsertSettles i reply =>
      match nth_error (pending a) i with
      | Some (Inserting row k) =>
          recordFocusSessionReply row reply k (setPending (removeNth i (pending a)) a)
      | _ => a
      end
  | SelectSettles i reply now =>
      match nth_error (pending a) i with
      | Some (Reloading k) =>
          loadFocusEntriesReply reply now k (setPending (removeNth i (pending a)) a)
      | _ => a
      end
  | SignOutSettles i reply =>
      match nth_error (pending a) i with
      | Some SigningOut =>
          handleSignOutReply reply (setPending (removeNth i (pending a)) a)
      | _ => a
      end
  end.

Definition run (u : string) (events : list TimerEvent) : App :=
  fold_left step events (initialApp u).

(** The event [e], and the requests it sends answered from [net] before
    anything else happens: a request sent from [a] takes the place
    [length (pending a)] among those in flight, and the select that
    follows an accepted insert takes it over. *)
Definition thenSettled (net : Net) (a : App) (e : TimerEvent) : App :=
  let i := List.length (pending a) in
  step (step (step a e) (InsertSettles i (insertReply net)))
       (SelectSettles i (selectReply net) (nowISO net)).

End Handlers.


(** *** Durations as text *)

Definition formatDuration (seconds : Z) : string :=
  let totalMinutes := Z.max 0 (seconds / 60) in
  let minutesPerDay := 24 * 60 in
  let days := totalMinutes / minutesPerDay in
  let hours := (Z.rem totalMinutes minutesPerDay) / 60 in
  let minutes := Z.rem totalMinutes 60 in
  let parts := if 0 <? days then [ showInt days ++ "d" ] else [] in
  let parts :=
    if (0 <? hours) || (0 <? days)
    then app parts [ showInt hours ++ "h" ] else parts in
  let parts := app parts [ showInt minutes ++ "m" ] in
  String.concat " " parts.

(** *** Loading the subjects *)

Module SupabaseExamRow.
Record t : Type := mk {
  id : string;
  paper : string;
  mcq : option number;
  essay : option number;
  total : option number;
  completion : option number
}.
End SupabaseExamRow.

Module SupabaseSubjectRow.
Record t : Type := mk {
  id : string;
  name : string;
  exams : option (list SupabaseExamRow.t)
}.
End SupabaseSubjectRow.

(** The subjects, the selection and the error message of the
    component. *)
Record Library : Type := mkLibrary {
  subjects : list Subject.t;
  activeSubjectId : option string;
  libraryError : option string
}.

(** [Number(v ?? 0)] on a column that is a number or [null]. *)
Definition numberOr0 (v : option number) : number :=
  match v with Some n => n | None => ofZ 0 end.

Definition mapSubjectRows (data : list SupabaseSubjectRow.t) : list Subject.t :=
  map (fun subject =>
         Subject.mk
           (SupabaseSubjectRow.id subject)
           (SupabaseSubjectRow.name subject)
           (map (fun exam =>
                   ExamEntry.mk
                     (SupabaseExamRow.id exam)
                     (SupabaseExamRow.paper exam)
                     (numberOr0 (SupabaseExamRow.mcq exam))
                     (numberOr0 (SupabaseExamRow.essay exam))
                     (numberOr0 (SupabaseExamRow.total exam))
                     (numberOr0 (SupabaseExamRow.completion exam)))
                (match SupabaseSubjectRow.exams subject with
                 | Some rows => rows
                 | None => []
                 end)))
      data.

(** [loadSubjects] for the signed-in user [user] (or [None]), given
    whether Supabase is configured and the backend's reply to the
    select. *)
Definition loadSubjects (user : option string) (isSupabaseConfigured : bool)
           (reply : Reply (list SupabaseSubjectRow.t)) (lib : Library) : Library :=
  match user with
  | None => mkLibrary [] None (libraryError lib)
  | Some _ =>
      if negb isSupabaseConfigured then mkLibrary [] None (libraryError lib)
      else
        match reply with
        | Failed message => mkLibrary [] (activeSubjectId lib) (Some message)
        | Data data =>
            let mapped := mapSubjectRows data in
            let active :=
              match activeSubjectId lib with
              | Some previous =>
                  if negb (isEmpty previous)
                     && existsb (fun subject => Subject.id subject === previous) mapped
                  then Some previous
                  else option_map Subject.id (hd_error mapped)
              | None => option_map Subject.id (hd_error mapped)
              end in
            mkLibrary mapped active None
        end
  end.

(** [subjects.find((subject) => subject.id === activeSubjectId) ?? subjects[0]]. *)
Definition activeSubject (lib : Library) : option Subject.t :=
  match find (fun subject =>
                match activeSubjectId lib with
                | Some active => Subject.id subject === active
                | None => false
                end)
             (subjects lib) with
  | Some subject => Some subject
  | None => hd_error (subjects lib)
  end.

End Remote.

(* ================================================================== *)
(** * The vocabulary of the properties                                 *)
(* ================================================================== *)

(** The AppState a call of [normalizeStoredValue] on [arg] hands back, and
    the same as a value. *)
Definition stateOf (arg : value) (r : Local.Returned) : option AppState.t :=
  match r with
  | Local.TheArgument => asAppState arg
  | Local.Built state => Some state
  end.

Definition resultValue (arg : value) (r : Local.Returned) : value :=
  match r with
  | Local.TheArgument => arg
  | Local.Built state => AppState_toValue state
  end.

Fixpoint distinct (l : list string) : bool :=
  match l with
  | [] => true
  | x :: rest => negb (existsb (String.eqb x) rest) && distinct rest
  end.

(** [0 <= c && c <= 100]. *)
Definition inRange (c : number) : bool := num_leb (ofZ 0) c && num_leb c (ofZ 100).

Definition subjectsNonEmpty (s : AppState.t) : bool :=
  negb (Nat.eqb (List.length (AppState.subjects s)) 0).

Definition subjectIdsNonEmpty (s : AppState.t) : bool :=
  forallb (fun subject => negb (isEmpty (Subject.id subject))) (AppState.subjects s).

Definition subjectIdsUnique (s : AppState.t) : bool :=
  distinct (map Subject.id (AppState.subjects s)).

Definition examIdsNonEmpty (s : AppState.t) : bool :=
  forallb (fun subject =>
             forallb (fun exam => negb (isEmpty (ExamEntry.id exam))) (Subject.exams subject))
          (AppState.subjects s).

Definition examIdsUnique (s : AppState.t) : bool :=
  forallb (fun subject => distinct (map ExamEntry.id (Subject.exams subject)))
          (AppState.subjects s).

Definition completionsInRange (s : AppState.t) : bool :=
  forallb (fun subject =>
             forallb (fun exam => inRange (ExamEntry.completion exam)) (Subject.exams subject))
          (AppState.subjects s).

Definition activeResolves (s : AppState.t) : bool :=
  existsb (fun subject => Subject.id subject === AppState.activeSubjectId s)
          (AppState.subjects s).

(** No object anywhere in [v] has an own property named [toString]: the
    values on which [Number(...)] cannot throw. *)
Fixpoint plain (v : value) : bool :=
  match v with
  | Arr elems => forallb plain elems
  | Obj props =>
      negb (hasOwn "toString" props) &&
      forallb (fun kv => plain (snd kv)) props
  | _ => true
  end.

(** What JSON carries as it is: no [undefined] element or property, every
    number finite; and the keys of an object are distinct. *)
Fixpoint jsonData (v : value) : bool :=
  match v with
  | Undefined => false
  | Num n => Number_isFinite n
  | Arr elems => forallb jsonData elems
  | Obj props =>
      distinct (map fst props) &&
      forallb (fun kv => jsonData (snd kv)) props
  | _ => true
  end.

(** A number floored at 0: [+0] or a positive finite number. *)
Definition floored (n : number) : bool :=
  match n with
  | S754_zero false | S754_finite false _ _ => true
  | _ => false
  end.

(** An exam entry as claimed of the sanitizer: non-empty paper and id,
    finite numeric fields, completion within 0..100. *)
Definition completeExam (e : ExamEntry.t) : bool :=
  negb (isEmpty (ExamEntry.paper e)) &&
  negb (isEmpty (ExamEntry.id e)) &&
  Number_isFinite (ExamEntry.mcq e) &&
  Number_isFinite (ExamEntry.essay e) &&
  Number_isFinite (ExamEntry.total e) &&
  Number_isFinite (ExamEntry.completion e) &&
  inRange (ExamEntry.completion e).

Definition isObject (v : value) : bool :=
  match v with Arr _ | Obj _ => true | _ => false end.

(** The sum of the buckets of a breakdown. *)
Definition bucketsTotal (bs : list Remote.Bucket.t) : Z :=
  fold_left (fun acc b => acc + Remote.Bucket.totalSeconds b) bs 0.

(** What one call of [recordFocusSession] adds to the table. *)
Definition rowsRecorded (cfg : bool) (net : Remote.Net) (duration : Z) (a : Remote.App)
  : list Remote.FocusRow.t :=
  match Remote.user a, cfg, Remote.insertReply net with
  | Some userId, true, Remote.Data _ =>
      [ Remote.FocusRow.mk duration (Remote.nowISO net) userId ]
  | _, _, _ => []
  end.

(** What a step does to the session and its clock: it keeps both, or it
    leaves the clock at the full duration of the session it shows. *)
Definition clockKept (a a' : Remote.App) : Prop :=
  Remote.sessionType a' = Remote.sessionType a /\
  Remote.secondsLeft a' = Remote.secondsLeft a.

Definition clockReset (a' : Remote.App) : Prop :=
  Remote.secondsLeft a' = Remote.durationOf (Remote.sessionType a').

(** The conditions the type guards test, read as plain booleans. *)

Definition nonBlank (v : value) : bool :=
  match v with
  | Str s => negb (isEmpty (trim s))
  | _ => false
  end.

Definition isNumber (v : value) : bool :=
  match v with Num _ => true | _ => false end.

Definition validExam (raw : value) : bool :=
  isObject raw &&
  nonBlank (field raw "id") &&
  nonBlank (field raw "paper") &&
  isNumber (field raw "mcq") &&
  isNumber (field raw "essay") &&
  isNumber (field raw "total") &&
  isNumber (field raw "completion").

Definition validSubject (raw : value) : bool :=
  isObject raw &&
  nonBlank (field raw "id") &&
  nonBlank (field raw "name") &&
  Array_isArray (field raw "exams") &&
  match field raw "exams" with
  | Arr xs => forallb validExam xs
  | _ => false
  end.

Definition hasId (active : string) (subject : value) : bool :=
  match field subject "id" with
  | Str s => s === active
  | _ => false
  end.

Definition validAppState (raw : value) : bool :=
  match raw with
  | Obj _ =>
      match field raw "subjects", field raw "activeSubjectId" with
      | Arr (x :: xs), Str active =>
          forallb validSubject (x :: xs) && existsb (hasId active) (x :: xs)
      | _, _ => false
      end
  | _ => false
  end.

(** [c], run in [w], returns normally a value that satisfies [Q]. *)
Definition returns {A : Type} (c : M A) (w : World) (Q : A -> Prop) : Prop :=
  exists a w', c w = Return (a, w') /\ Q a.

(** What [sanitizeExam] establishes of an entry it builds: non-empty paper
    and id; finite mcq, essay and completion; completion within 0..100;
    and a total that is finite or the sum of mcq and essay. *)
Definition repairedExam (e : ExamEntry.t) : Prop :=
  isEmpty (ExamEntry.paper e) = false /\
  isEmpty (ExamEntry.id e) = false /\
  Number_isFinite (ExamEntry.mcq e) = true /\
  Number_isFinite (ExamEntry.essay e) = true /\
  Number_isFinite (ExamEntry.completion e) = true /\
  inRange (ExamEntry.completion e) = true /\
  (Number_isFinite (ExamEntry.total e) = true
   \/ ExamEntry.total e = num_add (ExamEntry.mcq e) (ExamEntry.essay e)).

Definition repairedSubject (s : Subject.t) : Prop :=
  isEmpty (Subject.id s) = false /\
  isEmpty (Subject.name s) = false /\
  Forall repairedExam (Subject.exams s).

(** The state [normalizeStoredValue] builds when it does not hand back
    its argument. *)
Definition builtState (r : Local.Returned) : Prop :=
  exists s, r = Local.Built s /\
            subjectsNonEmpty s = true /\ subjectIdsNonEmpty s = true /\
            examIdsNonEmpty s = true /\ activeResolves s = true /\
            completionsInRange s = true.

(** The value a computation returns, its final world dropped. *)
Definition resultOf {A : Type} (o : outcome (A * World)) : outcome A :=
  match o with
  | Return (a, _) => Return a
  | Throw e => Throw e
  end.

(** A fixed random source for the worked examples. *)
Definition sampleWorld : World := mkWorld (fun n => "r" ++ showNat n) 0.

(** The sum of [f] over a list. *)
Definition sumOf {A : Type} (f : A -> Z) (l : list A) : Z :=
  fold_right Z.add 0 (map f l).

(** The duration of a parsed entry. *)
Definition durationOf (entry : Remote.FocusEntry.t * Z) : Z :=
  Remote.FocusEntry.duration (fst entry).

(** The five periods of the month breakdown: period [k] opens [29 - 7k]
    days before today's midnight and closes six days later, the last one
    at today's midnight. *)
Definition inMonthPeriod (todayStart : Z) (k : Z) (d : Z) : bool :=
  let periodStart := Date_addDays (Date_addDays todayStart (-29)) (7 * k) in
  (periodStart <=? d) && (d <=? Z.min (Date_addDays periodStart 6) todayStart).

Definition inMonthPeriods (todayStart d : Z) : bool :=
  existsb (fun k => inMonthPeriod todayStart k d) [0; 1; 2; 3; 4].

(** The character of a decimal digit. *)
Definition digitChar (n : Z) : ascii := ascii_of_nat (48 + Z.to_nat n).

(** The five characters [mm:ss] of a number of seconds. *)
Definition clockFace (v : Z) : string :=
  String (digitChar (v / 600))
    (String (digitChar (v / 60 mod 10))
       (String ":"
          (String (digitChar (v mod 60 / 10))
             (String (digitChar (v mod 10)) "")))).

(** What the type guards ask of a state, read off the records: a
    non-blank id and paper for every exam, a non-blank id and name for
    every subject, at least one subject, and an active id that names
    one. *)
Definition guardedExam (e : ExamEntry.t) : bool :=
  negb (isEmpty (trim (ExamEntry.id e))) && negb (isEmpty (trim (ExamEntry.paper e))).

Definition guardedSubject (s : Subject.t) : bool :=
  negb (isEmpty (trim (Subject.id s))) && negb (isEmpty (trim (Subject.name s))) &&
  forallb guardedExam (Subject.exams s).

Definition guardedState (s : AppState.t) : bool :=
  subjectsNonEmpty s && forallb guardedSubject (AppState.subjects s) && activeResolves s.

(** [after] holds the subjects of [before], in their order and under
    their ids and names; the exams of a subject may differ only where
    its id is [touched]. *)
Definition sameSubjectsBut (touched : option string) (before after : AppState.t) : Prop :=
  AppState.activeSubjectId after = AppState.activeSubjectId before /\
  Forall2 (fun b a =>
             Subject.id a = Subject.id b /\ Subject.name a = Subject.name b /\
             (touched <> Some (Subject.id b) -> a = b))
          (AppState.subjects before) (AppState.subjects after).

(** An exam entry the sanitizer has nothing to repair in, its completion
    apart: a non-blank id, a paper that is trimmed and not empty, finite
    marks.  And a subject of such entries. *)
Definition wellFormedExam (e : ExamEntry.t) : bool :=
  negb (isEmpty (trim (ExamEntry.id e))) &&
  (trim (ExamEntry.paper e) === ExamEntry.paper e) &&
  negb (isEmpty (ExamEntry.paper e)) &&
  Number_isFinite (ExamEntry.mcq e) &&
  Number_isFinite (ExamEntry.essay e) &&
  Number_isFinite (ExamEntry.total e).

Definition wellFormedSubject (s : Subject.t) : bool :=
  negb (isEmpty (trim (Subject.id s))) &&
  (trim (Subject.name s) === Subject.name s) &&
  negb (isEmpty (Subject.name s)) &&
  forallb wellFormedExam (Subject.exams s).

(** The entry with its completion clamped to 0..100. *)
Definition clampExam (e : ExamEntry.t) : ExamEntry.t :=
  ExamEntry.mk (ExamEntry.id e) (ExamEntry.paper e) (ExamEntry.mcq e) (ExamEntry.essay e)
    (ExamEntry.total e) (clampCompletion (ExamEntry.completion e)).

Definition clampSubject (s : Subject.t) : Subject.t :=
  Subject.mk (Subject.id s) (Subject.name s) (map clampExam (Subject.exams s)).

(** The part of the state the timers of the two variants share. *)
Definition localView (t : Local.Timer) : bool * SessionType * Z * bool :=
  (Local.timerOpen t, Local.sessionType t, Local.secondsLeft t, Local.isRunning t).

Definition remoteView (a : Remote.App) : bool * SessionType * Z * bool :=
  (Remote.timerOpen a, Remote.sessionType a, Remote.secondsLeft a, Remote.isRunning a).

(** An event of the local-storage timer as the Supabase variant has it;
    [now] is the clock when it happens. *)
Definition asRemote (now : string) (e : Local.TimerEvent) : Remote.TimerEvent :=
  match e with
  | Local.IntervalTick => Remote.IntervalTick
  | Local.CountdownEffect => Remote.CountdownEffect now
  | Local.SidebarAlerts => Remote.SidebarAlerts
  | Local.CloseTimer => Remote.CloseTimer
  | Local.StartPause => Remote.StartPause
  | Local.ResetTimer => Remote.ResetTimer
  | Local.SkipSession => Remote.SkipSession now
  | Local.SessionSelect type => Remote.SessionSelect type
  end.

(** What an insert in flight may hold: a full focus session of the user
    [u]. *)
Definition fullFocusSession (u : string) (row : Remote.FocusRow.t) : Prop :=
  Remote.FocusRow.duration row = 1500 /\ Remote.FocusRow.user_id row = u.

Definition insertsOf (u : string) (tasks : list Remote.Task) : Prop :=
  Forall (fun task =>
            match task with
            | Remote.Inserting row _ => fullFocusSession u row
            | _ => True
            end)
         tasks.

(** The user [u] is signed in and every insert in flight is a full focus
    session of theirs; and the table of [a'] is the table of [a] with
    such sessions added at its end. *)
Definition signedIn (u : string) (a : Remote.App) : Prop :=
  Remote.user a = Some u /\ insertsOf u (Remote.pending a).

Definition grew (u : string) (a a' : Remote.App) : Prop :=
  exists rows,
    Remote.focus_entries a' = (Remote.focus_entries a ++ rows)%list /\
    Forall (fullFocusSession u) rows.

(** The event [e] ends a focus session that has run out: the countdown
    effect finds the timer running, at zero, in a focus session.  And
    the number of such events along a sequence from the state [t]. *)
Definition finishesFocus (t : Local.Timer) (e : Local.TimerEvent) : bool :=
  match e with
  | Local.CountdownEffect =>
      Local.isRunning t && (Local.secondsLeft t <=? 0) &&
      match Local.sessionType t with focus => true | break => false end
  | _ => false
  end.

Fixpoint finishedFocusSessions (t : Local.Timer) (events : list Local.TimerEvent) : Z :=
  match events with
  | [] => 0
  | e :: rest =>
      (if finishesFocus t e then 1 else 0) + finishedFocusSessions (Local.step t e) rest
  end.

(* ================================================================== *)
(** * Facts about the JavaScript fragment                              *)
(* ================================================================== *)

Example StringToNumber_samples :
  StringToNumber "10" = ofZ 10 /\
  StringToNumber " -5 " = SFopp (ofZ 5) /\
  StringToNumber "" = pzero /\
  StringToNumber "1e3" = ofZ 1000 /\
  StringToNumber "0x1F" = ofZ 31 /\
  StringToNumber "2.5" = S754_finite false 5629499534213120 (-51) /\
  StringToNumber ".5e1" = ofZ 5 /\
  StringToNumber "abc" = NaN /\
  StringToNumber "1.2.3" = NaN /\
  StringToNumber "-Infinity" = S754_infinity true /\
  StringToNumber "1e" = NaN /\
  StringToNumber "-0" = nzero /\
  StringToNumber "1e400" = Infinity.
Proof. vm_compute. repeat split; reflexivity. Qed.

Example Date_parse_samples :
  Date_parse_ISO "1970-01-01T00:00:00.000Z" = Some 0 /\
  Date_parse_ISO "2024-03-10T12:00:00.000Z" = Some 1710072000000 /\
  Date_parse_ISO "2024-02-29T23:59:59Z" = Some 1709251199000 /\
  Date_parse_ISO "2023-02-29T00:00:00Z" = None /\
  Date_parse_ISO "yesterday" = None.
Proof. vm_compute. repeat split; reflexivity. Qed.

(* ================================================================== *)
(** * The payload builder                                              *)
(* ================================================================== *)

Lemma isEmpty_true (s : string) : isEmpty s = true <-> s = "".
Proof. destruct s; simpl; split; congruence. Qed.

Lemma isEmpty_false (s : string) : isEmpty s = false <-> s <> "".
Proof. destruct s; simpl; split; congruence. Qed.

(** C5: [prepareExamPayload] answers [null] exactly when the paper field
    is empty once trimmed, in both variants; any other form yields a
    payload, whose paper is the trimmed field, whatever the other fields
    hold.  The builder is a function of the form alone: it reads and
    writes no state. *)
Theorem prepareExamPayload_null_iff_blank_paper :
  (forall form : Local.ExamFormState.t,
      (Local.prepareExamPayload form = None
       <-> trim (Local.ExamFormState.paper form) = "") /\
      (trim (Local.ExamFormState.paper form) <> "" ->
       exists payload,
         Local.prepareExamPayload form = Some payload /\
         ExamPayload.paper payload = trim (Local.ExamFormState.paper form))) /\
  (forall form : Remote.ExamFormState.t,
      (Remote.prepareExamPayload form = None
       <-> trim (Remote.ExamFormState.paper form) = "") /\
      (trim (Remote.ExamFormState.paper form) <> "" ->
       exists payload,
         Remote.prepareExamPayload form = Some payload /\
         ExamPayload.paper payload = trim (Remote.ExamFormState.paper form))).
Proof.
  split; intros form.
  - unfold Local.prepareExamPayload.
    destruct (isEmpty (trim (Local.ExamFormState.paper form))) eqn:E.
    + apply isEmpty_true in E. split; [tauto | intros H; contradiction].
    + apply isEmpty_false in E. split.
      * split; [discriminate | intros H; contradiction].
      * intros _. eexists; split; [reflexivity | reflexivity].
  - unfold Remote.prepareExamPayload.
    destruct (isEmpty (trim (Remote.ExamFormState.paper form))) eqn:E.
    + apply isEmpty_true in E. split; [tauto | intros H; contradiction].
    + apply isEmpty_false in E. split.
      * split; [discriminate | intros H; contradiction].
      * intros _. eexists; split; [reflexivity | reflexivity].
Qed.

Lemma prepareExamPayload_null_iff_blank_paper_witness :
  let form := Local.ExamFormState.mk "  Math P1 " "ten" "" "-1" "" in
  trim (Local.ExamFormState.paper form) <> "" /\
  exists payload,
    Local.prepareExamPayload form = Some payload /\
    ExamPayload.paper payload = trim (Local.ExamFormState.paper form).
Proof.
  cbv zeta. split; [vm_compute; discriminate |].
  apply (proj2 (proj1 prepareExamPayload_null_iff_blank_paper
                  (Local.ExamFormState.mk "  Math P1 " "ten" "" "-1" ""))).
  vm_compute. discriminate.
Defined.

(** C6, the form on which the local builder departs from it: no total,
    a negative mcq.  The returned mcq and essay are 0 and 10, yet the
    total is 5, the floor of the sum of the raw fields; with an
    unparseable total, and in the remote variant, the same fields give
    10, the sum of the floored values. *)
Theorem prepareExamPayload_absent_total_sums_raw_fields :
  Local.prepareExamPayload (Local.ExamFormState.mk "P" "-5" "10" "" "0")
    = Some (ExamPayload.mk "P" (ofZ 0) (ofZ 10) (ofZ 5) (ofZ 0)) /\
  num_add (ofZ 0) (ofZ 10) = ofZ 10 /\
  num_eqb (ofZ 5) (ofZ 10) = false /\
  Local.prepareExamPayload (Local.ExamFormState.mk "P" "-5" "10" "n/a" "0")
    = Some (ExamPayload.mk "P" (ofZ 0) (ofZ 10) (ofZ 10) (ofZ 0)) /\
  Remote.prepareExamPayload (Remote.ExamFormState.mk "P" "-5" "10" "0")
    = Some (ExamPayload.mk "P" (ofZ 0) (ofZ 10) (ofZ 10) (ofZ 0)).
Proof. vm_compute. repeat split; reflexivity. Qed.

Lemma floor_at_zero (v : number) :
  floored (if Number_isFinite v then Math_max (ofZ 0) v else ofZ 0) = true.
Proof. destruct v as [[|] | [|] | | [|] m e]; reflexivity. Qed.

Lemma binary_round_aux_sign (sx : bool) (mx ex : Z) (lx : location) :
  let r := binary_round_aux prec emax sx mx ex lx in
  r = S754_zero sx \/ (exists m e, r = S754_finite sx m e)
  \/ r = S754_infinity sx \/ r = S754_nan.
Proof.
  cbv zeta. unfold binary_round_aux.
  destruct (shr_fexp prec emax mx ex lx) as [mrs' e'].
  destruct (shr_fexp prec emax _ e' loc_Exact) as [mrs'' e''].
  destruct (shr_m mrs'') as [| m | m]; auto.
  destruct (e'' <=? emax - prec); eauto.
Qed.

(** The sum of two numbers floored at 0 is its own floor at 0. *)
Lemma floor_of_floored_sum (a b : number) :
  floored a = true -> floored b = true ->
  Math_max (ofZ 0) (num_add a b) = num_add a b.
Proof.
  destruct a as [[|] | | | [|] ma ea]; try discriminate;
    destruct b as [[|] | | | [|] mb eb]; try discriminate; intros _ _;
    try reflexivity.
  unfold num_add, SFadd, binary_normalize, cond_Zopp.
  set (ez := Z.min ea eb).
  destruct (fst (shl_align ma ea ez)) as [p | p |] eqn:Ea;
    destruct (fst (shl_align mb eb ez)) as [q | q |] eqn:Eb;
    cbn [Z.add];
    match goal with
    | |- context [binary_round prec emax false ?m ?e] =>
        unfold binary_round;
        destruct (shl_align m e _) as [mz ez'];
        destruct (binary_round_aux_sign false (Zpos mz) ez' loc_Exact)
          as [-> | [[m' [e' ->]] | [-> | ->]]]; reflexivity
    end.
Qed.

(** In the remote variant, and in the local one when the total field is
    unparseable, the total is the sum of the returned mcq and essay; a
    total field that parses to a finite number is floored at 0. *)
Lemma prepareExamPayload_totals :
  (forall form payload,
      Remote.prepareExamPayload form = Some payload ->
      floored (ExamPayload.mcq payload) = true /\
      floored (ExamPayload.essay payload) = true /\
      ExamPayload.total payload
      = num_add (ExamPayload.mcq payload) (ExamPayload.essay payload)) /\
  (forall form payload,
      Local.prepareExamPayload form = Some payload ->
      floored (ExamPayload.mcq payload) = true /\
      floored (ExamPayload.essay payload) = true /\
      (isEmpty (Local.ExamFormState.total form) = false ->
       (Number_isFinite (StringToNumber (Local.ExamFormState.total form)) = true ->
        ExamPayload.total payload
        = Math_max (ofZ 0) (StringToNumber (Local.ExamFormState.total form))) /\
       (Number_isFinite (StringToNumber (Local.ExamFormState.total form)) = false ->
        ExamPayload.total payload
        = num_add (ExamPayload.mcq payload) (ExamPayload.essay payload)))).
Proof.
  split; intros form payload.
  - unfold Remote.prepareExamPayload.
    destruct (isEmpty (trim (Remote.ExamFormState.paper form))); [discriminate |].
    intros E. inversion E; subst; clear E.
    cbn [ExamPayload.mcq ExamPayload.essay ExamPayload.total].
    pose proof (floor_at_zero (StringToNumber (Remote.ExamFormState.mcq form))) as Fm.
    pose proof (floor_at_zero (StringToNumber (Remote.ExamFormState.essay form))) as Fe.
    repeat split; [exact Fm | exact Fe |].
    now apply floor_of_floored_sum.
  - unfold Local.prepareExamPayload.
    destruct (isEmpty (trim (Local.ExamFormState.paper form))); [discriminate |].
    intros E. inversion E; subst; clear E.
    cbn [ExamPayload.mcq ExamPayload.essay ExamPayload.total].
    pose proof (floor_at_zero (StringToNumber (Local.ExamFormState.mcq form))) as Fm.
    pose proof (floor_at_zero (StringToNumber (Local.ExamFormState.essay form))) as Fe.
    repeat split; [exact Fm | exact Fe | |].
    + intros F. rewrite H in *. cbn [negb] in *. now rewrite F.
    + intros F. rewrite H in *. cbn [negb] in *. rewrite F.
      now apply floor_of_floored_sum.
Qed.

(** The fourth testable property of the specification. *)
Example prepareExamPayload_spec_sample :
  Remote.prepareExamPayload (Remote.ExamFormState.mk "Math P1" "10" "2" "150")
    = Some (ExamPayload.mk "Math P1" (ofZ 10) (ofZ 2) (ofZ 12) (ofZ 100)) /\
  Local.prepareExamPayload (Local.ExamFormState.mk "Math P1" "10" "2" "" "150")
    = Some (ExamPayload.mk "Math P1" (ofZ 10) (ofZ 2) (ofZ 12) (ofZ 100)).
Proof. vm_compute. split; reflexivity. Qed.

(* ================================================================== *)
(** * The timer                                                        *)
(* ================================================================== *)

Lemma durations_positive :
  0 < FOCUS_DURATION /\ 0 < BREAK_DURATION /\
  FOCUS_DURATION = 1500 /\ BREAK_DURATION = 300.
Proof. unfold FOCUS_DURATION, BREAK_DURATION. lia. Qed.

Lemma Local_durationOf_positive (s : SessionType) : 0 < Local.durationOf s.
Proof. destruct s; apply durations_positive. Qed.

Lemma Remote_durationOf_positive (s : SessionType) : 0 < Remote.durationOf s.
Proof. destruct s; apply durations_positive. Qed.

Ltac session_duration :=
  cbv [Local.durationOf Remote.durationOf FOCUS_DURATION BREAK_DURATION];
  repeat match goal with
         | |- context [match ?s with focus => _ | break => _ end] => destruct s
         end;
  lia.

Lemma Local_step_nonneg (t : Local.Timer) (e : Local.TimerEvent) :
  0 <= Local.secondsLeft t -> 0 <= Local.secondsLeft (Local.step t e).
Proof.
  intros H. destruct e; simpl.
  - apply Z.le_max_l.
  - unfold Local.countdownEffect.
    destruct (Local.isRunning t); simpl; [| exact H].
    destruct (Local.secondsLeft t <=? 0); [| exact H].
    destruct (Local.sessionType t); simpl; session_duration.
  - unfold Local.handleSidebarClickAlerts, Local.timerOpenEffect. simpl.
    destruct (negb (negb (Local.timerOpen t))); exact H.
  - exact H.
  - exact H.
  - session_duration.
  - session_duration.
  - session_duration.
Qed.

Lemma resume_clock (k : Remote.Continuation) (a : Remote.App) :
  clockKept a (Remote.resume k a) \/ clockReset (Remote.resume k a).
Proof.
  destruct k as [| s]; [left; split; reflexivity | right].
  destruct s; reflexivity.
Qed.

Lemma loadFocusEntries_clock cfg k (a : Remote.App) :
  clockKept a (Remote.loadFocusEntries cfg k a) \/ clockReset (Remote.loadFocusEntries cfg k a).
Proof.
  unfold Remote.loadFocusEntries.
  destruct (Remote.user a); [destruct cfg; cbn [negb] |];
    try (apply (resume_clock k (Remote.setFocusEntries [] a))).
  left. split; reflexivity.
Qed.

Lemma loadFocusEntriesReply_clock reply now k (a : Remote.App) :
  clockKept a (Remote.loadFocusEntriesReply reply now k a)
  \/ clockReset (Remote.loadFocusEntriesReply reply now k a).
Proof.
  unfold Remote.loadFocusEntriesReply.
  destruct reply as [rows | message].
  - match goal with
    | |- context [Remote.resume k ?b] => apply (resume_clock k b)
    end.
  - apply (resume_clock k (Remote.setFocusEntries [] (Remote.setError (Some message) a))).
Qed.

Lemma recordFocusSession_clock cfg now d k (a : Remote.App) :
  clockKept a (Remote.recordFocusSession cfg now d k a)
  \/ clockReset (Remote.recordFocusSession cfg now d k a).
Proof.
  unfold Remote.recordFocusSession.
  destruct (Remote.user a) as [u |]; [destruct cfg; cbn [negb] |].
  - left. split; reflexivity.
  - apply (resume_clock k (Remote.setError _ a)).
  - apply (resume_clock k (Remote.setError _ a)).
Qed.

Lemma recordFocusSessionReply_clock cfg row reply k (a : Remote.App) :
  clockKept a (Remote.recordFocusSessionReply cfg row reply k a)
  \/ clockReset (Remote.recordFocusSessionReply cfg row reply k a).
Proof.
  unfold Remote.recordFocusSessionReply. destruct reply as [u | message].
  - apply (loadFocusEntries_clock cfg k (Remote.insertRow row a)).
  - apply (resume_clock k (Remote.setError (Some message) a)).
Qed.

Lemma timerOpenEffect_clock (a : Remote.App) : clockKept a (Remote.timerOpenEffect a).
Proof. unfold Remote.timerOpenEffect. destruct (negb (Remote.timerOpen a)); split; reflexivity. Qed.

(** One step of the Supabase variant keeps the session and its clock,
    or resets the clock to the duration of the session shown, or takes
    one second off. *)
Lemma Remote_step_clock cfg (a : Remote.App) (e : Remote.TimerEvent) :
  clockKept a (Remote.step cfg a e) \/ clockReset (Remote.step cfg a e)
  \/ (Remote.sessionType (Remote.step cfg a e) = Remote.sessionType a /\
      Remote.secondsLeft (Remote.step cfg a e) = Z.max 0 (Remote.secondsLeft a - 1)).
Proof.
  assert (K : clockKept a a) by (split; reflexivity).
  assert (W : forall b, clockKept a b \/ clockReset b ->
                        clockKept a b \/ clockReset b
                        \/ (Remote.sessionType b = Remote.sessionType a /\
                            Remote.secondsLeft b = Z.max 0 (Remote.secondsLeft a - 1)))
    by tauto.
  destruct e; cbn [Remote.step].
  - right; right. split; reflexivity.
  - unfold Remote.countdownEffect.
    destruct (Remote.isRunning a); cbn [negb]; [| left; exact K].
    destruct (Remote.secondsLeft a <=? 0); [| left; exact K].
    right; left. destruct (Remote.sessionType a); reflexivity.
  - left. apply (timerOpenEffect_clock (Remote.setProductivityOpen false (Remote.setTimerOpen false a))).
  - left. unfold Remote.handleSidebarClickAlerts. cbv zeta.
    destruct (negb (Remote.timerOpen a));
      match goal with
      | |- clockKept _ (Remote.timerOpenEffect ?b) => apply (timerOpenEffect_clock b)
      end.
  - left. unfold Remote.handleSidebarClickAnalytics. cbv zeta.
    destruct (negb (Remote.productivityOpen a));
      match goal with
      | |- clockKept _ (Remote.timerOpenEffect ?b) => apply (timerOpenEffect_clock b)
      end.
  - left. split; reflexivity.
  - left. apply (timerOpenEffect_clock (Remote.setTimerOpen false a)).
  - left. split; reflexivity.
  - right; left. reflexivity.
  - apply W. unfold Remote.handleSkipSession. cbv zeta.
    destruct (Remote.sessionType a) eqn:S.
    + rewrite <- S. apply recordFocusSession_clock.
    + right. reflexivity.
  - right; left. destruct type; reflexivity.
  - left. split; reflexivity.
  - destruct (nth_error (Remote.pending a) i) as [[row k | k |] |]; try (left; exact K).
    apply W.
    apply (recordFocusSessionReply_clock cfg row reply k
             (Remote.setPending (Remote.removeNth i (Remote.pending a)) a)).
  - destruct (nth_error (Remote.pending a) i) as [[row k | k |] |]; try (left; exact K).
    apply W.
    apply (loadFocusEntriesReply_clock reply now k
             (Remote.setPending (Remote.removeNth i (Remote.pending a)) a)).
  - destruct (nth_error (Remote.pending a) i) as [[row k | k |] |]; try (left; exact K).
    left. unfold Remote.handleSignOutReply. destruct reply; [| split; reflexivity].
    match goal with
    | |- clockKept _ (Remote.timerOpenEffect ?b) => apply (timerOpenEffect_clock b)
    end.
Qed.

Lemma Remote_step_nonneg cfg (a : Remote.App) (e : Remote.TimerEvent) :
  0 <= Remote.secondsLeft a -> 0 <= Remote.secondsLeft (Remote.step cfg a e).
Proof.
  intros H.
  destruct (Remote_step_clock cfg a e) as [[_ E] | [E | [_ E]]]; rewrite E.
  - exact H.
  - apply Z.lt_le_incl, Remote_durationOf_positive.
  - apply Z.le_max_l.
Qed.

Lemma Local_fold_nonneg (events : list Local.TimerEvent) (t : Local.Timer) :
  0 <= Local.secondsLeft t -> 0 <= Local.secondsLeft (fold_left Local.step events t).
Proof.
  revert t. induction events as [| e events IH]; intros t H; simpl.
  - exact H.
  - apply IH, Local_step_nonneg, H.
Qed.

Lemma Remote_fold_nonneg cfg (events : list Remote.TimerEvent) (a : Remote.App) :
  0 <= Remote.secondsLeft a ->
  0 <= Remote.secondsLeft (fold_left (Remote.step cfg) events a).
Proof.
  revert a. induction events as [| e events IH]; intros a H; simpl.
  - exact H.
  - apply IH, Remote_step_nonneg, H.
Qed.

(** C9: after any sequence of timer events from the initial state, in
    either variant, [secondsLeft] is at least 0.  A tick takes one second
    off and stops at 0; the countdown's transition, reset, skip and
    session selection set it to the 1500 or 300 seconds of a session.  In
    the Supabase variant a skip during a focus session sets it when the
    recording it awaits is over: at once without a user or a configured
    backend, and otherwise at the reply that ends the recording. *)
Theorem secondsLeft_never_negative :
  (forall events, 0 <= Local.secondsLeft (Local.run events)) /\
  (forall cfg u events, 0 <= Remote.secondsLeft (Remote.run cfg u events)) /\
  (forall t, Local.secondsLeft (Local.step t Local.IntervalTick)
             = Z.max 0 (Local.secondsLeft t - 1)) /\
  (forall cfg a, Remote.secondsLeft (Remote.step cfg a Remote.IntervalTick)
                 = Z.max 0 (Remote.secondsLeft a - 1)) /\
  (forall t e,
      e = Local.ResetTimer \/ e = Local.SkipSession \/ (exists s, e = Local.SessionSelect s)
      \/ (e = Local.CountdownEffect /\ Local.isRunning t = true /\ Local.secondsLeft t <= 0) ->
      Local.secondsLeft (Local.step t e) = 1500 \/ Local.secondsLeft (Local.step t e) = 300) /\
  (forall cfg a e,
      e = Remote.ResetTimer
      \/ (exists now, e = Remote.SkipSession now /\
                      (Remote.sessionType a = break \/ Remote.user a = None \/ cfg = false))
      \/ (exists i reply row s,
             e = Remote.InsertSettles i reply /\
             nth_error (Remote.pending a) i
             = Some (Remote.Inserting row (Remote.SkipHandler s)) /\
             ((exists message, reply = Remote.Failed message)
              \/ Remote.user a = None \/ cfg = false))
      \/ (exists i reply now s,
             e = Remote.SelectSettles i reply now /\
             nth_error (Remote.pending a) i = Some (Remote.Reloading (Remote.SkipHandler s)))
      \/ (exists s, e = Remote.SessionSelect s)
      \/ ((exists now, e = Remote.CountdownEffect now)
          /\ Remote.isRunning a = true /\ Remote.secondsLeft a <= 0) ->
      Remote.secondsLeft (Remote.step cfg a e) = 1500
      \/ Remote.secondsLeft (Remote.step cfg a e) = 300).
Proof.
  split; [| split; [| split; [| split; [| split]]]].
  - intros events. apply Local_fold_nonneg. simpl. session_duration.
  - intros cfg u events. apply Remote_fold_nonneg. simpl. session_duration.
  - reflexivity.
  - reflexivity.
  - intros t e [-> | [-> | [[s ->] | [-> [Hr Hz]]]]]; simpl.
    + left; reflexivity.
    + destruct (Local.sessionType t); simpl; [right | left]; reflexivity.
    + destruct s; simpl; [left | right]; reflexivity.
    + unfold Local.countdownEffect. rewrite Hr. simpl.
      apply Z.leb_le in Hz. rewrite Hz.
      destruct (Local.sessionType t); simpl; [right | left]; reflexivity.
  - intros cfg a e
      [-> | [[now [-> H]] | [[i [reply [row [s [-> [H W]]]]]] | [[i [reply [now [s [-> H]]]]]
       | [[s ->] | [[now ->] [Hr Hz]]]]]]];
      cbn [Remote.step].
    + left; reflexivity.
    + unfold Remote.handleSkipSession, Remote.recordFocusSession. cbv zeta.
      destruct (Remote.sessionType a) eqn:S; [| left; reflexivity].
      destruct H as [H | [H | H]]; [discriminate | |].
      * rewrite H. right; reflexivity.
      * rewrite H. destruct (Remote.user a); right; reflexivity.
    + rewrite H. unfold Remote.recordFocusSessionReply, Remote.loadFocusEntries.
      cbn [Remote.user Remote.insertRow Remote.setPending].
      destruct W as [[message ->] | [W | W]].
      * destruct s; [right | left]; reflexivity.
      * rewrite W. destruct reply, s; (left; reflexivity) || (right; reflexivity).
      * rewrite W. destruct reply, (Remote.user a), s;
          (left; reflexivity) || (right; reflexivity).
    + rewrite H. unfold Remote.loadFocusEntriesReply.
      destruct s; [right | left]; reflexivity.
    + destruct s; [left | right]; reflexivity.
    + unfold Remote.countdownEffect. rewrite Hr. cbn [negb].
      apply Z.leb_le in Hz. rewrite Hz.
      destruct (Remote.sessionType a); [right | left]; reflexivity.
Qed.

Lemma secondsLeft_never_negative_witness :
  let t := Local.mkTimer true focus 0 true 3 in
  (Local.isRunning t = true /\ Local.secondsLeft t <= 0) /\
  (Local.secondsLeft (Local.step t Local.CountdownEffect) = 1500
   \/ Local.secondsLeft (Local.step t Local.CountdownEffect) = 300).
Proof.
  cbv zeta. split; [split; [reflexivity | cbn; lia] |].
  apply (proj1 (proj2 (proj2 (proj2 (proj2 secondsLeft_never_negative))))).
  right; right; right. split; [reflexivity | split; [reflexivity | cbn; lia]].
Defined.

(* ================================================================== *)
(** * Recording a skipped focus session                                *)
(* ================================================================== *)

Lemma resume_table (k : Remote.Continuation) (a : Remote.App) :
  Remote.focus_entries (Remote.resume k a) = Remote.focus_entries a.
Proof. destruct k; reflexivity. Qed.

Lemma resume_error (k : Remote.Continuation) (a : Remote.App) :
  Remote.error (Remote.resume k a) = Remote.error a.
Proof. destruct k; reflexivity. Qed.

Lemma resume_pending (k : Remote.Continuation) (a : Remote.App) :
  Remote.pending (Remote.resume k a) = Remote.pending a.
Proof. destruct k; reflexivity. Qed.

Lemma resume_user (k : Remote.Continuation) (a : Remote.App) :
  Remote.user (Remote.resume k a) = Remote.user a.
Proof. destruct k; reflexivity. Qed.

Lemma loadFocusEntries_table cfg k (a : Remote.App) :
  Remote.focus_entries (Remote.loadFocusEntries cfg k a) = Remote.focus_entries a.
Proof.
  unfold Remote.loadFocusEntries.
  destruct (Remote.user a); [destruct cfg; cbn [negb] |];
    try (now rewrite resume_table).
  reflexivity.
Qed.

Lemma recordFocusSession_table cfg now d k (a : Remote.App) :
  Remote.focus_entries (Remote.recordFocusSession cfg now d k a) = Remote.focus_entries a.
Proof.
  unfold Remote.recordFocusSession.
  destruct (Remote.user a); [destruct cfg; cbn [negb] |];
    try (now rewrite resume_table).
  reflexivity.
Qed.

(** The reply to an insert: the row is in the table when the insert was
    accepted, and the message is shown when it was rejected. *)
Lemma recordFocusSessionReply_table cfg row reply k (a : Remote.App) :
  match reply with
  | Remote.Data _ =>
      Remote.focus_entries (Remote.recordFocusSessionReply cfg row reply k a)
      = (Remote.focus_entries a ++ [row])%list
  | Remote.Failed message =>
      Remote.focus_entries (Remote.recordFocusSessionReply cfg row reply k a)
      = Remote.focus_entries a /\
      Remote.error (Remote.recordFocusSessionReply cfg row reply k a) = Some message
  end.
Proof.
  destruct reply as [u | message]; cbn [Remote.recordFocusSessionReply].
  - now rewrite loadFocusEntries_table.
  - now rewrite resume_table, resume_error.
Qed.

Lemma nth_error_end {A : Type} (l : list A) (x : A) :
  nth_error (l ++ [x]) (List.length l) = Some x.
Proof. induction l as [| y l IH]; [reflexivity | exact IH]. Qed.

Lemma nth_error_past {A : Type} (l : list A) : nth_error l (List.length l) = None.
Proof. induction l as [| y l IH]; [reflexivity | exact IH]. Qed.

Lemma removeNth_end {A : Type} (l : list A) (x : A) :
  Remote.removeNth (List.length l) (l ++ [x]) = l.
Proof.
  unfold Remote.removeNth. induction l as [| y l IH]; [reflexivity |].
  cbn [List.length app firstn skipn] in *. now rewrite IH.
Qed.

(** No request was sent: the replies of [thenSettled] find nothing to
    answer. *)
Lemma settle_nothing cfg (net : Remote.Net) (b : Remote.App) (i : nat) :
  List.length (Remote.pending b) = i ->
  Remote.step cfg
    (Remote.step cfg b (Remote.InsertSettles i (Remote.insertReply net)))
    (Remote.SelectSettles i (Remote.selectReply net) (Remote.nowISO net))
  = b.
Proof.
  intros <-. cbn [Remote.step]. rewrite nth_error_past. cbn [Remote.step].
  now rewrite nth_error_past.
Qed.

(** An insert was sent for a signed-in user: its reply and, when it was
    accepted, the reply to the select that follows. *)
Lemma settle_recording (net : Remote.Net) (b : Remote.App) (l : list Remote.Task)
      (row : Remote.FocusRow.t) (k : Remote.Continuation) (u : string) :
  Remote.pending b = (l ++ [Remote.Inserting row k])%list ->
  Remote.user b = Some u ->
  Remote.step true
    (Remote.step true b (Remote.InsertSettles (List.length l) (Remote.insertReply net)))
    (Remote.SelectSettles (List.length l) (Remote.selectReply net) (Remote.nowISO net))
  = match Remote.insertReply net with
    | Remote.Failed message =>
        Remote.resume k (Remote.setError (Some message) (Remote.setPending l b))
    | Remote.Data _ =>
        Remote.loadFocusEntriesReply (Remote.selectReply net) (Remote.nowISO net) k
          (Remote.setError None (Remote.insertRow row (Remote.setPending l b)))
    end.
Proof.
  intros P U. cbn [Remote.step]. rewrite P, nth_error_end, removeNth_end.
  destruct (Remote.insertReply net) as [r | message]; cbn [Remote.recordFocusSessionReply].
  - unfold Remote.loadFocusEntries.
    cbn [Remote.user Remote.insertRow Remote.setPending]. rewrite U. cbn [negb].
    cbn [Remote.step Remote.pending Remote.addTask Remote.setPending Remote.setError].
    rewrite nth_error_end, removeNth_end. reflexivity.
  - cbn [Remote.step]. rewrite resume_pending.
    cbn [Remote.pending Remote.setError Remote.setPending].
    now rewrite nth_error_past.
Qed.

(** The claim C7 as it is written fails when the backend rejects the
    insert: a skip during a focus session, and once the reply has come
    the table is as it was. *)
Lemma skip_with_rejected_insert_records_nothing :
  let net :=
    Remote.mkNet (Remote.Failed "network error") (Remote.Data [])
      "2024-03-10T12:00:00.000Z" in
  let a := Remote.initialApp "user-1" in
  let skipped := Remote.thenSettled true net a (Remote.SkipSession (Remote.nowISO net)) in
  Remote.sessionType a = focus /\
  Remote.focus_entries skipped = Remote.focus_entries a /\
  Remote.error skipped = Some "network error" /\
  Remote.pending skipped = [].
Proof. vm_compute. repeat split; reflexivity. Qed.

(** Skip pressed twice before the first insert is answered: both
    presses see the focus session, two rows are recorded, and the timer
    ends on the break. *)
Example skip_pressed_twice_before_the_reply :
  let after :=
    Remote.run true "user-1"
      [ Remote.SkipSession "2024-03-10T12:00:00.000Z";
        Remote.SkipSession "2024-03-10T12:00:01.000Z";
        Remote.InsertSettles 0 (Remote.Data tt);
        Remote.InsertSettles 0 (Remote.Data tt);
        Remote.SelectSettles 0 (Remote.Data []) "2024-03-10T12:00:02.000Z";
        Remote.SelectSettles 0 (Remote.Data []) "2024-03-10T12:00:03.000Z" ] in
  Remote.focus_entries after
  = [ Remote.FocusRow.mk 1500 "2024-03-10T12:00:00.000Z" "user-1";
      Remote.FocusRow.mk 1500 "2024-03-10T12:00:01.000Z" "user-1" ] /\
  Remote.sessionType after = break /\
  Remote.secondsLeft after = 300 /\
  Remote.isRunning after = false /\
  Remote.pending after = [].
Proof. vm_compute. repeat split; reflexivity. Qed.

Lemma thenSettled_skip_table cfg net (a : Remote.App) :
  Remote.focus_entries (Remote.thenSettled cfg net a (Remote.SkipSession (Remote.nowISO net)))
  = (Remote.focus_entries a ++
     match Remote.sessionType a with
     | focus => rowsRecorded cfg net 1500 a
     | break => []
     end)%list
  /\ (Remote.sessionType a = focus -> rowsRecorded cfg net 1500 a = [] ->
      exists message,
        Remote.error (Remote.thenSettled cfg net a (Remote.SkipSession (Remote.nowISO net)))
        = Some message)
  /\ (Remote.sessionType a = break ->
      Remote.error (Remote.thenSettled cfg net a (Remote.SkipSession (Remote.nowISO net)))
      = Remote.error a).
Proof.
  unfold Remote.thenSettled, rowsRecorded. cbv zeta.
  change (Remote.step cfg a (Remote.SkipSession (Remote.nowISO net)))
    with (Remote.handleSkipSession cfg (Remote.nowISO net) a).
  unfold Remote.handleSkipSession. cbv zeta.
  destruct (Remote.sessionType a) eqn:S.
  - unfold Remote.recordFocusSession.
    destruct (Remote.user a) as [u |] eqn:U; [destruct cfg; cbn [negb] |].
    + match goal with
      | |- context [Remote.step true (Remote.step true ?b _) _] =>
          rewrite (settle_recording net b (Remote.pending a) _ _ u eq_refl U)
      end.
      destruct (Remote.insertReply net) as [r | message].
      * unfold Remote.loadFocusEntriesReply. rewrite resume_table.
        split; [| split; [intros _ H; discriminate | intros H; discriminate]].
        destruct (Remote.selectReply net); reflexivity.
      * rewrite resume_table, resume_error.
        split; [cbn; now rewrite app_nil_r | split; [| intros H; discriminate]].
        intros _ _. eexists. reflexivity.
    + match goal with
      | |- context [Remote.step false (Remote.step false ?b _) _] =>
          rewrite (settle_nothing false net b (List.length (Remote.pending a)) eq_refl)
      end.
      split; [cbn; now rewrite app_nil_r | split; [| intros H; discriminate]].
      intros _ _. eexists. reflexivity.
    + match goal with
      | |- context [Remote.step cfg (Remote.step cfg ?b _) _] =>
          rewrite (settle_nothing cfg net b (List.length (Remote.pending a)) eq_refl)
      end.
      split; [cbn; now rewrite app_nil_r | split; [| intros H; discriminate]].
      intros _ _. eexists. reflexivity.
  - match goal with
    | |- context [Remote.step cfg (Remote.step cfg ?b _) _] =>
        rewrite (settle_nothing cfg net b (List.length (Remote.pending a)) eq_refl)
    end.
    split; [cbn; now rewrite app_nil_r | split; [intros H; discriminate | reflexivity]].
Qed.

Lemma thenSettled_skip_error cfg net (a : Remote.App) :
  Remote.sessionType a = focus ->
  Remote.error (Remote.thenSettled cfg net a (Remote.SkipSession (Remote.nowISO net)))
  = match Remote.user a, cfg, Remote.insertReply net, Remote.selectReply net with
    | None, _, _, _ => Some "You must be signed in to record focus sessions."
    | Some _, false, _, _ => Some "Supabase environment variables are missing."
    | Some _, true, Remote.Failed message, _ => Some message
    | Some _, true, Remote.Data _, Remote.Failed message => Some message
    | Some _, true, Remote.Data _, Remote.Data _ => None
    end.
Proof.
  intros S. unfold Remote.thenSettled. cbv zeta.
  change (Remote.step cfg a (Remote.SkipSession (Remote.nowISO net)))
    with (Remote.handleSkipSession cfg (Remote.nowISO net) a).
  unfold Remote.handleSkipSession. cbv zeta. rewrite S.
  unfold Remote.recordFocusSession.
  destruct (Remote.user a) as [u |] eqn:U; [destruct cfg; cbn [negb] |].
  - match goal with
    | |- context [Remote.step true (Remote.step true ?b _) _] =>
        rewrite (settle_recording net b (Remote.pending a) _ _ u eq_refl U)
    end.
    destruct (Remote.insertReply net) as [r | message].
    + unfold Remote.loadFocusEntriesReply. rewrite resume_error.
      destruct (Remote.selectReply net); reflexivity.
    + rewrite resume_error. reflexivity.
  - match goal with
    | |- context [Remote.step false (Remote.step false ?b _) _] =>
        rewrite (settle_nothing false net b (List.length (Remote.pending a)) eq_refl)
    end.
    reflexivity.
  - match goal with
    | |- context [Remote.step cfg (Remote.step cfg ?b _) _] =>
        rewrite (settle_nothing cfg net b (List.length (Remote.pending a)) eq_refl)
    end.
    destruct cfg; reflexivity.
Qed.

(** C7, amended.  Skip during a focus session sends one insert, of a row
    of the full [FOCUS_DURATION] = 1500 seconds for the signed-in user,
    and records nothing yet; whenever the reply comes, and whatever has
    happened in between, an accepted insert adds exactly that row and a
    rejected one adds nothing and leaves its message.  Taken with its
    replies and nothing in between, the skip adds exactly one row when a
    user is signed in, the backend is configured and the insert is
    accepted, and otherwise no row, and then an error message is set:
    that of the missing user, of the missing configuration, or the
    backend's; the seconds left on the countdown play no part; a skip
    during a break sends nothing, adds no row and sets no message. *)
Theorem skip_records_full_focus_duration :
  forall cfg net (a : Remote.App),
    let press := Remote.SkipSession (Remote.nowISO net) in
    let skipped := Remote.thenSettled cfg net a press in
    Remote.focus_entries skipped
    = (Remote.focus_entries a ++
       match Remote.sessionType a with
       | focus => rowsRecorded cfg net 1500 a
       | break => []
       end)%list
    /\ (forall n,
           Remote.focus_entries (Remote.thenSettled cfg net (Remote.setSecondsLeft n a) press)
           = Remote.focus_entries skipped)
    /\ (forall userId,
           Remote.sessionType a = focus -> Remote.user a = Some userId -> cfg = true ->
           Remote.insertReply net = Remote.Data tt ->
           Remote.focus_entries skipped
           = (Remote.focus_entries a
                ++ [ Remote.FocusRow.mk 1500 (Remote.nowISO net) userId ])%list)
    /\ (Remote.sessionType a = focus -> rowsRecorded cfg net 1500 a = [] ->
        exists message, Remote.error skipped = Some message)
    /\ (Remote.sessionType a = focus ->
        Remote.error skipped
        = match Remote.user a, cfg, Remote.insertReply net, Remote.selectReply net with
          | None, _, _, _ => Some "You must be signed in to record focus sessions."
          | Some _, false, _, _ => Some "Supabase environment variables are missing."
          | Some _, true, Remote.Failed message, _ => Some message
          | Some _, true, Remote.Data _, Remote.Failed message => Some message
          | Some _, true, Remote.Data _, Remote.Data _ => None
          end)
    /\ (Remote.sessionType a = break ->
        Remote.error skipped = Remote.error a /\
        Remote.pending (Remote.step cfg a press) = Remote.pending a)
    /\ Remote.focus_entries (Remote.step cfg a press) = Remote.focus_entries a
    /\ (forall userId,
           Remote.sessionType a = focus -> Remote.user a = Some userId -> cfg = true ->
           Remote.pending (Remote.step cfg a press)
           = (Remote.pending a
                ++ [ Remote.Inserting (Remote.FocusRow.mk 1500 (Remote.nowISO net) userId)
                       (Remote.SkipHandler focus) ])%list)
    /\ (forall (b : Remote.App) i row k reply,
           nth_error (Remote.pending b) i = Some (Remote.Inserting row k) ->
           match reply with
           | Remote.Data _ =>
               Remote.focus_entries (Remote.step cfg b (Remote.InsertSettles i reply))
               = (Remote.focus_entries b ++ [row])%list
           | Remote.Failed message =>
               Remote.focus_entries (Remote.step cfg b (Remote.InsertSettles i reply))
               = Remote.focus_entries b /\
               Remote.error (Remote.step cfg b (Remote.InsertSettles i reply)) = Some message
           end).
Proof.
  intros cfg net a. cbv zeta.
  destruct (thenSettled_skip_table cfg net a) as [E [M B]].
  split; [exact E | split; [| split; [| split; [exact M | split;
    [exact (thenSettled_skip_error cfg net a) | split; [| split; [| split]]]]]]].
  - intros n. rewrite E.
    destruct (thenSettled_skip_table cfg net (Remote.setSecondsLeft n a)) as [En _].
    exact En.
  - intros userId Hs Hu Hc Hi. rewrite E, Hs.
    unfold rowsRecorded. rewrite Hu, Hc, Hi. reflexivity.
  - intros Hs. split; [exact (B Hs) |].
    cbn [Remote.step]. unfold Remote.handleSkipSession. cbv zeta. rewrite Hs. reflexivity.
  - cbn [Remote.step]. unfold Remote.handleSkipSession. cbv zeta.
    destruct (Remote.sessionType a); [apply recordFocusSession_table | reflexivity].
  - intros userId Hs Hu Hc. cbn [Remote.step].
    unfold Remote.handleSkipSession, Remote.recordFocusSession. cbv zeta.
    rewrite Hs, Hu, Hc. reflexivity.
  - intros b i row k reply H. cbn [Remote.step]. rewrite H.
    apply (recordFocusSessionReply_table cfg row reply k
             (Remote.setPending (Remote.removeNth i (Remote.pending b)) b)).
Qed.

Lemma skip_records_full_focus_duration_witness :
  let net := Remote.mkNet (Remote.Data tt) (Remote.Data []) "2024-03-10T12:00:00.000Z" in
  let a := Remote.setSecondsLeft 1234 (Remote.initialApp "user-1") in
  Remote.focus_entries
    (Remote.thenSettled true net a (Remote.SkipSession "2024-03-10T12:00:00.000Z"))
  = [ Remote.FocusRow.mk 1500 "2024-03-10T12:00:00.000Z" "user-1" ].
Proof.
  cbv zeta.
  apply (proj1 (proj2 (proj2 (skip_records_full_focus_duration true
           (Remote.mkNet (Remote.Data tt) (Remote.Data []) "2024-03-10T12:00:00.000Z")
           (Remote.setSecondsLeft 1234 (Remote.initialApp "user-1"))))) "user-1");
    reflexivity.
Defined.

(* ================================================================== *)
(** * The analytics aggregator                                         *)
(* ================================================================== *)

Lemma getStartOfDay_is_local_midnight (tz now : Z) :
  Remote.getStartOfDay tz now <= now < Remote.getStartOfDay tz now + msPerDay /\
  (Remote.getStartOfDay tz now + tz) mod msPerDay = 0.
Proof.
  unfold Remote.getStartOfDay, Date_setHours0, localDay, msPerDay.
  pose proof (Z.div_mod (now + tz) 86400000 ltac:(lia)) as D.
  pose proof (Z.mod_pos_bound (now + tz) 86400000 ltac:(lia)) as B.
  split; [lia |].
  replace ((now + tz) / 86400000 * 86400000 - tz + tz)
    with ((now + tz) / 86400000 * 86400000) by lia.
  apply Z.mod_mul. lia.
Qed.

Lemma In_dropNulls {A : Type} (a : A) (xs : list (option A)) :
  In a (dropNulls xs) <-> In (Some a) xs.
Proof.
  induction xs as [| [b |] xs IH]; simpl.
  - tauto.
  - rewrite IH. split; intros [H | H]; auto; left; congruence.
  - rewrite IH. split; [auto | intros [H | H]; [discriminate | auto]].
Qed.

Lemma In_parseEntries parse (entries : list Remote.FocusEntry.t) e d :
  In (e, d) (Remote.parseEntries parse entries)
  <-> In e entries /\ parse (Remote.FocusEntry.timestamp e) = Some d.
Proof.
  unfold Remote.parseEntries. rewrite In_dropNulls, in_map_iff. split.
  - intros [x [Hx Hin]].
    destruct (parse (Remote.FocusEntry.timestamp x)) eqn:E; [| discriminate].
    inversion Hx; subst. auto.
  - intros [Hin Hp]. exists e. rewrite Hp. auto.
Qed.

Lemma sum_from_acc {A : Type} (f : A -> Z) (l : list A) (acc : Z) :
  fold_left (fun a x => a + f x) l acc = acc + fold_right Z.add 0 (map f l).
Proof.
  revert acc. induction l as [| x l IH]; intros acc; simpl.
  - lia.
  - rewrite IH. lia.
Qed.

Lemma sumDurations_sum (entries : list (Remote.FocusEntry.t * Z)) :
  Remote.sumDurations entries
  = fold_right Z.add 0 (map (fun entry => Remote.FocusEntry.duration (fst entry)) entries).
Proof. unfold Remote.sumDurations. now rewrite sum_from_acc. Qed.

(** C3: the day window is the list of the entries with a valid timestamp
    at or after local midnight of the current day, in their order, and
    the day total is the sum of their durations.  For the entries of the
    specification's example, evaluated at noon, the total is 900: the
    entry of 23:00 counts, the one of 23:59 the day before does not; in
    UTC and in a zone five and a half hours ahead. *)
Theorem day_window_and_total :
  (forall parse tz weekdayLabel now focusEntries,
      let stats := Remote.productivityStats parse tz weekdayLabel now focusEntries in
      let dayEntries := Remote.DayStats.entries (Remote.ProductivityStats.day stats) in
      let todayStart := Remote.getStartOfDay tz now in
      dayEntries
        = filter (fun entry => todayStart <=? snd entry) (Remote.parseEntries parse focusEntries)
      /\ (forall e d,
             In (e, d) dayEntries
             <-> In e focusEntries
                 /\ parse (Remote.FocusEntry.timestamp e) = Some d
                 /\ todayStart <= d)
      /\ Remote.DayStats.totalSeconds (Remote.ProductivityStats.day stats)
         = fold_right Z.add 0
             (map (fun entry => Remote.FocusEntry.duration (fst entry)) dayEntries)
      /\ todayStart <= now < todayStart + msPerDay
      /\ (todayStart + tz) mod msPerDay = 0)
  /\ (let today0100 := Remote.FocusEntry.mk "a" "2024-03-10T01:00:00.000Z" 300 in
      let today2300 := Remote.FocusEntry.mk "b" "2024-03-10T23:00:00.000Z" 600 in
      let yesterday2359 := Remote.FocusEntry.mk "c" "2024-03-09T23:59:00.000Z" 900 in
      let stats :=
        Remote.productivityStats Date_parse_ISO 0 (fun _ => "")
          1710072000000 [today0100; today2300; yesterday2359] in
      Date_parse_ISO "2024-03-10T12:00:00.000Z" = Some 1710072000000 /\
      Remote.DayStats.totalSeconds (Remote.ProductivityStats.day stats) = 900 /\
      map fst (Remote.DayStats.entries (Remote.ProductivityStats.day stats))
        = [today0100; today2300])
  /\ (let today0100 := Remote.FocusEntry.mk "a" "2024-03-09T19:30:00.000Z" 300 in
      let today2300 := Remote.FocusEntry.mk "b" "2024-03-10T17:30:00.000Z" 600 in
      let yesterday2359 := Remote.FocusEntry.mk "c" "2024-03-09T18:29:00.000Z" 900 in
      let stats :=
        Remote.productivityStats Date_parse_ISO 19800000 (fun _ => "")
          1710052200000 [today0100; today2300; yesterday2359] in
      Date_parse_ISO "2024-03-10T06:30:00.000Z" = Some 1710052200000 /\
      Remote.DayStats.totalSeconds (Remote.ProductivityStats.day stats) = 900 /\
      map fst (Remote.DayStats.entries (Remote.ProductivityStats.day stats))
        = [today0100; today2300]).
Proof.
  split; [| split; vm_compute; repeat split; reflexivity].
  intros parse tz weekdayLabel now focusEntries. cbn zeta.
  unfold Remote.productivityStats. cbn [Remote.ProductivityStats.day
    Remote.DayStats.entries Remote.DayStats.totalSeconds].
  split; [reflexivity | split; [| split]].
  - intros e d. rewrite filter_In, In_parseEntries. cbn [snd].
    rewrite Z.leb_le. tauto.
  - apply sumDurations_sum.
  - apply getStartOfDay_is_local_midnight.
Qed.

Lemma monthLoop_continue todayStart monthEntries fuel cursor weekIndex :
  cursor <= todayStart ->
  exists b,
    Remote.monthLoop todayStart monthEntries (S fuel) cursor weekIndex
    = b :: Remote.monthLoop todayStart monthEntries fuel (Date_addDays cursor 7) (S weekIndex).
Proof.
  intros H. cbn [Remote.monthLoop].
  apply Z.leb_le in H. rewrite H. eexists. reflexivity.
Qed.

Lemma monthLoop_stop todayStart monthEntries fuel cursor weekIndex :
  todayStart < cursor ->
  Remote.monthLoop todayStart monthEntries fuel cursor weekIndex = [].
Proof.
  intros H. destruct fuel; cbn [Remote.monthLoop]; [reflexivity |].
  apply Z.leb_gt in H. now rewrite H.
Qed.

(** The [while] loop of the month breakdown ends after five rounds: more
    fuel than [monthIterations] changes nothing. *)
Lemma monthLoop_fuel_is_enough todayStart monthEntries extra weekIndex :
  Remote.monthLoop todayStart monthEntries (Remote.monthIterations + extra)
    (Date_addDays todayStart (-29)) weekIndex
  = Remote.monthLoop todayStart monthEntries Remote.monthIterations
      (Date_addDays todayStart (-29)) weekIndex.
Proof.
  unfold Remote.monthIterations. cbn [Nat.add].
  cbn [Remote.monthLoop]. unfold Date_addDays, msPerDay.
  repeat match goal with
         | |- context [?c <=? todayStart] =>
             let E := fresh "E" in
             destruct (Z.leb_spec c todayStart) as [E | E]; [| lia]
         end.
  repeat f_equal.
  rewrite monthLoop_stop; [reflexivity | lia].
Qed.

(** C4, where the code departs from it.  Evaluated at noon of
    2024-03-10: a session of 300 seconds at 01:00 that day is in the
    month window, and so is one at 10:00 on 2024-02-16, the seventh day
    of the first period; neither falls in any bucket, because a period
    ends at the midnight that opens its seventh day and the last one at
    the midnight that opens today.  The week breakdown, which matches
    entries by calendar day, does count today's session. *)
Theorem month_breakdown_omits_entries :
  let today := Remote.FocusEntry.mk "a" "2024-03-10T01:00:00.000Z" 300 in
  let seventh := Remote.FocusEntry.mk "b" "2024-02-16T10:00:00.000Z" 450 in
  let stats entries :=
    Remote.productivityStats Date_parse_ISO 0 (fun _ => "") 1710072000000 entries in
  let month entries := Remote.ProductivityStats.month (stats entries) in
  let week entries := Remote.ProductivityStats.week (stats entries) in
  (Remote.PeriodStats.totalSeconds (month [today]) = 300 /\
   map Remote.Bucket.totalSeconds (Remote.PeriodStats.breakdown (month [today]))
     = [0; 0; 0; 0; 0] /\
   bucketsTotal (Remote.PeriodStats.breakdown (month [today])) = 0) /\
  (Remote.PeriodStats.totalSeconds (month [seventh]) = 450 /\
   map Remote.Bucket.totalSeconds (Remote.PeriodStats.breakdown (month [seventh]))
     = [0; 0; 0; 0; 0] /\
   bucketsTotal (Remote.PeriodStats.breakdown (month [seventh])) = 0) /\
  (Remote.PeriodStats.totalSeconds (week [today]) = 300 /\
   bucketsTotal (Remote.PeriodStats.breakdown (week [today])) = 300).
Proof. vm_compute. repeat split; reflexivity. Qed.

(* ================================================================== *)
(** * Numbers, strings and values                                      *)
(* ================================================================== *)

Lemma num_ltb_leb (a b : number) : num_ltb a b = true -> num_leb a b = true.
Proof.
  unfold num_ltb, num_leb, SFltb, SFleb.
  destruct (SFcompare a b) as [[| |] |]; congruence.
Qed.

Lemma clampCompletion_cases (v : number) :
  clampCompletion v = ofZ 0 \/ clampCompletion v = ofZ 100 \/
  (clampCompletion v = v /\ num_ltb (ofZ 0) v = true /\ num_ltb v (ofZ 100) = true
   /\ Number_isFinite v = true).
Proof.
  unfold clampCompletion.
  destruct v as [s | s | | s m e]; cbn [Number_isFinite].
  - left. destruct s; reflexivity.
  - left. reflexivity.
  - left. reflexivity.
  - destruct s.
    + left. reflexivity.
    + change (Math_max (ofZ 0) (S754_finite false m e)) with (S754_finite false m e).
      change (ofZ 100) with (S754_finite false 7036874417766400 (-46)).
      unfold Math_min.
      destruct (num_ltb (S754_finite false 7036874417766400 (-46)) (S754_finite false m e)) eqn:E1;
        [right; left; reflexivity |].
      destruct (num_ltb (S754_finite false m e) (S754_finite false 7036874417766400 (-46))) eqn:E2;
        [| right; left; reflexivity].
      right; right. repeat split; reflexivity.
Qed.

Lemma clampCompletion_inRange (v : number) : inRange (clampCompletion v) = true.
Proof.
  destruct (clampCompletion_cases v) as [-> | [-> | [-> [H0 [H100 _]]]]].
  - reflexivity.
  - reflexivity.
  - unfold inRange. now rewrite (num_ltb_leb _ _ H0), (num_ltb_leb _ _ H100).
Qed.

Lemma clampCompletion_finite (v : number) : Number_isFinite (clampCompletion v) = true.
Proof.
  destruct (clampCompletion_cases v) as [-> | [-> | [-> [_ [_ H]]]]];
    [reflexivity | reflexivity | exact H].
Qed.

Lemma trim_empty_of_empty (s : string) : isEmpty s = true -> isEmpty (trim s) = true.
Proof. destruct s; [reflexivity | discriminate]. Qed.

Lemma nonblank_nonempty (s : string) : isEmpty (trim s) = false -> isEmpty s = false.
Proof.
  intros H. destruct (isEmpty s) eqn:E; [| reflexivity].
  now rewrite (trim_empty_of_empty s E) in H.
Qed.

Lemma length_pos_nonempty (s : string) :
  (0 <? String.length s)%nat = negb (isEmpty s).
Proof. destruct s; reflexivity. Qed.

Lemma append_nonempty_l (a b : string) : isEmpty a = false -> isEmpty (a ++ b) = false.
Proof. destruct a; [discriminate | reflexivity]. Qed.

(** Induction on values, through the lists they nest. *)
Lemma value_induction (P : value -> Prop) :
  P Undefined -> P Null -> (forall b, P (Boolean b)) -> (forall n, P (Num n)) ->
  (forall s, P (Str s)) ->
  (forall elems, Forall P elems -> P (Arr elems)) ->
  (forall props, Forall (fun kv => P (snd kv)) props -> P (Obj props)) ->
  forall v, P v.
Proof.
  intros HU HN HB HNum HS HA HO.
  fix IH 1. intros [ | | b | n | s | elems | props].
  - exact HU.
  - exact HN.
  - apply HB.
  - apply HNum.
  - apply HS.
  - apply HA. induction elems as [| x elems IHl]; constructor; [apply IH | exact IHl].
  - apply HO. induction props as [| [k x] props IHl]; constructor; [apply IH | exact IHl].
Qed.

Lemma plain_stringifies (v : value) : plain v = true -> stringifies v = true.
Proof.
  induction v as [ | | b | n | s | elems IH | props IH] using value_induction;
    try reflexivity; cbn [plain stringifies]; intros H.
  - rewrite forallb_forall in *. intros x Hx.
    rewrite Forall_forall in IH. auto.
  - apply andb_true_iff in H. tauto.
Qed.

Lemma ToNumber_plain (v : value) : plain v = true -> exists n, ToNumber v = Return n.
Proof.
  intros H. destruct v; cbn [ToNumber]; try (eexists; reflexivity).
  - rewrite (plain_stringifies _ H). eexists; reflexivity.
  - rewrite (plain_stringifies _ H). eexists; reflexivity.
Qed.

Lemma lookup_In (k : string) (props : list (string * value)) (x : value) :
  lookup k props = Some x -> In (k, x) props.
Proof.
  induction props as [| [k' y] props IH]; cbn [lookup]; [discriminate |].
  destruct (String.eqb_spec k k') as [-> | Hne].
  - intros E; inversion E; subst. now left.
  - intros E. right. auto.
Qed.

Lemma object_guard (raw : value) :
  negb (truthy raw) || negb (typeof raw === "object") = negb (isObject raw).
Proof.
  destruct raw; try reflexivity; cbn [typeof isObject];
    apply orb_true_r.
Qed.

(** On an array or an object a property read returns, and returns
    [field]. *)
Lemma get_object (raw : value) (k : string) :
  isObject raw = true -> get raw k = Return (field raw k).
Proof. destruct raw; try discriminate; reflexivity. Qed.

Lemma field_plain (raw : value) (k : string) : plain raw = true -> plain (field raw k) = true.
Proof.
  destruct raw; try reflexivity. cbn [field plain]. intros H.
  apply andb_true_iff in H. destruct H as [_ H].
  destruct (lookup k props) as [x |] eqn:E; [| reflexivity].
  rewrite forallb_forall in H. apply (H (k, x)). now apply lookup_In.
Qed.

Lemma nullish_plain (a b : value) : plain a = true -> plain b = true -> plain (nullish a b) = true.
Proof. destruct a; auto. Qed.

(* ================================================================== *)
(** * Computations that return                                         *)
(* ================================================================== *)

Lemma returns_ret {A : Type} (a : A) (w : World) (Q : A -> Prop) :
  Q a -> returns (ret a) w Q.
Proof. intros H. exists a, w. auto. Qed.

Lemma returns_bind {A B : Type} (c : M A) (k : A -> M B) (w : World)
      (P : A -> Prop) (Q : B -> Prop) :
  returns c w P ->
  (forall a w', P a -> returns (k a) w' Q) ->
  returns (bind c k) w Q.
Proof.
  intros [a [w' [E Ha]]] Hk. unfold returns, bind. rewrite E. apply Hk, Ha.
Qed.

Lemma returns_lift {A : Type} (c : outcome A) (a : A) (w : World) (Q : A -> Prop) :
  c = Return a -> Q a -> returns (lift c) w Q.
Proof. intros -> H. exists a, w. auto. Qed.

Lemma returns_weaken {A : Type} (c : M A) (w : World) (P Q : A -> Prop) :
  returns c w P -> (forall a, P a -> Q a) -> returns c w Q.
Proof. intros [a [w' [E Ha]]] H. exists a, w'. auto. Qed.

Lemma returns_createId (prefix : string) (w : World) :
  isEmpty prefix = false ->
  returns (Local.createId prefix) w (fun id => isEmpty id = false).
Proof.
  intros H. unfold returns, Local.createId. cbn.
  eexists; eexists; split; [reflexivity |]. now apply append_nonempty_l.
Qed.

Lemma returns_mapi {A B : Type} (f : A -> nat -> M B) (P : A -> Prop) (Q : B -> Prop) :
  (forall x i w, P x -> returns (f x i) w Q) ->
  forall xs i w, Forall P xs ->
    returns (mapi f i xs) w (fun ys => Forall Q ys /\ List.length ys = List.length xs).
Proof.
  intros Hf xs. induction xs as [| x xs IH]; intros i w HP; cbn [mapi].
  - apply returns_ret. auto.
  - inversion HP; subst.
    eapply returns_bind; [apply Hf; assumption |].
    intros y w1 Hy.
    eapply returns_bind; [apply IH; assumption |].
    intros ys w2 [Hys Hlen]. apply returns_ret. cbn [List.length]. auto.
Qed.

Lemma Forall_dropNulls {A : Type} (Q : A -> Prop) (xs : list (option A)) :
  Forall (fun o => forall a, o = Some a -> Q a) xs -> Forall Q (dropNulls xs).
Proof.
  induction 1 as [| [a |] xs H _ IH]; cbn [dropNulls]; auto.
Qed.

(* ================================================================== *)
(** * The type guards                                                  *)
(* ================================================================== *)

Lemma oand_Return (a b : bool) : (Return a &&& Return b) = Return (a && b).
Proof. destruct a; reflexivity. Qed.

Lemma oand_false_l (c : outcome bool) : (Return false &&& c) = Return false.
Proof. reflexivity. Qed.

Lemma oand_true_l (c : outcome bool) : (Return true &&& c) = c.
Proof. reflexivity. Qed.

Lemma truthy_object (raw : value) :
  truthy raw && (typeof raw === "object") = isObject raw.
Proof.
  destruct raw; try reflexivity; cbn [typeof isObject]; apply andb_false_r.
Qed.

Lemma typeof_number (v : value) : (typeof v === "number") = isNumber v.
Proof. destruct v; reflexivity. Qed.

Lemma nonBlankString_eq (v : value) : Local.nonBlankString v = Return (nonBlank v).
Proof.
  unfold Local.nonBlankString. destruct v; try reflexivity.
  cbn [typeof]. change ("string" === "string") with true.
  rewrite oand_true_l. cbn [String_trim obind nonBlank].
  now rewrite length_pos_nonempty.
Qed.

Lemma every_Return {A : Type} (f : A -> outcome bool) (g : A -> bool) (xs : list A) :
  (forall x, f x = Return (g x)) -> every f xs = Return (forallb g xs).
Proof.
  intros H. induction xs as [| x xs IH]; cbn [every forallb]; [reflexivity |].
  rewrite H. cbn. destruct (g x); [exact IH | reflexivity].
Qed.

Lemma some_Return {A : Type} (f : A -> outcome bool) (g : A -> bool) (xs : list A) :
  (forall x, In x xs -> f x = Return (g x)) -> some f xs = Return (existsb g xs).
Proof.
  induction xs as [| x xs IH]; intros H; cbn [some existsb]; [reflexivity |].
  rewrite (H x (or_introl eq_refl)). cbn.
  destruct (g x); [reflexivity |]. apply IH. intros y Hy. apply H. now right.
Qed.

(** [isValidExam] never throws, and tests [validExam]. *)
Lemma isValidExam_eq (raw : value) : Local.isValidExam raw = Return (validExam raw).
Proof.
  unfold Local.isValidExam, validExam.
  rewrite oand_Return, truthy_object.
  destruct (isObject raw) eqn:O; [| reflexivity].
  rewrite !(get_object raw _ O). cbn [obind].
  rewrite !nonBlankString_eq, !typeof_number, !oand_Return. reflexivity.
Qed.

Lemma isValidSubject_eq (raw : value) : Local.isValidSubject raw = Return (validSubject raw).
Proof.
  unfold Local.isValidSubject, validSubject.
  rewrite oand_Return, truthy_object.
  destruct (isObject raw) eqn:O; [| reflexivity].
  rewrite !(get_object raw _ O). cbn [obind].
  rewrite !nonBlankString_eq, !oand_Return. cbn [andb].
  destruct (nonBlank (field raw "id") && nonBlank (field raw "name")); [| reflexivity].
  destruct (field raw "exams") as [ | | b | n | s | xs | ps]; try reflexivity.
  cbn [Array_isArray asArray obind andb]. rewrite oand_true_l.
  apply every_Return, isValidExam_eq.
Qed.

Lemma isValidAppState_eq (raw : value) : Local.isValidAppState raw = Return (validAppState raw).
Proof.
  unfold Local.isValidAppState, validAppState.
  destruct raw as [ | | b | n | s | xs | ps]; try reflexivity.
  - destruct b; reflexivity.
  - cbn [truthy typeof Array_isArray]. now rewrite orb_true_r.
  - cbn [truthy typeof Array_isArray]. now rewrite orb_true_r.
  - cbn [truthy typeof Array_isArray negb orb]. cbn [String.eqb Ascii.eqb Bool.eqb negb].
    rewrite (get_object (Obj ps) "subjects" eq_refl). cbn [obind].
    destruct (field (Obj ps) "subjects") as [ | | b | n | s | [| x xs] | qs]; try reflexivity.
    rewrite (get_object (Obj ps) "activeSubjectId" eq_refl). cbn [obind].
    destruct (field (Obj ps) "activeSubjectId") as [ | | b | n | active | ys | qs];
      try reflexivity.
    rewrite (every_Return _ validSubject _ isValidSubject_eq). cbn [obind].
    destruct (forallb validSubject (x :: xs)) eqn:V; cbn [negb andb]; [| reflexivity].
    apply some_Return. intros subject Hin.
    assert (O : isObject subject = true).
    { rewrite forallb_forall in V. specialize (V subject Hin).
      unfold validSubject in V. destruct (isObject subject); [reflexivity | discriminate]. }
    rewrite (get_object subject "id" O). reflexivity.
Qed.

(** The first statement of [normalizeStoredValue]: [return value]. *)
Lemma normalize_valid_argument (x : value) (w : World) :
  Local.isValidAppState x = Return true ->
  Local.normalizeStoredValue x w = Return (Local.TheArgument, w).
Proof.
  intros H. unfold Local.normalizeStoredValue, bind, lift. rewrite H. reflexivity.
Qed.

(** C2: an argument that passes [isValidAppState] is handed back as it
    is, the very object that was passed, without a draw from the random
    source; normalizing what was handed back hands it back again. *)
Theorem normalizeStoredValue_returns_valid_argument :
  forall (x : value) (w : World),
    Local.isValidAppState x = Return true ->
    Local.normalizeStoredValue x w = Return (Local.TheArgument, w) /\
    resultValue x Local.TheArgument = x /\
    Local.normalizeStoredValue (resultValue x Local.TheArgument) w
    = Return (Local.TheArgument, w).
Proof.
  intros x w H. cbn [resultValue].
  repeat split; apply normalize_valid_argument, H.
Qed.

Lemma normalizeStoredValue_returns_valid_argument_witness :
  let x :=
    Obj [ ("subjects",
           Arr [ Obj [ ("id", Str "s1"); ("name", Str "Physics");
                       ("exams",
                        Arr [ Obj [ ("id", Str "exam-1"); ("paper", Str "2025 FINAL PAPER 02");
                                    ("mcq", Num (ofZ 8)); ("essay", Num (ofZ 1));
                                    ("total", Num (ofZ 9)); ("completion", Num (ofZ 82)) ] ]) ] ]);
          ("activeSubjectId", Str "s1") ] in
  Local.isValidAppState x = Return true /\
  Local.normalizeStoredValue x sampleWorld = Return (Local.TheArgument, sampleWorld).
Proof.
  cbv zeta. split; [reflexivity |].
  apply normalizeStoredValue_returns_valid_argument. reflexivity.
Defined.

(* ================================================================== *)
(** * The sanitizers                                                   *)
(* ================================================================== *)

Lemma ifNonBlank_trim_nonempty (v : value) (d : string) :
  isEmpty d = false -> isEmpty (Local.ifNonBlank v trim d) = false.
Proof.
  intros H. destruct v; cbn [Local.ifNonBlank]; auto.
  destruct (isEmpty (trim s)) eqn:E; auto.
Qed.

Lemma returns_fresh_or_kept_id (v : value) (prefix : string) (w : World) :
  isEmpty prefix = false ->
  returns (Local.ifNonBlank v ret (Local.createId prefix)) w (fun id => isEmpty id = false).
Proof.
  intros H. destruct v; cbn [Local.ifNonBlank]; try (apply returns_createId; exact H).
  destruct (isEmpty (trim s)) eqn:E; [apply returns_createId; exact H |].
  apply returns_ret. now apply nonblank_nonempty.
Qed.

Lemma returns_get (raw : value) (k : string) (w : World) :
  isObject raw = true -> plain raw = true ->
  returns (lift (get raw k)) w (fun v => plain v = true).
Proof.
  intros O P. eapply returns_lift; [apply get_object, O | apply field_plain, P].
Qed.

Lemma returns_ToNumber (v : value) (d : number) (w : World) :
  plain v = true ->
  returns (lift (ToNumber (nullish v (Num d)))) w (fun _ => True).
Proof.
  intros P. destruct (ToNumber_plain (nullish v (Num d))) as [n E].
  - apply nullish_plain; [exact P | reflexivity].
  - eapply returns_lift; [exact E | exact I].
Qed.

(** What is not an object is answered [null], without a draw. *)
Lemma sanitizeExam_non_object (raw : value) (index : nat) (w : World) :
  isObject raw = false -> Local.sanitizeExam raw index w = Return (None, w).
Proof.
  intros O. unfold Local.sanitizeExam. now rewrite object_guard, O.
Qed.

(** An object none of whose parts has an own [toString] is answered by a
    repaired entry. *)
Lemma sanitizeExam_object (raw : value) (index : nat) (w : World) :
  isObject raw = true -> plain raw = true ->
  returns (Local.sanitizeExam raw index) w
          (fun o => exists e, o = Some e /\ repairedExam e).
Proof.
  intros O P. unfold Local.sanitizeExam. rewrite object_guard, O. cbn [negb].
  eapply returns_bind; [apply returns_get; assumption | intros rawPaper w1 _].
  eapply returns_bind; [apply returns_get; assumption | intros rawMcq w2 Pm].
  eapply returns_bind; [apply returns_ToNumber, Pm | intros mcqValue w3 _].
  eapply returns_bind; [apply returns_get; assumption | intros rawEssay w4 Pe].
  eapply returns_bind; [apply returns_ToNumber, Pe | intros essayValue w5 _].
  eapply returns_bind; [apply returns_get; assumption | intros rawTotal w6 Pt].
  eapply returns_bind; [apply returns_ToNumber, Pt | intros totalValue w7 _].
  eapply returns_bind; [apply returns_get; assumption | intros rawCompletion w8 Pc].
  eapply returns_bind; [apply returns_ToNumber, Pc | intros completionValue w9 _].
  eapply returns_bind; [apply returns_get; assumption | intros rawId w10 _].
  eapply returns_bind; [apply (returns_fresh_or_kept_id rawId "exam"); reflexivity |].
  intros id w11 Hid. apply returns_ret.
  eexists; split; [reflexivity |].
  unfold repairedExam. cbn [ExamEntry.paper ExamEntry.id ExamEntry.mcq ExamEntry.essay
    ExamEntry.total ExamEntry.completion].
  repeat split.
  - apply ifNonBlank_trim_nonempty. reflexivity.
  - exact Hid.
  - destruct (Number_isFinite mcqValue) eqn:E; [exact E | reflexivity].
  - destruct (Number_isFinite essayValue) eqn:E; [exact E | reflexivity].
  - apply clampCompletion_finite.
  - apply clampCompletion_inRange.
  - destruct (Number_isFinite totalValue) eqn:E; [left; exact E | right; reflexivity].
Qed.

Lemma sanitizeExam_plain (raw : value) (index : nat) (w : World) :
  plain raw = true ->
  returns (Local.sanitizeExam raw index) w
          (fun o => forall e, o = Some e -> repairedExam e).
Proof.
  intros P. destruct (isObject raw) eqn:O.
  - eapply returns_weaken; [apply sanitizeExam_object; assumption |].
    intros o [e [-> He]] e' E. inversion E; subst. exact He.
  - exists None, w. split; [now apply sanitizeExam_non_object | discriminate].
Qed.

Lemma plain_elements (v : value) :
  plain v = true ->
  Forall (fun x => plain x = true) (match v with Arr xs => xs | _ => [] end).
Proof.
  destruct v; try constructor. cbn [plain]. intros H.
  apply Forall_forall. now apply forallb_forall.
Qed.

Lemma returns_sanitized_exams (elems : list value) (w : World) :
  Forall (fun x => plain x = true) elems ->
  returns (mapi Local.sanitizeExam 0 elems) w
          (fun sanitized => Forall repairedExam (dropNulls sanitized)).
Proof.
  intros H. eapply returns_weaken.
  - apply (returns_mapi Local.sanitizeExam (fun x => plain x = true)
             (fun o => forall e, o = Some e -> repairedExam e)); [| exact H].
    intros x i w' Px. now apply sanitizeExam_plain.
  - intros ys [Hys _]. now apply Forall_dropNulls.
Qed.

Lemma sanitizeSubject_non_object (raw : value) (index : nat) (w : World) :
  isObject raw = false -> Local.sanitizeSubject raw index w = Return (None, w).
Proof.
  intros O. unfold Local.sanitizeSubject. now rewrite object_guard, O.
Qed.

Lemma sanitizeSubject_object (raw : value) (index : nat) (w : World) :
  isObject raw = true -> plain raw = true ->
  returns (Local.sanitizeSubject raw index) w
          (fun o => exists s, o = Some s /\ repairedSubject s).
Proof.
  intros O P. unfold Local.sanitizeSubject. rewrite object_guard, O. cbn [negb].
  eapply returns_bind; [apply returns_get; assumption | intros rawName w1 _].
  eapply returns_bind; [apply returns_get; assumption | intros rawId w2 _].
  eapply returns_bind; [apply (returns_fresh_or_kept_id rawId "subject"); reflexivity |].
  intros id w3 Hid.
  eapply returns_bind; [apply returns_get; assumption | intros rawExams w4 Px].
  eapply returns_bind; [apply returns_sanitized_exams, plain_elements, Px |].
  intros sanitized w5 Hs. apply returns_ret.
  eexists; split; [reflexivity |].
  unfold repairedSubject. cbn [Subject.id Subject.name Subject.exams].
  repeat split; [exact Hid | | exact Hs].
  apply ifNonBlank_trim_nonempty. reflexivity.
Qed.

Lemma sanitizeSubject_plain (raw : value) (index : nat) (w : World) :
  plain raw = true ->
  returns (Local.sanitizeSubject raw index) w
          (fun o => forall s, o = Some s -> repairedSubject s).
Proof.
  intros P. destruct (isObject raw) eqn:O.
  - eapply returns_weaken; [apply sanitizeSubject_object; assumption |].
    intros o [s [-> Hs]] s' E. inversion E; subst. exact Hs.
  - exists None, w. split; [now apply sanitizeSubject_non_object | discriminate].
Qed.

(** C10, where the code departs from it.  Both [mcq] and [essay] hold
    the largest finite Number and [total] is missing: the entry returned
    has the total [Infinity], the overflowed sum, which is not finite.
    And on an object whose [mcq] is an object with an own [toString],
    [Number(...)] throws: no entry and no [null] is returned. *)
Theorem sanitizeExam_total_not_finite :
  let big := StringToNumber "1.7976931348623157e308" in
  let entry := ExamEntry.mk "exam-r0" "Paper 1" big big Infinity (ofZ 0) in
  Number_isFinite big = true /\
  resultOf (Local.sanitizeExam (Obj [ ("mcq", Num big); ("essay", Num big) ]) 0 sampleWorld)
    = Return (Some entry) /\
  Number_isFinite (ExamEntry.total entry) = false /\
  completeExam entry = false /\
  resultOf (Local.sanitizeExam (Obj [ ("mcq", Obj [ ("toString", Null) ]) ]) 0 sampleWorld)
    = Throw TypeError.
Proof. vm_compute. repeat split; reflexivity. Qed.

(* ================================================================== *)
(** * An argument that is already valid, read as an AppState           *)
(* ================================================================== *)

Lemma nonBlank_Str (v : value) :
  nonBlank v = true -> exists s, v = Str s /\ isEmpty s = false.
Proof.
  destruct v; try discriminate. cbn [nonBlank]. intros H.
  exists s. split; [reflexivity |]. apply nonblank_nonempty.
  now apply negb_true_iff.
Qed.

Lemma isNumber_Num (v : value) : isNumber v = true -> exists n, v = Num n.
Proof. destruct v; try discriminate. eauto. Qed.

Lemma validExam_view (v : value) :
  validExam v = true ->
  exists e, asExamEntry v = Some e /\ isEmpty (ExamEntry.id e) = false.
Proof.
  unfold validExam. rewrite !andb_true_iff.
  intros [[[[[[_ Hid] Hp] Hm] He] Ht] Hc].
  destruct (nonBlank_Str _ Hid) as [id [Eid Nid]].
  destruct (nonBlank_Str _ Hp) as [paper [Ep _]].
  destruct (isNumber_Num _ Hm) as [mcq Em].
  destruct (isNumber_Num _ He) as [essay Ee].
  destruct (isNumber_Num _ Ht) as [total Et].
  destruct (isNumber_Num _ Hc) as [completion Ec].
  unfold asExamEntry. rewrite Eid, Ep, Em, Ee, Et, Ec.
  eexists; split; [reflexivity | exact Nid].
Qed.

Lemma validExams_view (xs : list value) :
  forallb validExam xs = true ->
  exists es, traverse asExamEntry xs = Some es /\
             Forall (fun e => isEmpty (ExamEntry.id e) = false) es.
Proof.
  induction xs as [| x xs IH]; cbn [forallb traverse]; intros H.
  - exists []. auto.
  - apply andb_true_iff in H. destruct H as [Hx Hxs].
    destruct (validExam_view x Hx) as [e [Ee Ne]].
    destruct (IH Hxs) as [es [Ees Nes]].
    rewrite Ee, Ees. exists (e :: es). auto.
Qed.

Lemma validSubject_view (v : value) :
  validSubject v = true ->
  exists s, asSubject v = Some s /\
            field v "id" = Str (Subject.id s) /\
            isEmpty (Subject.id s) = false /\
            Forall (fun e => isEmpty (ExamEntry.id e) = false) (Subject.exams s).
Proof.
  unfold validSubject. rewrite !andb_true_iff.
  intros [[[[_ Hid] Hn] _] Hx].
  destruct (nonBlank_Str _ Hid) as [id [Eid Nid]].
  destruct (nonBlank_Str _ Hn) as [name [En _]].
  unfold asSubject. rewrite Eid, En.
  destruct (field v "exams") as [ | | b | n | s | xs | ps]; try discriminate.
  destruct (validExams_view xs Hx) as [es [Ees Nes]]. rewrite Ees.
  eexists; repeat split; [exact Nid | exact Nes].
Qed.

Lemma validSubjects_view (active : string) (xs : list value) :
  forallb validSubject xs = true ->
  exists ss, traverse asSubject xs = Some ss /\
             List.length ss = List.length xs /\
             existsb (fun s => Subject.id s === active) ss = existsb (hasId active) xs /\
             Forall (fun s => isEmpty (Subject.id s) = false /\
                              Forall (fun e => isEmpty (ExamEntry.id e) = false)
                                     (Subject.exams s)) ss.
Proof.
  induction xs as [| x xs IH]; cbn [forallb traverse]; intros H.
  - exists []. auto.
  - apply andb_true_iff in H. destruct H as [Hx Hxs].
    destruct (validSubject_view x Hx) as [s [Es [Fid [Nid Nex]]]].
    destruct (IH Hxs) as [ss [Ess [Len [Eex Fss]]]].
    rewrite Es, Ess. exists (s :: ss).
    cbn [List.length existsb]. unfold hasId at 1. rewrite Fid, Eex, Len.
    repeat split; auto.
Qed.

Lemma Forall_forallb {A : Type} (f : A -> bool) (xs : list A) :
  Forall (fun x => f x = true) xs -> forallb f xs = true.
Proof. intros H. apply forallb_forall. now apply Forall_forall. Qed.

(** A valid argument reads as an AppState with at least one subject,
    non-empty subject and exam ids, and an active subject among the
    subjects. *)
Lemma validAppState_view (x : value) :
  validAppState x = true ->
  exists s, asAppState x = Some s /\
            subjectsNonEmpty s = true /\
            subjectIdsNonEmpty s = true /\
            examIdsNonEmpty s = true /\
            activeResolves s = true.
Proof.
  unfold validAppState. destruct x as [ | | b | n | s | xs | ps]; try discriminate.
  destruct (field (Obj ps) "subjects") as [ | | b | n | s | [| y ys] | qs] eqn:Es;
    try discriminate.
  destruct (field (Obj ps) "activeSubjectId") as [ | | b | n | active | zs | qs] eqn:Ea;
    try discriminate.
  intros H. apply andb_true_iff in H. destruct H as [Hv Hex].
  destruct (validSubjects_view active (y :: ys) Hv) as [ss [Ess [Len [Eex Fss]]]].
  unfold asAppState. rewrite Es, Ea, Ess.
  eexists; split; [reflexivity |].
  unfold subjectsNonEmpty, subjectIdsNonEmpty, examIdsNonEmpty, activeResolves.
  cbn [AppState.subjects AppState.activeSubjectId].
  repeat split.
  - rewrite Len. reflexivity.
  - apply Forall_forallb. eapply Forall_impl; [| exact Fss].
    intros s [Hs _]. now rewrite Hs.
  - apply Forall_forallb. eapply Forall_impl; [| exact Fss].
    intros s [_ Hs]. apply Forall_forallb. eapply Forall_impl; [| exact Hs].
    intros e He. now rewrite He.
  - now rewrite Eex.
Qed.

(* ================================================================== *)
(** * The normalizer                                                   *)
(* ================================================================== *)

Lemma repaired_state (subjects : list Subject.t) (active : string) :
  subjects <> [] ->
  Forall repairedSubject subjects ->
  existsb (fun s => Subject.id s === active) subjects = true ->
  let s := AppState.mk subjects active in
  subjectsNonEmpty s = true /\ subjectIdsNonEmpty s = true /\
  examIdsNonEmpty s = true /\ activeResolves s = true /\
  completionsInRange s = true.
Proof.
  intros Hne Hr Hex. cbn zeta.
  unfold subjectsNonEmpty, subjectIdsNonEmpty, examIdsNonEmpty, activeResolves,
    completionsInRange.
  cbn [AppState.subjects AppState.activeSubjectId].
  repeat split.
  - destruct subjects; [contradiction | reflexivity].
  - apply Forall_forallb. eapply Forall_impl; [| exact Hr].
    intros s [Hs _]. now rewrite Hs.
  - apply Forall_forallb. eapply Forall_impl; [| exact Hr].
    intros s [_ [_ Hs]]. apply Forall_forallb. eapply Forall_impl; [| exact Hs].
    intros e He. destruct He as [_ [He _]]. now rewrite He.
  - exact Hex.
  - apply Forall_forallb. eapply Forall_impl; [| exact Hr].
    intros s [_ [_ Hs]]. apply Forall_forallb. eapply Forall_impl; [| exact Hs].
    intros e He. apply He.
Qed.

Lemma DEFAULT_EXAMS_repaired : Forall repairedExam (map Local.cloneExam Local.DEFAULT_EXAMS).
Proof.
  repeat constructor; vm_compute; auto.
Qed.

Lemma returns_built (c : M AppState.t) (w : World) :
  returns c w (fun s => subjectsNonEmpty s = true /\ subjectIdsNonEmpty s = true /\
                        examIdsNonEmpty s = true /\ activeResolves s = true /\
                        completionsInRange s = true) ->
  returns (bind c (fun state => ret (Local.Built state))) w builtState.
Proof.
  intros H. eapply returns_bind; [exact H |].
  intros s w' Hs. apply returns_ret. exists s. auto.
Qed.

Lemma createDefaultState_built (w : World) :
  returns (bind Local.createDefaultState (fun state => ret (Local.Built state))) w builtState.
Proof.
  apply returns_built. unfold Local.createDefaultState.
  eapply returns_bind; [apply (returns_createId "subject"); reflexivity |].
  intros id w' Hid. apply returns_ret.
  apply repaired_state.
  - discriminate.
  - constructor; [| constructor].
    repeat split; [exact Hid | apply DEFAULT_EXAMS_repaired].
  - cbn [existsb Subject.id]. now rewrite String.eqb_refl.
Qed.

Lemma active_resolution (rawActive : value) (first : Subject.t) (rest : list Subject.t) :
  let candidate := Local.ifNonBlank rawActive (fun s => s) (Subject.id first) in
  let active :=
    if negb (existsb (fun subject => Subject.id subject === candidate) (first :: rest))
    then Subject.id first else candidate in
  existsb (fun s => Subject.id s === active) (first :: rest) = true.
Proof.
  cbn zeta.
  destruct (existsb (fun subject => Subject.id subject
                       === Local.ifNonBlank rawActive (fun s => s) (Subject.id first))
                    (first :: rest)) eqn:E; cbn [negb].
  - exact E.
  - cbn [existsb]. now rewrite String.eqb_refl.
Qed.

Lemma returns_sanitized_subjects (elems : list value) (w : World) :
  Forall (fun x => plain x = true) elems ->
  returns (mapi Local.sanitizeSubject 0 elems) w
          (fun sanitized => Forall repairedSubject (dropNulls sanitized)).
Proof.
  intros H. eapply returns_weaken.
  - apply (returns_mapi Local.sanitizeSubject (fun x => plain x = true)
             (fun o => forall s, o = Some s -> repairedSubject s)); [| exact H].
    intros x i w' Px. now apply sanitizeSubject_plain.
  - intros ys [Hys _]. now apply Forall_dropNulls.
Qed.

(** When the argument is not valid, and [Number(...)] cannot throw on
    it, a repaired state is built. *)
Lemma normalizeStoredValue_builds (x : value) (w : World) :
  plain x = true -> validAppState x = false ->
  returns (Local.normalizeStoredValue x) w builtState.
Proof.
  intros P V. unfold Local.normalizeStoredValue.
  eapply returns_bind;
    [eapply returns_lift with (Q := fun b => b = false);
     [apply isValidAppState_eq | exact V] |].
  intros valid w1 ->.
  destruct x as [ | | b | n | s | xs | ps].
  - cbn. apply createDefaultState_built.
  - cbn. apply createDefaultState_built.
  - destruct b; cbn; apply createDefaultState_built.
  - eapply returns_bind;
      [eapply returns_lift with (Q := fun b => b = false); [| reflexivity] |].
    + rewrite !oand_Return. cbn [typeof Array_isArray]. rewrite andb_false_r. reflexivity.
    + intros g w2 ->. apply createDefaultState_built.
  - eapply returns_bind;
      [eapply returns_lift with (Q := fun b => b = false); [| reflexivity] |].
    + rewrite !oand_Return. cbn [typeof Array_isArray]. rewrite andb_false_r. reflexivity.
    + intros g w2 ->. apply createDefaultState_built.
  - cbn [truthy typeof Array_isArray negb].
    eapply returns_bind;
      [eapply returns_lift with (Q := fun b => b = false); reflexivity |].
    intros g w2 ->.
    eapply returns_bind; [apply (returns_createId "subject"); reflexivity |].
    intros id w3 Hid.
    eapply returns_bind; [apply returns_sanitized_exams, (plain_elements (Arr xs)), P |].
    intros sanitized w4 Hs. apply returns_ret.
    eexists; split; [reflexivity |].
    apply repaired_state.
    + discriminate.
    + constructor; [| constructor]. repeat split; [exact Hid | exact Hs].
    + cbn [existsb Subject.id]. now rewrite String.eqb_refl.
  - cbn [truthy typeof Array_isArray negb].
    rewrite !oand_Return. cbn [andb]. change ("object" === "object") with true.
    rewrite oand_true_l, (get_object (Obj ps) "subjects" eq_refl). cbn [obind].
    destruct (Array_isArray (field (Obj ps) "subjects")) eqn:A.
    + eapply returns_bind;
        [eapply returns_lift with (Q := fun b => b = true); reflexivity |].
      intros g w2 ->.
      destruct (field (Obj ps) "subjects") as [ | | b | n | s | elems | qs] eqn:Es;
        try discriminate.
      eapply returns_bind;
        [eapply returns_lift with (Q := fun l => l = elems); reflexivity |].
      intros l w3 ->.
      eapply returns_bind.
      * apply returns_sanitized_subjects.
        pose proof (field_plain (Obj ps) "subjects" P) as Pf. rewrite Es in Pf.
        apply (plain_elements (Arr elems)), Pf.
      * intros sanitized w4 Hs. cbv beta in Hs.
        destruct (dropNulls sanitized) as [| first rest] eqn:Ed.
        -- apply createDefaultState_built.
        -- eapply returns_bind;
             [apply (returns_lift _ (field (Obj ps) "activeSubjectId") _ (fun _ => True));
              [reflexivity | exact I] |].
           intros rawActive w5 _. apply returns_ret.
           eexists; split; [reflexivity |].
           apply repaired_state; [discriminate | exact Hs |].
           apply active_resolution.
    + eapply returns_bind;
        [eapply returns_lift with (Q := fun b => b = false); reflexivity |].
      intros g w2 ->. apply createDefaultState_built.
Qed.

(** The claim C1 as it is written fails on an argument that is already
    valid: it is handed back as it is, here with a completion of 150, two
    subjects with the id ["a"] and two exams with the id ["e1"]. *)
Lemma valid_argument_keeps_out_of_range_completion_and_duplicate_ids :
  let exam :=
    Obj [ ("id", Str "e1"); ("paper", Str "P1"); ("mcq", Num (ofZ 1));
          ("essay", Num (ofZ 2)); ("total", Num (ofZ 3));
          ("completion", Num (ofZ 150)) ] in
  let x :=
    Obj [ ("subjects",
           Arr [ Obj [ ("id", Str "a"); ("name", Str "Maths"); ("exams", Arr [ exam; exam ]) ];
                 Obj [ ("id", Str "a"); ("name", Str "Biology"); ("exams", Arr []) ] ]);
          ("activeSubjectId", Str "a") ] in
  exists s,
    Local.normalizeStoredValue x sampleWorld = Return (Local.TheArgument, sampleWorld) /\
    stateOf x Local.TheArgument = Some s /\
    completionsInRange s = false /\
    subjectIdsUnique s = false /\
    examIdsUnique s = false.
Proof.
  cbv zeta. eexists. split; [reflexivity |]. split; [reflexivity |].
  vm_compute. repeat split; reflexivity.
Qed.

(** Ids are kept as they come on the repair path as well: here two
    subjects keep the id ["a"] and two exams keep the id ["x"]; the
    string among the subjects is dropped and the array is repaired like
    an object. *)
Example sanitizing_keeps_duplicate_ids :
  let x :=
    Obj [ ("subjects",
           Arr [ Obj [ ("id", Str "a"); ("name", Str "  ");
                       ("exams",
                        Arr [ Num (ofZ 3); Null;
                              Obj [ ("id", Str "x"); ("completion", Num (ofZ 120)) ];
                              Obj [ ("id", Str "x"); ("completion", Str "-3") ] ]) ];
                 Str "junk";
                 Arr [];
                 Obj [ ("id", Str "a") ] ]);
          ("activeSubjectId", Str "zzz") ] in
  let exam id paper completion :=
    ExamEntry.mk id paper (ofZ 0) (ofZ 0) (ofZ 0) (ofZ completion) in
  let s :=
    AppState.mk
      [ Subject.mk "a" "Subject 1" [ exam "x" "Paper 3" 100; exam "x" "Paper 4" 0 ];
        Subject.mk "subject-r0" "Subject 3" [];
        Subject.mk "a" "Subject 4" [] ]
      "a" in
  resultOf (Local.normalizeStoredValue x sampleWorld) = Return (Local.Built s) /\
  subjectIdsUnique s = false /\
  examIdsUnique s = false.
Proof. vm_compute. repeat split; reflexivity. Qed.

(** On an exam whose [mcq] is an object with an own [toString] the
    conversion [Number(raw.mcq ?? 0)] throws, and so does the
    normalizer. *)
Example normalizeStoredValue_throws_on_own_toString :
  let x :=
    Obj [ ("subjects",
           Arr [ Obj [ ("exams", Arr [ Obj [ ("mcq", Obj [ ("toString", Null) ]) ] ]) ] ]) ] in
  plain x = false /\
  resultOf (Local.normalizeStoredValue x sampleWorld) = Throw TypeError.
Proof. vm_compute. split; reflexivity. Qed.

(** The legacy shapes: a bare array becomes the exams of one subject
    named Physics; [null] gives the default state. *)
Example normalizeStoredValue_legacy_and_default :
  resultOf (Local.normalizeStoredValue (Arr [ Obj []; Null ]) sampleWorld)
  = Return (Local.Built
              (AppState.mk
                 [ Subject.mk "subject-r0" "Physics"
                     [ ExamEntry.mk "exam-r1" "Paper 1" (ofZ 0) (ofZ 0) (ofZ 0) (ofZ 0) ] ]
                 "subject-r0")) /\
  resultOf (Local.normalizeStoredValue Null sampleWorld)
  = Return (Local.Built
              (AppState.mk [ Subject.mk "subject-r0" "Physics" Local.DEFAULT_EXAMS ]
                 "subject-r0")) /\
  resultOf (Local.normalizeStoredValue (Obj [ ("subjects", Arr []) ]) sampleWorld)
  = Return (Local.Built
              (AppState.mk [ Subject.mk "subject-r0" "Physics" Local.DEFAULT_EXAMS ]
                 "subject-r0")).
Proof. vm_compute. repeat split; reflexivity. Qed.

(** C1, amended: for every argument in which no object has an own
    property [toString], [normalizeStoredValue] returns without throwing
    an AppState with at least one subject, a non-empty id for every
    subject and every exam, and an [activeSubjectId] that is the id of
    one of the subjects; when the state is one the normalizer built,
    every completion lies within 0..100, and otherwise the state is the
    argument itself, which passed [isValidAppState].  Ids are not made
    unique. *)
Theorem normalizeStoredValue_returns_repaired_state :
  forall (x : value) (w : World),
    plain x = true ->
    exists r w' s,
      Local.normalizeStoredValue x w = Return (r, w') /\
      stateOf x r = Some s /\
      subjectsNonEmpty s = true /\
      subjectIdsNonEmpty s = true /\
      examIdsNonEmpty s = true /\
      activeResolves s = true /\
      match r with
      | Local.TheArgument => Local.isValidAppState x = Return true
      | Local.Built _ => completionsInRange s = true
      end.
Proof.
  intros x w P. destruct (validAppState x) eqn:V.
  - pose proof (isValidAppState_eq x) as E. rewrite V in E.
    pose proof (normalize_valid_argument x w E) as En.
    destruct (validAppState_view x V) as [s [Es [H1 [H2 [H3 H4]]]]].
    exists Local.TheArgument, w, s. cbn [stateOf]. auto 10.
  - destruct (normalizeStoredValue_builds x w P V)
      as [r [w' [E [s [-> [H1 [H2 [H3 [H4 H5]]]]]]]]].
    exists (Local.Built s), w', s. cbn [stateOf]. auto 10.
Qed.

Lemma normalizeStoredValue_returns_repaired_state_witness :
  let x :=
    Obj [ ("subjects",
           Arr [ Obj [ ("id", Str "a"); ("name", Str " ");
                       ("exams", Arr [ Null; Obj [ ("completion", Str "250") ] ]) ];
                 Str "junk" ]);
          ("activeSubjectId", Num (ofZ 7)) ] in
  plain x = true /\
  exists r w' s,
    Local.normalizeStoredValue x sampleWorld = Return (r, w') /\
    stateOf x r = Some s /\
    subjectsNonEmpty s = true /\
    subjectIdsNonEmpty s = true /\
    examIdsNonEmpty s = true /\
    activeResolves s = true /\
    match r with
    | Local.TheArgument => Local.isValidAppState x = Return true
    | Local.Built _ => completionsInRange s = true
    end.
Proof.
  cbv zeta. split; [reflexivity |].
  apply normalizeStoredValue_returns_repaired_state. reflexivity.
Defined.

(* ================================================================== *)
(** * The JSON round trip                                              *)
(* ================================================================== *)

Lemma num_eqb_refl_finite (n : number) : Number_isFinite n = true -> num_eqb n n = true.
Proof.
  destruct n as [s | s | | s m e]; try discriminate; intros _.
  - reflexivity.
  - unfold num_eqb, SFeqb. cbn [SFcompare].
    rewrite Z.compare_refl, Pos.compare_cont_refl. destruct s; reflexivity.
Qed.

Lemma jsonData_props (ps : list (string * value)) :
  jsonData (Obj ps) = true ->
  distinct (map fst ps) = true /\ Forall (fun kv => jsonData (snd kv) = true) ps.
Proof.
  cbn [jsonData]. intros H. apply andb_true_iff in H. destruct H as [D F].
  split; [exact D |]. apply Forall_forall. now apply forallb_forall.
Qed.

Lemma jsonData_elems (xs : list value) :
  jsonData (Arr xs) = true -> Forall (fun x => jsonData x = true) xs.
Proof. cbn [jsonData]. intros H. apply Forall_forall. now apply forallb_forall. Qed.

Lemma jsonCopy_Obj (ps : list (string * value)) :
  Forall (fun kv => jsonData (snd kv) = true) ps ->
  jsonCopy (Obj ps) = Obj (map (fun kv => (fst kv, jsonCopy (snd kv))) ps).
Proof.
  intros H. cbn [jsonCopy]. f_equal.
  induction H as [| [k v] ps Hv _ IH]; [reflexivity |].
  cbn [map fst snd] in *. rewrite IH.
  destruct v; try reflexivity. discriminate.
Qed.

Lemma lookup_map (f : value -> value) (k : string) (ps : list (string * value)) :
  lookup k (map (fun kv => (fst kv, f (snd kv))) ps)
  = match lookup k ps with Some x => Some (f x) | None => None end.
Proof.
  induction ps as [| [k' v] ps IH]; [reflexivity |].
  cbn [map lookup fst snd]. destruct (k === k'); [reflexivity | exact IH].
Qed.

(** A property of the copy is the copy of the property. *)
Lemma field_jsonCopy (v : value) (k : string) :
  jsonData v = true ->
  (field v k = Undefined /\ field (jsonCopy v) k = Undefined) \/
  (jsonData (field v k) = true /\ field (jsonCopy v) k = jsonCopy (field v k)).
Proof.
  intros J. destruct v as [ | | b | n | s | xs | ps]; try (left; split; reflexivity).
  - left. split; [reflexivity |]. cbn [jsonCopy]. destruct (Number_isFinite n); reflexivity.
  - destruct (jsonData_props ps J) as [_ F].
    rewrite (jsonCopy_Obj ps F). cbn [field]. rewrite lookup_map.
    destruct (lookup k ps) as [x |] eqn:E; [right | left; split; reflexivity].
    split; [| reflexivity].
    rewrite Forall_forall in F. apply (F (k, x)). now apply lookup_In.
Qed.

Lemma nonBlank_jsonCopy (v : value) : nonBlank (jsonCopy v) = nonBlank v.
Proof.
  destruct v; try reflexivity. cbn [jsonCopy]. destruct (Number_isFinite n); reflexivity.
Qed.

Lemma isNumber_jsonCopy (v : value) : jsonData v = true -> isNumber (jsonCopy v) = isNumber v.
Proof.
  destruct v; try reflexivity. cbn [jsonCopy jsonData]. intros ->. reflexivity.
Qed.

Lemma isObject_jsonCopy (v : value) : isObject (jsonCopy v) = isObject v.
Proof.
  destruct v; try reflexivity. cbn [jsonCopy]. destruct (Number_isFinite n); reflexivity.
Qed.

Lemma nonBlank_field_jsonCopy (v : value) (k : string) :
  jsonData v = true -> nonBlank (field (jsonCopy v) k) = nonBlank (field v k).
Proof.
  intros J. destruct (field_jsonCopy v k J) as [[-> ->] | [_ ->]];
    [reflexivity | apply nonBlank_jsonCopy].
Qed.

Lemma isNumber_field_jsonCopy (v : value) (k : string) :
  jsonData v = true -> isNumber (field (jsonCopy v) k) = isNumber (field v k).
Proof.
  intros J. destruct (field_jsonCopy v k J) as [[-> ->] | [Jf ->]];
    [reflexivity | now apply isNumber_jsonCopy].
Qed.

Lemma validExam_jsonCopy (v : value) :
  jsonData v = true -> validExam (jsonCopy v) = validExam v.
Proof.
  intros J. unfold validExam.
  now rewrite isObject_jsonCopy, !nonBlank_field_jsonCopy, !isNumber_field_jsonCopy.
Qed.

Lemma forallb_map_jsonCopy (f : value -> bool) (xs : list value) :
  (forall x, jsonData x = true -> f (jsonCopy x) = f x) ->
  Forall (fun x => jsonData x = true) xs ->
  forallb f (map jsonCopy xs) = forallb f xs.
Proof.
  intros Hf H. induction H as [| x xs Hx _ IH]; [reflexivity |].
  cbn [map forallb]. now rewrite Hf, IH.
Qed.

Lemma existsb_map_jsonCopy (f : value -> bool) (xs : list value) :
  (forall x, jsonData x = true -> f (jsonCopy x) = f x) ->
  Forall (fun x => jsonData x = true) xs ->
  existsb f (map jsonCopy xs) = existsb f xs.
Proof.
  intros Hf H. induction H as [| x xs Hx _ IH]; [reflexivity |].
  cbn [map existsb]. now rewrite Hf, IH.
Qed.

Lemma validSubject_jsonCopy (v : value) :
  jsonData v = true -> validSubject (jsonCopy v) = validSubject v.
Proof.
  intros J. unfold validSubject.
  rewrite isObject_jsonCopy, !nonBlank_field_jsonCopy by exact J.
  destruct (field_jsonCopy v "exams" J) as [[-> ->] | [Jf ->]]; [reflexivity |].
  destruct (field v "exams") as [ | | b | n | s | xs | ps] eqn:E; try reflexivity.
  - cbn [jsonCopy]. destruct (Number_isFinite n); reflexivity.
  - cbn [jsonCopy Array_isArray].
    rewrite (forallb_map_jsonCopy validExam xs validExam_jsonCopy (jsonData_elems xs Jf)).
    reflexivity.
Qed.

Lemma hasId_jsonCopy (active : string) (v : value) :
  jsonData v = true -> hasId active (jsonCopy v) = hasId active v.
Proof.
  intros J. unfold hasId.
  destruct (field_jsonCopy v "id" J) as [[-> ->] | [Jf ->]]; [reflexivity |].
  destruct (field v "id") as [ | | b | n | s | xs | ps]; try reflexivity.
  cbn [jsonCopy]. destruct (Number_isFinite n); reflexivity.
Qed.

(** Validity survives the round trip of JSON data. *)
Lemma validAppState_jsonCopy (x : value) :
  jsonData x = true -> validAppState (jsonCopy x) = validAppState x.
Proof.
  intros J. destruct x as [ | | b | n | s | xs | ps]; try reflexivity.
  - cbn [jsonCopy]. destruct (Number_isFinite n); reflexivity.
  - pose proof (field_jsonCopy (Obj ps) "subjects" J) as Fs.
    pose proof (field_jsonCopy (Obj ps) "activeSubjectId" J) as Fa.
    rewrite (jsonCopy_Obj ps (proj2 (jsonData_props ps J))) in *.
    unfold validAppState.
    destruct Fs as [[-> ->] | [Js ->]]; [reflexivity |].
    destruct (field (Obj ps) "subjects") as [ | | b | n | s | elems | qs] eqn:Es;
      try reflexivity.
    + cbn [jsonCopy]. destruct (Number_isFinite n); reflexivity.
    + cbn [jsonCopy]. destruct elems as [| y ys]; [reflexivity |].
      cbn [map].
      change (jsonCopy y :: map jsonCopy ys) with (map jsonCopy (y :: ys)).
      destruct Fa as [[-> ->] | [Ja ->]]; [reflexivity |].
      destruct (field (Obj ps) "activeSubjectId") as [ | | b | n | active | zs | rs];
        try reflexivity.
      * cbn [jsonCopy]. destruct (Number_isFinite n); reflexivity.
      * cbn [jsonCopy].
        rewrite (forallb_map_jsonCopy validSubject _ validSubject_jsonCopy
                   (jsonData_elems _ Js)).
        rewrite (existsb_map_jsonCopy (hasId active) _ (hasId_jsonCopy active)
                   (jsonData_elems _ Js)).
        reflexivity.
Qed.

Lemma deepEqual_Arr_intro (xs ys : list value) :
  Forall2 (fun x y => deepEqual x y = true) xs ys -> deepEqual (Arr xs) (Arr ys) = true.
Proof.
  intros H. cbn [deepEqual]. induction H as [| x y xs ys Hxy _ IH]; [reflexivity |].
  now rewrite Hxy, IH.
Qed.

Lemma deepEqual_Obj_intro (ps qs : list (string * value)) :
  List.length ps = List.length qs ->
  Forall (fun kx => exists y, lookup (fst kx) qs = Some y /\ deepEqual (snd kx) y = true) ps ->
  deepEqual (Obj ps) (Obj qs) = true.
Proof.
  intros L H. cbn [deepEqual]. rewrite L, Nat.eqb_refl. cbn [andb].
  clear L. induction H as [| [k x] ps [y [Ey Hy]] _ IH]; [reflexivity |].
  cbn [fst snd] in *. now rewrite Ey, Hy, IH.
Qed.

Lemma existsb_eqb_In (k : string) (l : list string) :
  existsb (String.eqb k) l = false -> ~ In k l.
Proof.
  induction l as [| x l IH]; cbn [existsb]; intros H; [tauto |].
  apply orb_false_iff in H. destruct H as [Hx Hl].
  intros [-> | Hin]; [now rewrite String.eqb_refl in Hx | now apply IH].
Qed.

Lemma lookup_distinct (ps : list (string * value)) (k : string) (x : value) :
  distinct (map fst ps) = true -> In (k, x) ps -> lookup k ps = Some x.
Proof.
  induction ps as [| [k' y] ps IH]; [contradiction |].
  cbn [map fst distinct lookup]. intros D. apply andb_true_iff in D. destruct D as [N D].
  apply negb_true_iff in N. intros [E | Hin].
  - inversion E; subst. now rewrite String.eqb_refl.
  - destruct (String.eqb_spec k k') as [-> | _]; [| now apply IH].
    exfalso. apply (existsb_eqb_In _ _ N). apply in_map_iff. now exists (k', x).
Qed.

(** JSON data is deep-equal to its copy. *)
Lemma deepEqual_jsonCopy (x : value) : jsonData x = true -> deepEqual (jsonCopy x) x = true.
Proof.
  induction x as [ | | b | n | s | xs IH | ps IH] using value_induction; intros J.
  - discriminate.
  - reflexivity.
  - destruct b; reflexivity.
  - cbn [jsonData] in J. cbn [jsonCopy]. rewrite J. cbn [deepEqual].
    destruct (isZero n) eqn:Z.
    + destruct n; try discriminate. reflexivity.
    + now apply num_eqb_refl_finite.
  - cbn [jsonCopy deepEqual]. apply String.eqb_refl.
  - cbn [jsonCopy]. apply deepEqual_Arr_intro.
    pose proof (jsonData_elems xs J) as Jx. clear J.
    induction xs as [| y ys IHl]; [constructor |].
    inversion IH; subst. inversion Jx; subst.
    cbn [map]. constructor; auto.
  - destruct (jsonData_props ps J) as [D F].
    rewrite (jsonCopy_Obj ps F).
    apply deepEqual_Obj_intro; [apply length_map |].
    apply Forall_forall. intros [k y] Hin. cbn [fst snd].
    apply in_map_iff in Hin. destruct Hin as [[k' v] [E Hin]].
    cbn [fst snd] in E. inversion E; subst.
    exists v. split; [now apply lookup_distinct |].
    rewrite Forall_forall in IH, F.
    apply (IH (k, v) Hin). apply (F (k, v) Hin).
Qed.

(** A state with an infinite total is within reach of the form: both
    builders return one when mcq and essay are large enough. *)
Example payload_total_can_be_infinite :
  option_map ExamPayload.total
    (Local.prepareExamPayload (Local.ExamFormState.mk "P" "1e308" "1e308" "" "0"))
  = Some Infinity /\
  option_map ExamPayload.total
    (Remote.prepareExamPayload (Remote.ExamFormState.mk "P" "1e308" "1e308" "0"))
  = Some Infinity.
Proof. vm_compute. split; reflexivity. Qed.

(** The claim C8 as it is written fails on a valid state that holds a
    number JSON cannot carry: the total [Infinity] is written as [null],
    what is read back is no longer valid, and the sanitizer stores 3, the
    sum of mcq and essay, in its place. *)
Lemma json_round_trip_replaces_infinite_total :
  let exam total :=
    Obj [ ("id", Str "e1"); ("paper", Str "P1"); ("mcq", Num (ofZ 1));
          ("essay", Num (ofZ 2)); ("total", total); ("completion", Num (ofZ 50)) ] in
  let state total :=
    Obj [ ("subjects",
           Arr [ Obj [ ("id", Str "a"); ("name", Str "Maths");
                       ("exams", Arr [ exam total ]) ] ]);
          ("activeSubjectId", Str "a") ] in
  let x := state (Num Infinity) in
  Local.isValidAppState x = Return true /\
  JSON_roundtrip x = Return (state Null) /\
  exists s,
    resultOf (Local.normalizeStoredValue (state Null) sampleWorld) = Return (Local.Built s) /\
    resultValue (state Null) (Local.Built s) = state (Num (ofZ 3)) /\
    deepEqual (resultValue (state Null) (Local.Built s)) x = false.
Proof.
  cbv zeta. split; [reflexivity |]. split; [reflexivity |].
  eexists. split; [vm_compute; reflexivity |]. split; vm_compute; reflexivity.
Qed.

(** C8, amended: for every valid state made of JSON data, that is with
    every number finite and no [undefined] property or element,
    normalizing its JSON round trip hands back the value read, which is
    deep-equal to the state. *)
Theorem normalize_json_round_trip_of_json_data :
  forall (x : value) (w : World),
    Local.isValidAppState x = Return true ->
    jsonData x = true ->
    exists y r,
      JSON_roundtrip x = Return y /\
      Local.normalizeStoredValue y w = Return (r, w) /\
      r = Local.TheArgument /\
      deepEqual (resultValue y r) x = true.
Proof.
  intros x w V J.
  exists (jsonCopy x), Local.TheArgument.
  split; [destruct x; try reflexivity; discriminate |].
  split; [| split; [reflexivity | now apply deepEqual_jsonCopy]].
  apply normalize_valid_argument.
  rewrite isValidAppState_eq in *. now rewrite validAppState_jsonCopy.
Qed.

Lemma normalize_json_round_trip_of_json_data_witness :
  let x :=
    Obj [ ("subjects",
           Arr [ Obj [ ("id", Str "s1"); ("name", Str "Physics");
                       ("exams",
                        Arr [ Obj [ ("id", Str "exam-1"); ("paper", Str "2025 FINAL PAPER 02");
                                    ("mcq", Num (ofZ 8)); ("essay", Num nzero);
                                    ("total", Num (ofZ 9)); ("completion", Num (ofZ 82)) ] ]) ] ]);
          ("activeSubjectId", Str "s1") ] in
  (Local.isValidAppState x = Return true /\ jsonData x = true) /\
  exists y r,
    JSON_roundtrip x = Return y /\
    Local.normalizeStoredValue y sampleWorld = Return (r, sampleWorld) /\
    r = Local.TheArgument /\
    deepEqual (resultValue y r) x = true.
Proof.
  cbv zeta. split; [split; reflexivity |].
  apply normalize_json_round_trip_of_json_data; reflexivity.
Defined.

(* ================================================================== *)
(** * The timer within its session                                     *)
(* ================================================================== *)

Ltac within_session :=
  cbv [Local.durationOf Remote.durationOf FOCUS_DURATION BREAK_DURATION] in *;
  repeat match goal with
         | |- context [match ?s with focus => _ | break => _ end] => destruct s
         | H : context [match ?s with focus => _ | break => _ end] |- _ => destruct s
         end;
  lia.

Lemma Local_step_within (t : Local.Timer) (e : Local.TimerEvent) :
  Local.secondsLeft t <= Local.durationOf (Local.sessionType t) ->
  Local.secondsLeft (Local.step t e)
  <= Local.durationOf (Local.sessionType (Local.step t e)).
Proof.
  intros H. destruct e; simpl.
  - within_session.
  - unfold Local.countdownEffect.
    destruct (Local.isRunning t); simpl; [| exact H].
    destruct (Local.secondsLeft t <=? 0); [| exact H].
    destruct (Local.sessionType t); simpl; lia.
  - unfold Local.handleSidebarClickAlerts, Local.timerOpenEffect. simpl.
    destruct (negb (negb (Local.timerOpen t))); exact H.
  - exact H.
  - exact H.
  - lia.
  - lia.
  - lia.
Qed.

Lemma Remote_step_within cfg (a : Remote.App) (e : Remote.TimerEvent) :
  Remote.secondsLeft a <= Remote.durationOf (Remote.sessionType a) ->
  Remote.secondsLeft (Remote.step cfg a e)
  <= Remote.durationOf (Remote.sessionType (Remote.step cfg a e)).
Proof.
  intros H.
  destruct (Remote_step_clock cfg a e) as [[S E] | [E | [S E]]].
  - now rewrite S, E.
  - rewrite E. lia.
  - rewrite S, E. pose proof (Remote_durationOf_positive (Remote.sessionType a)). lia.
Qed.

(** X1: in every state the timer reaches from its initial state, in
    either variant, [secondsLeft] is at most the duration of the session
    the timer shows, 1500 seconds for focus and 300 for a break: the
    ratio [secondsLeft / totalDuration] the progress ring is drawn from
    never exceeds 1. *)
Theorem secondsLeft_within_session_duration :
  (forall events : list Local.TimerEvent,
      Local.secondsLeft (Local.run events)
      <= Local.durationOf (Local.sessionType (Local.run events))) /\
  (forall (isSupabaseConfigured : bool) (u : string) (events : list Remote.TimerEvent),
      Remote.secondsLeft (Remote.run isSupabaseConfigured u events)
      <= Remote.durationOf (Remote.sessionType (Remote.run isSupabaseConfigured u events))).
Proof.
  split.
  - intros events. unfold Local.run.
    assert (G : forall (l : list Local.TimerEvent) (t : Local.Timer),
               Local.secondsLeft t <= Local.durationOf (Local.sessionType t) ->
               Local.secondsLeft (fold_left Local.step l t)
               <= Local.durationOf (Local.sessionType (fold_left Local.step l t))).
    { induction l as [| e l IH]; intros t H; simpl; [exact H |].
      apply IH, Local_step_within, H. }
    apply G. simpl. lia.
  - intros cfg u events. unfold Remote.run.
    assert (G : forall (l : list Remote.TimerEvent) (a : Remote.App),
               Remote.secondsLeft a <= Remote.durationOf (Remote.sessionType a) ->
               Remote.secondsLeft (fold_left (Remote.step cfg) l a)
               <= Remote.durationOf (Remote.sessionType (fold_left (Remote.step cfg) l a))).
    { induction l as [| e l IH]; intros a H; simpl; [exact H |].
      apply IH, Remote_step_within, H. }
    apply G. simpl. lia.
Qed.

(* ================================================================== *)
(** * A countdown that runs out, and a skip                            *)
(* ================================================================== *)

(** X2: in the Supabase variant a running countdown that has reached
    zero leaves the application in the state a press on Skip leaves it
    in, when the requests of either are answered alike before anything
    else happens: the same session is recorded, the same next session is
    shown at its full duration, and the timer is paused. *)
Theorem countdown_at_zero_is_skip :
  forall (isSupabaseConfigured : bool) (net : Remote.Net) (a : Remote.App),
    Remote.isRunning a = true ->
    Remote.secondsLeft a <= 0 ->
    Remote.thenSettled isSupabaseConfigured net a (Remote.CountdownEffect (Remote.nowISO net))
    = Remote.thenSettled isSupabaseConfigured net a (Remote.SkipSession (Remote.nowISO net)).
Proof.
  intros cfg net a R Z0. unfold Remote.thenSettled. cbv zeta.
  change (Remote.step cfg a (Remote.SkipSession (Remote.nowISO net)))
    with (Remote.handleSkipSession cfg (Remote.nowISO net) a).
  change (Remote.step cfg a (Remote.CountdownEffect (Remote.nowISO net)))
    with (Remote.countdownEffect cfg (Remote.nowISO net) a).
  unfold Remote.countdownEffect, Remote.handleSkipSession. cbv zeta.
  rewrite R. cbn [negb]. apply Z.leb_le in Z0. rewrite Z0.
  destruct (Remote.sessionType a) eqn:S.
  - unfold Remote.recordFocusSession.
    cbn [Remote.user Remote.setIsRunning].
    destruct (Remote.user a) as [u |] eqn:U; [destruct cfg; cbn [negb] |].
    + repeat match goal with
             | |- context [Remote.step true (Remote.step true ?b _) _] =>
                 rewrite (settle_recording net b (Remote.pending a) _ _ u eq_refl U)
             end.
      destruct (Remote.insertReply net) as [r | message].
      * unfold Remote.loadFocusEntriesReply.
        destruct (Remote.selectReply net); destruct a; cbn in S; subst; reflexivity.
      * destruct a; cbn in S; subst; reflexivity.
    + repeat match goal with
             | |- context [Remote.step false (Remote.step false ?b _) _] =>
                 rewrite (settle_nothing false net b (List.length (Remote.pending a)) eq_refl)
             end.
      destruct a; cbn in S; subst; reflexivity.
    + repeat match goal with
             | |- context [Remote.step cfg (Remote.step cfg ?b _) _] =>
                 rewrite (settle_nothing cfg net b (List.length (Remote.pending a)) eq_refl)
             end.
      destruct a; cbn in S; subst; reflexivity.
  - repeat match goal with
           | |- context [Remote.step cfg (Remote.step cfg ?b _) _] =>
               rewrite (settle_nothing cfg net b (List.length (Remote.pending a)) eq_refl)
           end.
    destruct a; cbn in S; subst; reflexivity.
Qed.

Lemma countdown_at_zero_is_skip_witness :
  let net := Remote.mkNet (Remote.Data tt) (Remote.Failed "offline") "2025-03-01T10:00:00.000Z" in
  let a := Remote.mkApp (Some "u1") None [] true focus 0 true false [] [] in
  Remote.thenSettled true net a (Remote.CountdownEffect "2025-03-01T10:00:00.000Z")
  = Remote.thenSettled true net a (Remote.SkipSession "2025-03-01T10:00:00.000Z") /\
  Remote.focus_entries
    (Remote.thenSettled true net a (Remote.CountdownEffect "2025-03-01T10:00:00.000Z"))
  = [ Remote.FocusRow.mk 1500 "2025-03-01T10:00:00.000Z" "u1" ].
Proof.
  split.
  - apply (countdown_at_zero_is_skip true
             (Remote.mkNet (Remote.Data tt) (Remote.Failed "offline")
                "2025-03-01T10:00:00.000Z"));
      [reflexivity | simpl; lia].
  - reflexivity.
Defined.

(* ================================================================== *)
(** * The table of focus sessions over a whole run                     *)
(* ================================================================== *)

Lemma grew_refl (u : string) (a : Remote.App) : grew u a a.
Proof. exists []. split; [now rewrite app_nil_r | constructor]. Qed.

Lemma grew_trans (u : string) (a b c : Remote.App) : grew u a b -> grew u b c -> grew u a c.
Proof.
  intros [r1 [E1 F1]] [r2 [E2 F2]]. exists (r1 ++ r2)%list. split.
  - now rewrite E2, E1, app_assoc.
  - apply Forall_app. split; assumption.
Qed.

(** A state that differs only in what the backend does not see. *)
Lemma same_backend (u : string) (a a' : Remote.App) :
  Remote.user a' = Remote.user a ->
  Remote.pending a' = Remote.pending a ->
  Remote.focus_entries a' = Remote.focus_entries a ->
  signedIn u a -> signedIn u a' /\ grew u a a'.
Proof.
  intros U P T [Su Sp]. split.
  - split; [now rewrite U | now rewrite P].
  - exists []. split; [now rewrite T, app_nil_r | constructor].
Qed.

Lemma resume_backend (u : string) (k : Remote.Continuation) (a : Remote.App) :
  signedIn u a -> signedIn u (Remote.resume k a) /\ grew u a (Remote.resume k a).
Proof. apply same_backend; destruct k; reflexivity. Qed.

Lemma sent_backend (u : string) (task : Remote.Task) (a : Remote.App) :
  match task with
  | Remote.Inserting row _ => fullFocusSession u row
  | _ => True
  end ->
  signedIn u a -> signedIn u (Remote.addTask task a) /\ grew u a (Remote.addTask task a).
Proof.
  intros H [Su Sp]. split;
    [| exists []; split; [symmetry; apply app_nil_r | constructor]].
  split; [exact Su |].
  unfold insertsOf in *. cbn [Remote.addTask Remote.pending Remote.setPending].
  apply Forall_app. split; [exact Sp | constructor; [exact H | constructor]].
Qed.

Lemma loadFocusEntries_backend cfg (u : string) k (a : Remote.App) :
  signedIn u a ->
  signedIn u (Remote.loadFocusEntries cfg k a) /\ grew u a (Remote.loadFocusEntries cfg k a).
Proof.
  intros S. unfold Remote.loadFocusEntries.
  assert (E : signedIn u (Remote.setFocusEntries [] a)) by exact S.
  destruct (Remote.user a); [destruct cfg; cbn [negb] |].
  - apply (sent_backend u (Remote.Reloading k) (Remote.setError None a) I S).
  - apply (resume_backend u k _ E).
  - apply (resume_backend u k _ E).
Qed.

Lemma loadFocusEntriesReply_backend (u : string) reply now k (a : Remote.App) :
  signedIn u a ->
  signedIn u (Remote.loadFocusEntriesReply reply now k a)
  /\ grew u a (Remote.loadFocusEntriesReply reply now k a).
Proof.
  intros S. unfold Remote.loadFocusEntriesReply.
  destruct reply as [rows | message];
    match goal with
    | |- context [Remote.resume k ?b] => apply (resume_backend u k b); exact S
    end.
Qed.

Lemma recordFocusSession_backend cfg (u : string) now k (a : Remote.App) :
  signedIn u a ->
  signedIn u (Remote.recordFocusSession cfg now (Remote.durationOf focus) k a)
  /\ grew u a (Remote.recordFocusSession cfg now (Remote.durationOf focus) k a).
Proof.
  intros S. unfold Remote.recordFocusSession.
  destruct (Remote.user a) as [v |] eqn:U; [destruct cfg; cbn [negb] |].
  - apply sent_backend; [| exact S]. split; [reflexivity |].
    destruct S as [Su _]. cbn [Remote.FocusRow.user_id]. congruence.
  - apply (resume_backend u k (Remote.setError _ a) S).
  - apply (resume_backend u k (Remote.setError _ a) S).
Qed.

Lemma recordFocusSessionReply_backend cfg (u : string) row reply k (a : Remote.App) :
  fullFocusSession u row ->
  signedIn u a ->
  signedIn u (Remote.recordFocusSessionReply cfg row reply k a)
  /\ grew u a (Remote.recordFocusSessionReply cfg row reply k a).
Proof.
  intros R S. unfold Remote.recordFocusSessionReply. destruct reply as [r | message].
  - destruct (loadFocusEntries_backend cfg u k (Remote.insertRow row a) S) as [S1 G1].
    split; [exact S1 |].
    apply (grew_trans u a (Remote.insertRow row a)); [| exact G1].
    exists [row]. split; [reflexivity | constructor; [exact R | constructor]].
  - apply (resume_backend u k (Remote.setError (Some message) a) S).
Qed.

Lemma In_removeNth {A : Type} (i : nat) (l : list A) (x : A) :
  In x (Remote.removeNth i l) -> In x l.
Proof.
  unfold Remote.removeNth. intros H. apply in_app_or in H. destruct H as [H | H].
  - rewrite <- (firstn_skipn i l). apply in_or_app. now left.
  - rewrite <- (firstn_skipn (S i) l). apply in_or_app. now right.
Qed.

Lemma answered_backend (u : string) (i : nat) (a : Remote.App) :
  signedIn u a ->
  signedIn u (Remote.setPending (Remote.removeNth i (Remote.pending a)) a).
Proof.
  intros [Su Sp]. split; [exact Su |].
  unfold insertsOf in *. cbn [Remote.pending Remote.setPending].
  rewrite Forall_forall in *. intros task H. apply Sp. now apply In_removeNth in H.
Qed.

Lemma timerOpenEffect_backend (u : string) (a : Remote.App) :
  signedIn u a -> signedIn u (Remote.timerOpenEffect a) /\ grew u a (Remote.timerOpenEffect a).
Proof.
  apply same_backend; unfold Remote.timerOpenEffect;
    destruct (negb (Remote.timerOpen a)); reflexivity.
Qed.

Lemma Remote_step_appends cfg (a : Remote.App) (e : Remote.TimerEvent) (u : string) :
  signedIn u a -> signedIn u (Remote.step cfg a e) /\ grew u a (Remote.step cfg a e).
Proof.
  intros S.
  assert (N : signedIn u a /\ grew u a a) by (split; [exact S | apply grew_refl]).
  destruct e; cbn [Remote.step].
  - apply same_backend; [reflexivity | reflexivity | reflexivity | exact S].
  - unfold Remote.countdownEffect. cbv zeta.
    destruct (Remote.isRunning a); cbn [negb]; [| exact N].
    destruct (Remote.secondsLeft a <=? 0); [| exact N].
    destruct (Remote.sessionType a).
    + destruct (recordFocusSession_backend cfg u now Remote.Detached
                  (Remote.setIsRunning false a) S) as [S1 G1].
      destruct (same_backend u _
                  (Remote.setSecondsLeft (Remote.durationOf break)
                     (Remote.setSessionType break
                        (Remote.recordFocusSession cfg now (Remote.durationOf focus)
                           Remote.Detached (Remote.setIsRunning false a))))
                  eq_refl eq_refl eq_refl S1) as [S2 G2].
      split; [exact S2 |].
      apply (grew_trans u a _ _ G1 G2).
    + apply same_backend; [reflexivity | reflexivity | reflexivity | exact S].
  - apply (timerOpenEffect_backend u
             (Remote.setProductivityOpen false (Remote.setTimerOpen false a)) S).
  - unfold Remote.handleSidebarClickAlerts. cbv zeta.
    destruct (negb (Remote.timerOpen a));
      match goal with
      | |- context [Remote.timerOpenEffect ?b] => apply (timerOpenEffect_backend u b S)
      end.
  - unfold Remote.handleSidebarClickAnalytics. cbv zeta.
    destruct (negb (Remote.productivityOpen a));
      match goal with
      | |- context [Remote.timerOpenEffect ?b] => apply (timerOpenEffect_backend u b S)
      end.
  - apply same_backend; [reflexivity | reflexivity | reflexivity | exact S].
  - apply (timerOpenEffect_backend u (Remote.setTimerOpen false a) S).
  - apply same_backend; [reflexivity | reflexivity | reflexivity | exact S].
  - apply same_backend; [reflexivity | reflexivity | reflexivity | exact S].
  - unfold Remote.handleSkipSession. cbv zeta.
    destruct (Remote.sessionType a).
    + apply (recordFocusSession_backend cfg u now (Remote.SkipHandler focus) a S).
    + apply same_backend; [reflexivity | reflexivity | reflexivity | exact S].
  - apply same_backend; [reflexivity | reflexivity | reflexivity | exact S].
  - apply (sent_backend u Remote.SigningOut (Remote.setError None a) I S).
  - destruct (nth_error (Remote.pending a) i) as [[row k | k |] |] eqn:E; try exact N.
    assert (R : fullFocusSession u row).
    { destruct S as [_ Sp]. unfold insertsOf in Sp. rewrite Forall_forall in Sp.
      apply (Sp _ (nth_error_In _ _ E)). }
    destruct (recordFocusSessionReply_backend cfg u row reply k _ R
                (answered_backend u i a S)) as [S1 G1].
    split; [exact S1 | exact G1].
  - destruct (nth_error (Remote.pending a) i) as [[row k | k |] |] eqn:E; try exact N.
    destruct (loadFocusEntriesReply_backend u reply now k _ (answered_backend u i a S))
      as [S1 G1].
    split; [exact S1 | exact G1].
  - destruct (nth_error (Remote.pending a) i) as [[row k | k |] |] eqn:E; try exact N.
    unfold Remote.handleSignOutReply. destruct reply as [r | message].
    + match goal with
      | |- context [Remote.timerOpenEffect ?b] =>
          destruct (timerOpenEffect_backend u b (answered_backend u i a S)) as [S1 G1]
      end.
      split; [exact S1 | exact G1].
    + split; [exact (answered_backend u i a S) |].
      exists []. split; [symmetry; apply app_nil_r | constructor].
Qed.

Lemma Remote_fold_appends cfg (events : list Remote.TimerEvent) (a : Remote.App) (u : string) :
  signedIn u a ->
  signedIn u (fold_left (Remote.step cfg) events a)
  /\ grew u a (fold_left (Remote.step cfg) events a).
Proof.
  revert a. induction events as [| e events IH]; intros a S; cbn [fold_left].
  - split; [exact S | apply grew_refl].
  - destruct (Remote_step_appends cfg a e u S) as [S1 G1].
    destruct (IH _ S1) as [S2 G2].
    split; [exact S2 | apply (grew_trans u a _ _ G1 G2)].
Qed.

(** X3: whatever the timer of the Supabase variant goes through, in
    whatever order the backend answers and whatever it replies, the
    table of focus sessions only grows, at its end, and every row the
    timer adds is a full focus session of 1500 seconds under the id of
    the signed-in user: no row is removed or changed, no break and no
    partial session is ever recorded. *)
Theorem focus_table_only_grows_by_full_focus_sessions :
  forall (isSupabaseConfigured : bool) (u : string)
         (events more : list Remote.TimerEvent),
    exists rows,
      Remote.focus_entries (Remote.run isSupabaseConfigured u (events ++ more))
      = (Remote.focus_entries (Remote.run isSupabaseConfigured u events) ++ rows)%list /\
      Forall (fun row => Remote.FocusRow.duration row = 1500 /\
                         Remote.FocusRow.user_id row = u) rows.
Proof.
  intros cfg u events more. unfold Remote.run. rewrite fold_left_app.
  assert (S0 : signedIn u (Remote.initialApp u)) by (split; [reflexivity | constructor]).
  destruct (Remote_fold_appends cfg events (Remote.initialApp u) u S0) as [S _].
  destruct (Remote_fold_appends cfg more _ u S) as [_ G].
  exact G.
Qed.

(* ================================================================== *)
(** * The count of completed pomodoros                                 *)
(* ================================================================== *)

Lemma Local_step_counts (t : Local.Timer) (e : Local.TimerEvent) :
  Local.completedPomodoros (Local.step t e)
  = match e with
    | Local.ResetTimer => 0
    | _ => Local.completedPomodoros t + (if finishesFocus t e then 1 else 0)
    end.
Proof.
  destruct e; cbn [Local.step finishesFocus];
    unfold Local.countdownEffect, Local.handleSidebarClickAlerts, Local.handleCloseTimer,
      Local.timerOpenEffect;
    destruct (Local.isRunning t), (Local.secondsLeft t <=? 0), (Local.sessionType t),
      (Local.timerOpen t);
    cbn; lia.
Qed.

(** X4: in the local-storage variant the count of completed pomodoros
    counts the focus sessions that ran out, and nothing else.  An event
    adds one exactly when it is a run of the countdown effect that finds
    the timer running, at zero, in a focus session; Reset puts the count
    back to 0; every other event, a skip and a session selection among
    them, leaves it as it is.  Over a run the count is therefore the
    number of focus sessions that ran out since the last reset, and it
    is never negative and never more than the number of runs of the
    effect. *)
Theorem completedPomodoros_counts_only_finished_countdowns :
  (forall (t : Local.Timer) (e : Local.TimerEvent),
      Local.completedPomodoros (Local.step t e)
      = match e with
        | Local.ResetTimer => 0
        | _ => Local.completedPomodoros t + (if finishesFocus t e then 1 else 0)
        end) /\
  (forall before after : list Local.TimerEvent,
      (forall e, In e after -> e <> Local.ResetTimer) ->
      Local.completedPomodoros (Local.run (before ++ after))
      = Local.completedPomodoros (Local.run before)
        + finishedFocusSessions (Local.run before) after) /\
  (forall before after : list Local.TimerEvent,
      (forall e, In e after -> e <> Local.ResetTimer) ->
      Local.completedPomodoros (Local.run (before ++ Local.ResetTimer :: after))
      = finishedFocusSessions (Local.run (before ++ [ Local.ResetTimer ])) after) /\
  (forall events : list Local.TimerEvent,
      0 <= Local.completedPomodoros (Local.run events)
      <= Z.of_nat
           (List.length
              (filter (fun e => match e with Local.CountdownEffect => true | _ => false end)
                      events))).
Proof.
  assert (G : forall (l : list Local.TimerEvent) (t : Local.Timer),
             (forall e, In e l -> e <> Local.ResetTimer) ->
             Local.completedPomodoros (fold_left Local.step l t)
             = Local.completedPomodoros t + finishedFocusSessions t l).
  { induction l as [| e l IH]; intros t H; cbn [fold_left finishedFocusSessions]; [lia |].
    rewrite IH by (intros x Hx; apply H; now right).
    rewrite Local_step_counts.
    destruct e; try lia. exfalso. apply (H Local.ResetTimer); [now left | reflexivity]. }
  split; [exact Local_step_counts | split; [| split]].
  - intros before after H. unfold Local.run. rewrite fold_left_app. now apply G.
  - intros before after H. unfold Local.run.
    replace (before ++ Local.ResetTimer :: after)%list
      with ((before ++ [ Local.ResetTimer ]) ++ after)%list
      by (now rewrite <- app_assoc).
    rewrite fold_left_app, (G after _ H).
    rewrite (fold_left_app Local.step before [ Local.ResetTimer ]).
    cbn [fold_left Local.step]. cbn [Local.handleResetTimer Local.setCompletedPomodoros
      Local.completedPomodoros]. lia.
  - intros events. unfold Local.run.
    assert (B : forall (l : list Local.TimerEvent) (t : Local.Timer),
               0 <= Local.completedPomodoros t ->
               0 <= Local.completedPomodoros (fold_left Local.step l t)
               <= Local.completedPomodoros t
                  + Z.of_nat
                      (List.length
                         (filter (fun e => match e with
                                           | Local.CountdownEffect => true
                                           | _ => false
                                           end) l))).
    { induction l as [| e l IH]; intros t H; cbn [fold_left filter]; [cbn; lia |].
      pose proof (Local_step_counts t e) as C.
      assert (H0 : 0 <= Local.completedPomodoros (Local.step t e))
        by (rewrite C; destruct e; try lia; destruct (finishesFocus t _); lia).
      specialize (IH _ H0).
      destruct e; cbn [finishesFocus] in C; cbn [List.length]; try lia.
      destruct (_ && _ && _); lia. }
    apply (B events Local.initialTimer). cbn. lia.
Qed.

Lemma completedPomodoros_counts_only_finished_countdowns_witness :
  let events :=
    [ Local.SidebarAlerts; Local.StartPause; Local.SkipSession; Local.StartPause;
      Local.SessionSelect focus; Local.CountdownEffect ] in
  Local.completedPomodoros (Local.run events) = 0 /\
  Local.completedPomodoros (Local.run ([] ++ events))
  = Local.completedPomodoros (Local.run []) + finishedFocusSessions (Local.run []) events.
Proof.
  split; [reflexivity |].
  apply (proj1 (proj2 completedPomodoros_counts_only_finished_countdowns) []).
  intros e H. cbn in H.
  repeat (destruct H as [<- | H]; [discriminate |]). destruct H.
Defined.

(* ================================================================== *)
(** * The windows and the breakdowns of the analytics                  *)
(* ================================================================== *)

Lemma fold_left_sumOf {A : Type} (f : A -> Z) (l : list A) :
  fold_left (fun acc x => acc + f x) l 0 = sumOf f l.
Proof. unfold sumOf. now rewrite sum_from_acc. Qed.

Lemma sumOf_filter {A : Type} (f : A -> Z) (p : A -> bool) (l : list A) :
  sumOf f (filter p l) = sumOf (fun x => if p x then f x else 0) l.
Proof.
  unfold sumOf. induction l as [| x l IH]; simpl; [reflexivity |].
  destruct (p x); simpl; lia.
Qed.

Lemma sumOf_add {A : Type} (f g : A -> Z) (l : list A) :
  sumOf f l + sumOf g l = sumOf (fun x => f x + g x) l.
Proof. unfold sumOf. induction l as [| x l IH]; simpl; lia. Qed.

Lemma sumOf_ext {A : Type} (f g : A -> Z) (l : list A) :
  (forall x, In x l -> f x = g x) -> sumOf f l = sumOf g l.
Proof.
  unfold sumOf. induction l as [| x l IH]; simpl; intros H; [reflexivity |].
  rewrite (H x (or_introl eq_refl)), IH; auto.
Qed.

Lemma sumOf_le {A : Type} (f g : A -> Z) (l : list A) :
  (forall x, In x l -> f x <= g x) -> sumOf f l <= sumOf g l.
Proof.
  unfold sumOf. induction l as [| x l IH]; simpl; intros H; [lia |].
  specialize (H x (or_introl eq_refl)) as Hx.
  assert (fold_right Z.add 0 (map f l) <= fold_right Z.add 0 (map g l)) by auto.
  lia.
Qed.

Lemma sumOf_nonneg {A : Type} (f : A -> Z) (l : list A) :
  (forall x, In x l -> 0 <= f x) -> 0 <= sumOf f l.
Proof.
  unfold sumOf. induction l as [| x l IH]; simpl; intros H; [lia |].
  specialize (H x (or_introl eq_refl)) as Hx.
  assert (0 <= fold_right Z.add 0 (map f l)) by auto.
  lia.
Qed.

Lemma filter_twice {A : Type} (p q : A -> bool) (l : list A) :
  filter p (filter q l) = filter (fun x => q x && p x) l.
Proof.
  induction l as [| x l IH]; simpl; [reflexivity |].
  destruct (q x); simpl; [destruct (p x) |]; now rewrite IH.
Qed.

Lemma sumDurations_sumOf (entries : list (Remote.FocusEntry.t * Z)) :
  Remote.sumDurations entries = sumOf durationOf entries.
Proof. unfold Remote.sumDurations. apply fold_left_sumOf. Qed.

(** X5: when no recorded duration is negative, the three totals of the
    dashboard are ordered: today's total is at most the total of the
    last seven days, which is at most the total of the last thirty, and
    today's is not negative. *)
Theorem day_week_month_totals_are_ordered :
  forall parse tz weekdayLabel now (focusEntries : list Remote.FocusEntry.t),
    (forall e, In e focusEntries -> 0 <= Remote.FocusEntry.duration e) ->
    let stats := Remote.productivityStats parse tz weekdayLabel now focusEntries in
    0 <= Remote.DayStats.totalSeconds (Remote.ProductivityStats.day stats) /\
    Remote.DayStats.totalSeconds (Remote.ProductivityStats.day stats)
    <= Remote.PeriodStats.totalSeconds (Remote.ProductivityStats.week stats) /\
    Remote.PeriodStats.totalSeconds (Remote.ProductivityStats.week stats)
    <= Remote.PeriodStats.totalSeconds (Remote.ProductivityStats.month stats).
Proof.
  intros parse tz weekdayLabel now focusEntries H. cbn zeta.
  unfold Remote.productivityStats.
  cbn [Remote.ProductivityStats.day Remote.ProductivityStats.week
       Remote.ProductivityStats.month Remote.DayStats.totalSeconds
       Remote.PeriodStats.totalSeconds].
  rewrite !sumDurations_sumOf, !sumOf_filter.
  assert (P : forall x, In x (Remote.parseEntries parse focusEntries) -> 0 <= durationOf x).
  { intros [e d] Hx. apply In_parseEntries in Hx. apply H, Hx. }
  unfold Date_addDays, msPerDay.
  repeat split.
  - apply sumOf_nonneg. intros x Hx. specialize (P x Hx).
    destruct (_ <=? _); lia.
  - apply sumOf_le. intros x Hx. specialize (P x Hx).
    repeat match goal with
           | |- context [?a <=? ?b] => destruct (Z.leb_spec a b)
           end; lia.
  - apply sumOf_le. intros x Hx. specialize (P x Hx).
    repeat match goal with
           | |- context [?a <=? ?b] => destruct (Z.leb_spec a b)
           end; lia.
Qed.

Lemma day_week_month_totals_are_ordered_witness :
  let entries :=
    [ Remote.FocusEntry.mk "a" "2024-03-10T01:00:00.000Z" 300;
      Remote.FocusEntry.mk "b" "2024-03-07T09:00:00.000Z" 1500;
      Remote.FocusEntry.mk "c" "2024-02-20T09:00:00.000Z" 1500 ] in
  let stats := Remote.productivityStats Date_parse_ISO 0 (fun _ => "") 1710072000000 entries in
  (Remote.DayStats.totalSeconds (Remote.ProductivityStats.day stats) = 300 /\
   Remote.PeriodStats.totalSeconds (Remote.ProductivityStats.week stats) = 1800 /\
   Remote.PeriodStats.totalSeconds (Remote.ProductivityStats.month stats) = 3300) /\
  (0 <= Remote.DayStats.totalSeconds (Remote.ProductivityStats.day stats) /\
   Remote.DayStats.totalSeconds (Remote.ProductivityStats.day stats)
   <= Remote.PeriodStats.totalSeconds (Remote.ProductivityStats.week stats) /\
   Remote.PeriodStats.totalSeconds (Remote.ProductivityStats.week stats)
   <= Remote.PeriodStats.totalSeconds (Remote.ProductivityStats.month stats)).
Proof.
  split; [vm_compute; repeat split; reflexivity |].
  apply (day_week_month_totals_are_ordered Date_parse_ISO 0 (fun _ => "") 1710072000000).
  intros e [<- | [<- | [<- | []]]]; simpl; lia.
Defined.

Ltac split_comparisons :=
  repeat match goal with
         | |- context [?a <=? ?b] => destruct (Z.leb_spec a b); try lia
         | |- context [?a <? ?b] => destruct (Z.ltb_spec a b); try lia
         | |- context [?a =? ?b] => destruct (Z.eqb_spec a b); try lia
         end.

Lemma localDay_bounds (tz d : Z) :
  msPerDay * localDay tz d <= d + tz < msPerDay * localDay tz d + msPerDay.
Proof.
  unfold localDay, msPerDay.
  pose proof (Z.div_mod (d + tz) 86400000 ltac:(lia)).
  pose proof (Z.mod_pos_bound (d + tz) 86400000 ltac:(lia)).
  lia.
Qed.

Lemma localDay_of_midnight (tz day a b : Z) :
  localDay tz (Date_addDays (Date_addDays (day * msPerDay - tz) a) b) = day + a + b.
Proof.
  unfold localDay, Date_addDays.
  replace (day * msPerDay - tz + a * msPerDay + b * msPerDay + tz)
    with ((day + a + b) * msPerDay) by lia.
  apply Z.div_mul. unfold msPerDay. lia.
Qed.

(** X6: the week breakdown always has seven buckets, labelled with the
    weekdays of the six days before today and of today, in that order;
    and together they hold the durations of the entries dated from the
    midnight that opens the first of these days up to, not including,
    the midnight that ends today.  The week total holds the entries
    dated from that first midnight on, with no upper end: it is the sum
    of the buckets and of the entries dated after today, which count in
    the total and in no bucket. *)
Theorem week_breakdown_covers_seven_days :
  forall parse tz weekdayLabel now (focusEntries : list Remote.FocusEntry.t),
    let stats := Remote.productivityStats parse tz weekdayLabel now focusEntries in
    let todayStart := Remote.getStartOfDay tz now in
    let week := Remote.PeriodStats.breakdown (Remote.ProductivityStats.week stats) in
    let total := Remote.PeriodStats.totalSeconds (Remote.ProductivityStats.week stats) in
    let parsed := Remote.parseEntries parse focusEntries in
    map Remote.Bucket.label week
    = map (fun i => weekdayLabel (Date_addDays todayStart i)) [-6; -5; -4; -3; -2; -1; 0] /\
    bucketsTotal week
    = sumOf durationOf
        (filter (fun entry => (Date_addDays todayStart (-6) <=? snd entry)
                              && (snd entry <? Date_addDays todayStart 1))
                parsed) /\
    total
    = sumOf durationOf
        (filter (fun entry => Date_addDays todayStart (-6) <=? snd entry) parsed) /\
    total
    = bucketsTotal week
      + sumOf durationOf
          (filter (fun entry => Date_addDays todayStart 1 <=? snd entry) parsed).
Proof.
  intros parse tz weekdayLabel now focusEntries. cbn zeta.
  assert (B : bucketsTotal
                (Remote.PeriodStats.breakdown
                   (Remote.ProductivityStats.week
                      (Remote.productivityStats parse tz weekdayLabel now focusEntries)))
              = sumOf durationOf
                  (filter (fun entry =>
                             (Date_addDays (Remote.getStartOfDay tz now) (-6) <=? snd entry)
                             && (snd entry <? Date_addDays (Remote.getStartOfDay tz now) 1))
                          (Remote.parseEntries parse focusEntries)) /\
              map Remote.Bucket.label
                (Remote.PeriodStats.breakdown
                   (Remote.ProductivityStats.week
                      (Remote.productivityStats parse tz weekdayLabel now focusEntries)))
              = map (fun i => weekdayLabel (Date_addDays (Remote.getStartOfDay tz now) i))
                    [-6; -5; -4; -3; -2; -1; 0]).
  { unfold Remote.productivityStats.
    cbn [Remote.ProductivityStats.week Remote.PeriodStats.breakdown].
    set (parsed := Remote.parseEntries parse focusEntries).
    unfold Remote.getStartOfDay, Date_setHours0.
    set (D := localDay tz now).
    cbn [Remote.weekLoop].
    assert (M : 0 < msPerDay) by (unfold msPerDay; lia).
    repeat match goal with
           | |- context [?a <? Date_addDays ?b ?c] =>
               destruct (Z.ltb_spec a (Date_addDays b c)) as [E | E];
               [unfold Date_addDays in E; lia | clear E]
           end.
    split.
    - cbn [bucketsTotal fold_left Remote.Bucket.totalSeconds].
      rewrite !fold_left_sumOf, !filter_twice, !sumOf_filter, Z.add_0_l, !sumOf_add.
      apply sumOf_ext. intros [e d] _. cbn [snd]. unfold Remote.isSameDay.
      rewrite !localDay_of_midnight.
      pose proof (localDay_bounds tz d) as B.
      unfold Date_addDays.
      generalize dependent (localDay tz d). intros L B.
      generalize dependent D. intros D.
      unfold durationOf. generalize (Remote.FocusEntry.duration (fst (e, d))). intros x.
      unfold msPerDay in *. clear M.
      split_comparisons; cbn [andb]; lia.
    - cbn [map Remote.Bucket.label]. unfold Date_addDays.
      repeat (f_equal; try (f_equal; lia)). }
  destruct B as [B L].
  assert (T : Remote.PeriodStats.totalSeconds
                (Remote.ProductivityStats.week
                   (Remote.productivityStats parse tz weekdayLabel now focusEntries))
              = sumOf durationOf
                  (filter (fun entry =>
                             Date_addDays (Remote.getStartOfDay tz now) (-6) <=? snd entry)
                          (Remote.parseEntries parse focusEntries))).
  { unfold Remote.productivityStats.
    cbn [Remote.ProductivityStats.week Remote.PeriodStats.totalSeconds].
    apply sumDurations_sumOf. }
  split; [exact L | split; [exact B | split; [exact T |]]].
  rewrite T, B, !sumOf_filter, sumOf_add.
  apply sumOf_ext. intros [e d] _. cbn [snd].
  generalize (Remote.getStartOfDay tz now). intros S.
  unfold Date_addDays, msPerDay.
  generalize (durationOf (e, d)). intros x.
  split_comparisons; cbn [andb]; lia.
Qed.

(** X7: the month breakdown always has five buckets, labelled Week 1 to
    Week 5, and together they hold the durations of the entries that
    fall in one of the five periods, each counted once: the periods do
    not overlap. *)
Theorem month_breakdown_counts_each_covered_entry_once :
  forall parse tz weekdayLabel now (focusEntries : list Remote.FocusEntry.t),
    let stats := Remote.productivityStats parse tz weekdayLabel now focusEntries in
    let todayStart := Remote.getStartOfDay tz now in
    let month := Remote.PeriodStats.breakdown (Remote.ProductivityStats.month stats) in
    map Remote.Bucket.label month = [ "Week 1"; "Week 2"; "Week 3"; "Week 4"; "Week 5" ] /\
    map Remote.Bucket.totalSeconds month
    = map (fun k => sumOf durationOf
                      (filter (fun entry => inMonthPeriod todayStart k (snd entry))
                              (Remote.parseEntries parse focusEntries)))
          [0; 1; 2; 3; 4] /\
    bucketsTotal month
    = sumOf durationOf
        (filter (fun entry => inMonthPeriods todayStart (snd entry))
                (Remote.parseEntries parse focusEntries)).
Proof.
  intros parse tz weekdayLabel now focusEntries. cbn zeta.
  unfold Remote.productivityStats.
  cbn [Remote.ProductivityStats.month Remote.PeriodStats.breakdown].
  set (parsed := Remote.parseEntries parse focusEntries).
  generalize (Remote.getStartOfDay tz now). intros T.
  unfold Remote.monthIterations. cbn [Remote.monthLoop].
  repeat match goal with
         | |- context [Date_addDays ?b ?c <=? T] =>
             destruct (Z.leb_spec (Date_addDays b c) T) as [E | E];
             [clear E | unfold Date_addDays, msPerDay in E; lia]
         end.
  repeat match goal with
         | |- context [T <? Date_addDays ?b ?c] =>
             destruct (Z.ltb_spec T (Date_addDays b c)) as [E | E];
             unfold Date_addDays, msPerDay in E; try lia; clear E
         end.
  split; [reflexivity | split].
  - cbn [map Remote.Bucket.totalSeconds].
    rewrite !fold_left_sumOf, !filter_twice, !sumOf_filter.
    repeat (f_equal; try (apply sumOf_ext; intros [e d] _; cbn [snd];
                          unfold inMonthPeriod, durationOf, Date_addDays, msPerDay;
                          generalize (Remote.FocusEntry.duration (fst (e, d))); intros x;
                          split_comparisons; cbn [andb]; lia)).
  - cbn [bucketsTotal fold_left Remote.Bucket.totalSeconds].
    rewrite !fold_left_sumOf, !filter_twice, !sumOf_filter, Z.add_0_l, !sumOf_add.
    apply sumOf_ext. intros [e d] _. cbn [snd].
    unfold inMonthPeriods, inMonthPeriod, durationOf, Date_addDays, msPerDay.
    cbn [existsb].
    generalize (Remote.FocusEntry.duration (fst (e, d))). intros x.
    split_comparisons; cbn [andb orb]; lia.
Qed.

(* ================================================================== *)
(** * The recent sessions                                              *)
(* ================================================================== *)

Lemma insertNewestFirst_perm (x : Remote.FocusEntry.t * Z) (l : list (Remote.FocusEntry.t * Z)) :
  Permutation (Remote.insertNewestFirst x l) (x :: l).
Proof.
  induction l as [| y l IH]; simpl; [apply Permutation_refl |].
  destruct (snd x <? snd y); [| apply Permutation_refl].
  eapply Permutation_trans; [apply perm_skip, IH | apply perm_swap].
Qed.

Lemma sortNewestFirst_perm (l : list (Remote.FocusEntry.t * Z)) :
  Permutation (Remote.sortNewestFirst l) l.
Proof.
  unfold Remote.sortNewestFirst. induction l as [| x l IH]; simpl; [constructor |].
  eapply Permutation_trans; [apply insertNewestFirst_perm | now apply perm_skip].
Qed.

Lemma insertNewestFirst_sorted (x : Remote.FocusEntry.t * Z) (l : list (Remote.FocusEntry.t * Z)) :
  StronglySorted (fun a b => snd b <= snd a) l ->
  StronglySorted (fun a b => snd b <= snd a) (Remote.insertNewestFirst x l).
Proof.
  induction l as [| y l IH]; simpl; intros S.
  - repeat constructor.
  - apply StronglySorted_inv in S. destruct S as [S F].
    destruct (Z.ltb_spec (snd x) (snd y)) as [L | L].
    + constructor; [apply IH, S |].
      apply Forall_forall. intros z Hz.
      apply (Permutation_in _ (insertNewestFirst_perm x l)) in Hz.
      destruct Hz as [<- | Hz]; [lia |].
      rewrite Forall_forall in F. now apply F.
    + constructor; [constructor; assumption |].
      constructor; [exact L |].
      eapply Forall_impl; [| exact F]. cbv beta. intros z Hz. lia.
Qed.

Lemma sortNewestFirst_sorted (l : list (Remote.FocusEntry.t * Z)) :
  StronglySorted (fun a b => snd b <= snd a) (Remote.sortNewestFirst l).
Proof.
  unfold Remote.sortNewestFirst. induction l as [| x l IH]; simpl; [constructor |].
  now apply insertNewestFirst_sorted.
Qed.

Lemma StronglySorted_app {A : Type} (R : A -> A -> Prop) (l1 l2 : list A) :
  StronglySorted R (l1 ++ l2)%list ->
  StronglySorted R l1 /\ forall a b, In a l1 -> In b l2 -> R a b.
Proof.
  induction l1 as [| x l1 IH]; simpl; intros S.
  - split; [constructor | intros a b []].
  - apply StronglySorted_inv in S. destruct S as [S F].
    destruct (IH S) as [S1 C]. split.
    + constructor; [exact S1 |]. apply Forall_app in F. apply F.
    + intros a b [<- | Ha] Hb.
      * rewrite Forall_forall in F. apply F, in_or_app. now right.
      * now apply C.
Qed.

Lemma StronglySorted_map {A B : Type} (f : A -> B) (R : B -> B -> Prop) (l : list A) :
  StronglySorted (fun a b => R (f a) (f b)) l -> StronglySorted R (map f l).
Proof.
  induction 1 as [| x l S IH F]; simpl; constructor; [exact IH |].
  apply Forall_map. exact F.
Qed.

(** X8: the recent sessions are at most five, all of today, listed from
    the newest to the oldest, and no session of today that is left out
    is newer than one that is listed. *)
Theorem recent_sessions_are_the_newest_of_today :
  forall parse tz weekdayLabel now (focusEntries : list Remote.FocusEntry.t),
    let stats := Remote.productivityStats parse tz weekdayLabel now focusEntries in
    let today :=
      map (fun entry => (snd entry, durationOf entry))
          (Remote.DayStats.entries (Remote.ProductivityStats.day stats)) in
    let recent := Remote.ProductivityStats.recentSessions stats in
    List.length recent = Nat.min 5 (List.length today) /\
    StronglySorted (fun a b => fst b <= fst a) recent /\
    exists older,
      Permutation today (recent ++ older)%list /\
      forall a b, In a recent -> In b older -> fst b <= fst a.
Proof.
  intros parse tz weekdayLabel now focusEntries. cbn zeta.
  unfold Remote.productivityStats.
  cbn [Remote.ProductivityStats.day Remote.ProductivityStats.recentSessions
       Remote.DayStats.entries].
  set (dayEntries := filter _ (Remote.parseEntries parse focusEntries)).
  pose proof (sortNewestFirst_perm dayEntries) as P.
  pose proof (sortNewestFirst_sorted dayEntries) as S.
  set (sorted := Remote.sortNewestFirst dayEntries) in *.
  rewrite <- (firstn_skipn 5 sorted) in S, P.
  destruct (StronglySorted_app _ _ _ S) as [S1 C].
  split; [| split].
  - rewrite !length_map, length_firstn.
    f_equal. apply Permutation_length, sortNewestFirst_perm.
  - apply StronglySorted_map with (f := fun entry => (snd entry, Remote.FocusEntry.duration (fst entry))).
    exact S1.
  - exists (map (fun entry => (snd entry, durationOf entry)) (skipn 5 sorted)). split.
    + unfold durationOf. rewrite <- map_app. apply Permutation_map, Permutation_sym, P.
    + intros a b Ha Hb.
      apply in_map_iff in Ha. destruct Ha as [x [<- Hx]].
      apply in_map_iff in Hb. destruct Hb as [y [<- Hy]].
      cbn [fst]. now apply C.
Qed.

(* ================================================================== *)
(** * Durations and the clock face as text                             *)
(* ================================================================== *)

Lemma formatTime_below (n : Z) :
  forallb (fun k => formatTime (Z.of_nat k) === clockFace (Z.of_nat k))
          (seq 0 (Z.to_nat n)) = true ->
  forall v, 0 <= v < n -> formatTime v = clockFace v.
Proof.
  intros H v Hv. rewrite forallb_forall in H.
  specialize (H (Z.to_nat v)).
  rewrite Z2Nat.id in H by lia.
  apply String.eqb_eq, H, in_seq. lia.
Qed.

(** X9: for every number of seconds below 100 minutes, all the values
    the timer holds among them, [formatTime] shows exactly five
    characters: two digits of minutes, a colon, two digits of seconds;
    so equal displays mean equal values. *)
Theorem formatTime_is_mm_ss :
  forall v : Z, 0 <= v < 6000 -> formatTime v = clockFace v.
Proof.
  intros v Hv. apply (formatTime_below 6000); [| exact Hv].
  vm_compute. reflexivity.
Qed.

Lemma formatTime_is_mm_ss_witness :
  formatTime 1500 = "25:00" /\ formatTime 299 = "04:59" /\ formatTime 1500 = clockFace 1500.
Proof.
  split; [reflexivity | split; [reflexivity |]].
  apply formatTime_is_mm_ss. lia.
Defined.

Lemma string_app_assoc (a b c : string) : ((a ++ b) ++ c = a ++ (b ++ c))%string.
Proof. induction a as [| x a IH]; simpl; [reflexivity | now rewrite IH]. Qed.

(** X10: [formatDuration] never shows seconds and rounds down to the
    minute.  Below an hour (and for a negative argument) it shows the
    minutes alone; from an hour on, hours and minutes; from a day on,
    days, hours and minutes, the hours also when they are 0. *)
Theorem formatDuration_by_magnitude :
  forall seconds : Z,
    Remote.formatDuration seconds
    = if seconds <? 3600 then showInt (Z.max 0 (seconds / 60)) ++ "m"
      else if seconds <? 86400
           then showInt (seconds / 3600) ++ "h " ++ showInt (seconds / 60 mod 60) ++ "m"
           else showInt (seconds / 86400) ++ "d " ++ showInt (seconds / 3600 mod 24) ++ "h "
                ++ showInt (seconds / 60 mod 60) ++ "m".
Proof.
  intros s. unfold Remote.formatDuration. cbv zeta.
  change (24 * 60) with 1440.
  set (tm := Z.max 0 (s / 60)).
  assert (T0 : 0 <= tm) by (unfold tm; lia).
  rewrite !Z.rem_mod_nonneg by lia.
  destruct (Z.ltb_spec s 3600) as [A | A].
  - assert (B : tm < 60).
    { unfold tm. assert (s / 60 < 60) by (apply Z.div_lt_upper_bound; lia). lia. }
    rewrite (Z.div_small tm 1440) by lia.
    rewrite (Z.mod_small tm 1440) by lia.
    rewrite (Z.div_small tm 60) by lia.
    rewrite (Z.mod_small tm 60) by lia.
    reflexivity.
  - assert (E : tm = s / 60).
    { unfold tm. assert (0 <= s / 60) by (apply Z.div_pos; lia). lia. }
    rewrite E.
    assert (D : s / 60 / 1440 = s / 86400) by (rewrite Z.div_div by lia; reflexivity).
    assert (H : (s / 60 mod 1440) / 60 = s / 3600 mod 24).
    { replace (s / 3600) with (s / 60 / 60) by (rewrite Z.div_div by lia; reflexivity).
      generalize (s / 60). intros q. Z.div_mod_to_equations. lia. }
    rewrite D, H.
    destruct (Z.ltb_spec s 86400) as [C | C].
    + rewrite (Z.div_small s 86400) by lia.
      assert (L : s / 3600 < 24) by (apply Z.div_lt_upper_bound; lia).
      assert (P : 1 <= s / 3600) by (apply Z.div_le_lower_bound; lia).
      rewrite (Z.mod_small (s / 3600) 24) by lia.
      destruct (Z.ltb_spec 0 (s / 3600)); [| lia].
      cbn [orb Z.ltb Z.compare app String.concat].
      rewrite string_app_assoc. reflexivity.
    + assert (P : 1 <= s / 86400) by (apply Z.div_le_lower_bound; lia).
      destruct (Z.ltb_spec 0 (s / 86400)); [| lia].
      rewrite orb_true_r.
      cbn [app String.concat].
      rewrite !string_app_assoc. reflexivity.
Qed.

(* ================================================================== *)
(** * The subject on display                                           *)
(* ================================================================== *)

Lemma find_or_first {A : Type} (p : A -> bool) (l : list A) :
  match (match find p l with Some x => Some x | None => hd_error l end) with
  | Some x => In x l /\ (existsb p l = true -> p x = true)
  | None => l = []
  end.
Proof.
  destruct (find p l) as [x |] eqn:F.
  - apply find_some in F. split; tauto.
  - destruct l as [| y l]; [reflexivity |]. cbn [hd_error]. split; [now left |].
    intros E. apply existsb_exists in E. destruct E as [z [Hz Pz]].
    now rewrite (find_none _ _ F z Hz) in Pz.
Qed.

(** X11: in both variants the subject on display is one of the stored
    subjects, and there is none only when no subject is stored; when the
    selected id names a stored subject, the subject on display has that
    id, and otherwise, when the selected id names none or, in the
    Supabase variant, when nothing is selected, it is the first
    subject. *)
Theorem activeSubject_is_a_stored_subject :
  (forall state : AppState.t,
      match Local.activeSubject state with
      | Some subject =>
          In subject (AppState.subjects state) /\
          (activeResolves state = true ->
           Subject.id subject = AppState.activeSubjectId state) /\
          (activeResolves state = false ->
           Some subject = hd_error (AppState.subjects state))
      | None => AppState.subjects state = []
      end) /\
  (forall lib : Remote.Library,
      match Remote.activeSubject lib with
      | Some subject =>
          In subject (Remote.subjects lib) /\
          (forall active,
              Remote.activeSubjectId lib = Some active ->
              existsb (fun s => Subject.id s === active) (Remote.subjects lib) = true ->
              Subject.id subject = active) /\
          (forall active,
              Remote.activeSubjectId lib = Some active ->
              existsb (fun s => Subject.id s === active) (Remote.subjects lib) = false ->
              Some subject = hd_error (Remote.subjects lib)) /\
          (Remote.activeSubjectId lib = None ->
           Some subject = hd_error (Remote.subjects lib))
      | None => Remote.subjects lib = []
      end).
Proof.
  split.
  - intros state. unfold Local.activeSubject, activeResolves.
    pose proof (find_or_first
                  (fun subject => Subject.id subject === AppState.activeSubjectId state)
                  (AppState.subjects state)) as H.
    destruct (find _ (AppState.subjects state)) as [x |] eqn:F.
    + destruct H as [I E]. split; [exact I | split].
      * intros R. now apply String.eqb_eq, E.
      * intros R. apply find_some in F. destruct F as [Fi Fe].
        assert (X : existsb (fun subject => Subject.id subject
                                            === AppState.activeSubjectId state)
                            (AppState.subjects state) = true)
          by (apply existsb_exists; eauto).
        congruence.
    + destruct (hd_error (AppState.subjects state)) as [y |] eqn:Hd; [| exact H].
      destruct H as [I E]. split; [exact I | split].
      * intros R. now apply String.eqb_eq, E.
      * reflexivity.
  - intros lib. unfold Remote.activeSubject.
    pose proof (find_or_first
                  (fun subject => match Remote.activeSubjectId lib with
                                  | Some active => Subject.id subject === active
                                  | None => false
                                  end)
                  (Remote.subjects lib)) as H.
    destruct (find _ (Remote.subjects lib)) as [x |] eqn:F.
    + destruct H as [I E]. split; [exact I | split; [| split]].
      * intros active A X. rewrite A in E. now apply String.eqb_eq, E.
      * intros active A X. apply find_some in F. rewrite A in F. destruct F as [Fi Fe].
        assert (Y : existsb (fun s => Subject.id s === active) (Remote.subjects lib) = true)
          by (apply existsb_exists; eauto).
        congruence.
      * intros A. apply find_some in F. rewrite A in F. destruct F; discriminate.
    + destruct (hd_error (Remote.subjects lib)) as [y |] eqn:Hd; [| exact H].
      destruct H as [I E]. split; [exact I | split; [| split]].
      * intros active A X. rewrite A in E. now apply String.eqb_eq, E.
      * reflexivity.
      * reflexivity.
Qed.

Lemma mapSubjectRows_ids (data : list Remote.SupabaseSubjectRow.t) :
  map Subject.id (Remote.mapSubjectRows data) = map Remote.SupabaseSubjectRow.id data.
Proof. unfold Remote.mapSubjectRows. rewrite map_map. reflexivity. Qed.

Lemma existsb_id_In (id : string) (l : list Subject.t) :
  existsb (fun subject => Subject.id subject === id) l = true <-> In id (map Subject.id l).
Proof.
  rewrite existsb_exists, in_map_iff. split.
  - intros [x [I E]]. apply String.eqb_eq in E. eauto.
  - intros [x [E I]]. exists x. split; [exact I | now apply String.eqb_eq].
Qed.

(** X12: what [loadSubjects] leaves selected.  After a load that
    succeeds, the selection is empty exactly when no subject came back,
    it names one of the subjects that came back, and a previous
    selection that is among them is kept; otherwise the first subject is
    selected.  After a load that fails the list is emptied and the error
    shown, but the previous selection stays as it was.  Without a user
    or a configured backend both are cleared. *)
Theorem loadSubjects_resolves_the_selection :
  forall (user : option string) (isSupabaseConfigured : bool)
         (reply : Remote.Reply (list Remote.SupabaseSubjectRow.t)) (lib : Remote.Library),
    let after := Remote.loadSubjects user isSupabaseConfigured reply lib in
    match user, isSupabaseConfigured, reply with
    | Some _, true, Remote.Data data =>
        let ids := map Remote.SupabaseSubjectRow.id data in
        map Subject.id (Remote.subjects after) = ids /\
        Remote.libraryError after = None /\
        (Remote.activeSubjectId after = None <-> data = []) /\
        (forall id, Remote.activeSubjectId after = Some id -> In id ids) /\
        (forall previous,
            Remote.activeSubjectId lib = Some previous ->
            previous <> "" -> In previous ids ->
            Remote.activeSubjectId after = Some previous) /\
        ((forall previous,
             Remote.activeSubjectId lib = Some previous ->
             previous = "" \/ ~ In previous ids) ->
         Remote.activeSubjectId after = hd_error ids)
    | Some _, true, Remote.Failed message =>
        Remote.subjects after = [] /\
        Remote.libraryError after = Some message /\
        Remote.activeSubjectId after = Remote.activeSubjectId lib
    | _, _, _ =>
        Remote.subjects after = [] /\
        Remote.activeSubjectId after = None /\
        Remote.libraryError after = Remote.libraryError lib
    end.
Proof.
  intros user cfg reply lib. cbn zeta. unfold Remote.loadSubjects.
  destruct user as [u |]; [| repeat split].
  destruct cfg; cbn [negb]; [| repeat split].
  destruct reply as [data | message]; [| repeat split].
  cbn [Remote.subjects Remote.activeSubjectId Remote.libraryError].
  rewrite <- mapSubjectRows_ids.
  set (mapped := Remote.mapSubjectRows data).
  assert (Z : hd_error (map Subject.id mapped) = option_map Subject.id (hd_error mapped))
    by (destruct mapped; reflexivity).
  assert (N : option_map Subject.id (hd_error mapped) = None <-> data = []).
  { unfold mapped. destruct data; simpl; split; congruence. }
  assert (F : forall id, option_map Subject.id (hd_error mapped) = Some id ->
                         In id (map Subject.id mapped)).
  { destruct mapped; simpl; intros id E; inversion E. now left. }
  split; [reflexivity | split; [reflexivity |]].
  destruct (Remote.activeSubjectId lib) as [previous |] eqn:A.
  - destruct (isEmpty previous) eqn:B; cbn [negb andb].
    + apply isEmpty_true in B.
      split; [exact N | split; [exact F | split]].
      * intros p E Ne. inversion E. congruence.
      * intros _. now rewrite Z.
    + destruct (existsb _ mapped) eqn:X.
      * apply existsb_id_In in X.
        split; [| split; [| split]].
        -- split; [discriminate |].
           intros D. unfold mapped in X. rewrite D in X. destruct X.
        -- intros id E. inversion E; subst. exact X.
        -- intros p E _ _. exact E.
        -- intros H. destruct (H previous eq_refl) as [H1 | H1].
           ++ apply isEmpty_false in B. contradiction.
           ++ contradiction.
      * split; [exact N | split; [exact F | split]].
        -- intros p E Ne I. inversion E; subst.
           apply existsb_id_In in I. congruence.
        -- intros _. now rewrite Z.
  - split; [exact N | split; [exact F | split]].
    + discriminate.
    + intros _. now rewrite Z.
Qed.

(* ================================================================== *)
(** * The handlers of the stored state                                 *)
(* ================================================================== *)

Lemma sameSubjectsBut_refl (touched : option string) (s : AppState.t) :
  sameSubjectsBut touched s s.
Proof.
  split; [reflexivity |]. induction (AppState.subjects s); constructor; auto.
Qed.

Lemma sameSubjectsBut_map (active : Subject.t) (f : Subject.t -> list ExamEntry.t)
      (current : AppState.t) :
  sameSubjectsBut (Some (Subject.id active)) current
    (AppState.mk
       (map (fun subject =>
               if Subject.id subject === Subject.id active
               then Local.withExams subject (f subject) else subject)
            (AppState.subjects current))
       (AppState.activeSubjectId current)).
Proof.
  split; [reflexivity |]. cbn [AppState.subjects].
  induction (AppState.subjects current) as [| s l IH]; cbn [map]; constructor; [| exact IH].
  destruct (String.eqb_spec (Subject.id s) (Subject.id active)) as [E | E].
  - repeat split. intros N. congruence.
  - repeat split.
Qed.

(** X13: adding, editing or deleting a paper changes nothing but the
    exam list of the subjects that carry the id of the subject on
    display: the subjects keep their number, order, ids and names, the
    selection is kept, and every other subject is left as it was. *)
Theorem exam_handlers_touch_only_the_displayed_subject :
  forall (rendered current : AppState.t),
    let touched := option_map Subject.id (Local.activeSubject rendered) in
    (forall form id,
        sameSubjectsBut touched current (Local.handleAddExam form id rendered current)) /\
    (forall editingId editForm,
        sameSubjectsBut touched current
          (Local.handleUpdateExam editingId editForm rendered current)) /\
    (forall id,
        sameSubjectsBut touched current (Local.handleDeleteExam id rendered current)).
Proof.
  intros rendered current. cbn zeta. split; [| split].
  - intros form id. unfold Local.handleAddExam.
    destruct (Local.prepareExamPayload form); [| apply sameSubjectsBut_refl].
    destruct (Local.activeSubject rendered) as [active |]; [| apply sameSubjectsBut_refl].
    apply (sameSubjectsBut_map active
             (fun subject => Local.examOf id t :: Subject.exams subject)).
  - intros editingId editForm. unfold Local.handleUpdateExam.
    destruct editingId as [editing |]; [| apply sameSubjectsBut_refl].
    destruct (isEmpty editing); [apply sameSubjectsBut_refl |].
    destruct (Local.prepareExamPayload editForm); [| apply sameSubjectsBut_refl].
    destruct (Local.activeSubject rendered) as [active |]; [| apply sameSubjectsBut_refl].
    cbn [option_map].
    match goal with
    | |- sameSubjectsBut _ _ (AppState.mk (map _ ?l) ?a) =>
        replace (AppState.mk (map _ l) a)
          with (AppState.mk
                  (map (fun subject =>
                          if Subject.id subject === Subject.id active
                          then Local.withExams subject
                                 (map (fun exam =>
                                         if ExamEntry.id exam === editing
                                         then Local.examOf (ExamEntry.id exam) t
                                         else exam)
                                      (Subject.exams subject))
                          else subject) l) a)
    end.
    + apply (sameSubjectsBut_map active).
    + f_equal. apply map_ext. intros s.
      destruct (Subject.id s === Subject.id active); reflexivity.
  - intros id. unfold Local.handleDeleteExam.
    destruct (Local.activeSubject rendered) as [active |]; [| apply sameSubjectsBut_refl].
    apply (sameSubjectsBut_map active
             (fun subject => filter (fun exam => negb (ExamEntry.id exam === id))
                                    (Subject.exams subject))).
Qed.

Lemma find_map_same {A : Type} (p : A -> bool) (g : A -> A) (l : list A) :
  (forall x, p (g x) = p x) -> find p (map g l) = option_map g (find p l).
Proof.
  intros H. induction l as [| x l IH]; cbn [map find]; [reflexivity |].
  rewrite H. destruct (p x); [reflexivity | exact IH].
Qed.

(** Mapping the subjects without touching their ids maps the subject on
    display. *)
Lemma activeSubject_map (g : Subject.t -> Subject.t) (state : AppState.t) :
  (forall s, Subject.id (g s) = Subject.id s) ->
  Local.activeSubject (AppState.mk (map g (AppState.subjects state))
                                   (AppState.activeSubjectId state))
  = option_map g (Local.activeSubject state).
Proof.
  intros H. unfold Local.activeSubject. cbn [AppState.subjects AppState.activeSubjectId].
  rewrite find_map_same by (intros x; now rewrite H).
  destruct (find _ (AppState.subjects state)); [reflexivity |].
  destruct (AppState.subjects state); reflexivity.
Qed.

Lemma touched_id (active : Subject.t) (f : Subject.t -> list ExamEntry.t) (s : Subject.t) :
  Subject.id (if Subject.id s === Subject.id active then Local.withExams s (f s) else s)
  = Subject.id s.
Proof. destruct (Subject.id s === Subject.id active); reflexivity. Qed.

(** X14: a paper that is added comes first in the subject on display:
    it heads the list of summaries and is the last, most recent point of
    the score chart, which never has more than six points. *)
Theorem added_paper_heads_the_displayed_subject :
  forall (form : Local.ExamFormState.t) (id : string) (state : AppState.t)
         (payload : ExamPayload.t) (active : Subject.t),
    Local.prepareExamPayload form = Some payload ->
    Local.activeSubject state = Some active ->
    let newExam := Local.examOf id payload in
    let exams := newExam :: Subject.exams active in
    Local.activeSubject (Local.handleAddExam form id state state)
    = Some (Local.withExams active exams) /\
    hd_error (examSummaries exams) = Some newExam /\
    last (chartData exams) (ExamScore.mk "" NaN NaN NaN)
    = ExamScore.mk (ExamPayload.paper payload) (ExamPayload.total payload)
                   (ExamPayload.mcq payload) (ExamPayload.essay payload) /\
    (List.length (chartData exams) <= 6)%nat.
Proof.
  intros form id state payload active P A. cbn zeta.
  split; [| split; [reflexivity | split]].
  - unfold Local.handleAddExam. rewrite P, A.
    rewrite (activeSubject_map
               (fun subject =>
                  if Subject.id subject === Subject.id active
                  then Local.withExams subject
                         (Local.examOf id payload :: Subject.exams subject)
                  else subject))
      by (intros s; apply (touched_id active (fun subject => _ :: Subject.exams subject))).
    rewrite A. cbn [option_map]. now rewrite String.eqb_refl.
  - unfold chartData. cbn [firstn rev]. rewrite map_app. cbn [map].
    rewrite last_last. reflexivity.
  - unfold chartData. rewrite length_map, length_rev, length_firstn. lia.
Qed.

Lemma added_paper_heads_the_displayed_subject_witness :
  let form := Local.ExamFormState.mk " Mock 1 " "12" "3" "" "40" in
  let state := AppState.mk [ Subject.mk "s1" "Physics" []; Subject.mk "s2" "Maths" [] ] "s2" in
  let after := Local.handleAddExam form "e9" state state in
  after = AppState.mk
            [ Subject.mk "s1" "Physics" [];
              Subject.mk "s2" "Maths"
                [ ExamEntry.mk "e9" "Mock 1" (ofZ 12) (ofZ 3) (ofZ 15) (ofZ 40) ] ] "s2" /\
  option_map Subject.exams (Local.activeSubject after)
  = Some [ ExamEntry.mk "e9" "Mock 1" (ofZ 12) (ofZ 3) (ofZ 15) (ofZ 40) ].
Proof.
  split; [vm_compute; reflexivity |].
  cbv zeta.
  rewrite (proj1 (added_paper_heads_the_displayed_subject
                    (Local.ExamFormState.mk " Mock 1 " "12" "3" "" "40") "e9"
                    (AppState.mk [ Subject.mk "s1" "Physics" []; Subject.mk "s2" "Maths" [] ] "s2")
                    (ExamPayload.mk "Mock 1" (ofZ 12) (ofZ 3) (ofZ 15) (ofZ 40))
                    (Subject.mk "s2" "Maths" [])
                    ltac:(vm_compute; reflexivity) ltac:(vm_compute; reflexivity))).
  reflexivity.
Defined.

(** X15: deleting a paper right after adding it, under an id no stored
    exam carries, brings back the state as it was. *)
Theorem add_then_delete_restores_the_state :
  forall (form : Local.ExamFormState.t) (id : string) (state : AppState.t),
    (forall subject exam,
        In subject (AppState.subjects state) -> In exam (Subject.exams subject) ->
        ExamEntry.id exam <> id) ->
    let added := Local.handleAddExam form id state state in
    Local.handleDeleteExam id added added = state.
Proof.
  intros form id state Fresh. cbn zeta.
  assert (K : forall subject, In subject (AppState.subjects state) ->
                filter (fun exam => negb (ExamEntry.id exam === id)) (Subject.exams subject)
                = Subject.exams subject).
  { intros subject I. apply forallb_filter_id, forallb_forall. intros exam Ie.
    apply negb_true_iff, String.eqb_neq. now apply (Fresh subject). }
  assert (D : forall active : Subject.t,
             AppState.mk
               (map (fun subject =>
                       if Subject.id subject === Subject.id active
                       then Local.withExams subject
                              (filter (fun exam => negb (ExamEntry.id exam === id))
                                      (Subject.exams subject))
                       else subject)
                    (AppState.subjects state))
               (AppState.activeSubjectId state) = state).
  { intros active. destruct state as [subjects activeId]. cbn [AppState.subjects
      AppState.activeSubjectId] in *. f_equal.
    rewrite <- (map_id subjects) at 2. apply map_ext_in. intros s I.
    destruct (Subject.id s === Subject.id active); [| reflexivity].
    rewrite (K s I). destruct s; reflexivity. }
  unfold Local.handleAddExam.
  destruct (Local.prepareExamPayload form) as [payload |].
  - destruct (Local.activeSubject state) as [active |] eqn:A.
    + unfold Local.handleDeleteExam.
      rewrite (activeSubject_map
                 (fun subject =>
                    if Subject.id subject === Subject.id active
                    then Local.withExams subject
                           (Local.examOf id payload :: Subject.exams subject)
                    else subject))
        by (intros s; apply (touched_id active (fun subject => _ :: Subject.exams subject))).
      rewrite A. cbn [option_map AppState.subjects AppState.activeSubjectId].
      rewrite String.eqb_refl. cbn [Local.withExams Subject.id].
      rewrite map_map. rewrite <- (D active) at 3. f_equal.
      apply map_ext. intros s.
      destruct (Subject.id s === Subject.id active) eqn:E.
      * cbn [Local.withExams Subject.id Subject.exams Subject.name]. rewrite E.
        cbn [filter Local.examOf ExamEntry.id]. rewrite String.eqb_refl. reflexivity.
      * rewrite E. reflexivity.
    + unfold Local.handleDeleteExam. rewrite A. reflexivity.
  - unfold Local.handleDeleteExam.
    destruct (Local.activeSubject state) as [active |]; [apply D | reflexivity].
Qed.

Lemma add_then_delete_restores_the_state_witness :
  let form := Local.ExamFormState.mk "Mock 1" "12" "3" "" "40" in
  let old := ExamEntry.mk "e1" "Past paper" (ofZ 1) (ofZ 2) (ofZ 3) (ofZ 50) in
  let state := AppState.mk [ Subject.mk "s1" "Physics" [ old ] ] "s1" in
  let added := Local.handleAddExam form "e2" state state in
  map ExamEntry.id (List.concat (map Subject.exams (AppState.subjects added))) = [ "e2"; "e1" ] /\
  Local.handleDeleteExam "e2" added added = state.
Proof.
  split; [vm_compute; reflexivity |].
  apply add_then_delete_restores_the_state.
  intros subject exam [<- | []] [<- | []]. discriminate.
Defined.

(* ================================================================== *)
(** * Trimming                                                         *)
(* ================================================================== *)

Lemma trimStart_length (s : string) : (String.length (trimStart s) <= String.length s)%nat.
Proof.
  induction s as [| c s IH]; simpl; [lia |].
  destruct (isWhiteSpace c); simpl; lia.
Qed.

Lemma trimStart_idem (s : string) : trimStart (trimStart s) = trimStart s.
Proof.
  induction s as [| c s IH]; simpl; [reflexivity |].
  destruct (isWhiteSpace c) eqn:E; [exact IH |]. simpl. now rewrite E.
Qed.

Lemma trimEnd_idem (s : string) : trimEnd (trimEnd s) = trimEnd s.
Proof.
  induction s as [| c s IH]; simpl; [reflexivity |].
  destruct (isWhiteSpace c && isEmpty (trimEnd s)) eqn:E; [reflexivity |].
  simpl. now rewrite IH, E.
Qed.

Lemma trimStart_trimEnd (s : string) :
  trimStart s = s -> trimStart (trimEnd s) = trimEnd s.
Proof.
  destruct s as [| c s]; [reflexivity |]. simpl.
  destruct (isWhiteSpace c) eqn:E.
  - intros H. pose proof (trimStart_length s) as L. rewrite H in L. simpl in L. lia.
  - intros _. simpl. now rewrite E.
Qed.

Lemma trim_idem (s : string) : trim (trim s) = trim s.
Proof.
  unfold trim. rewrite (trimStart_trimEnd (trimStart s) (trimStart_idem s)).
  apply trimEnd_idem.
Qed.

Lemma trim_head (c : ascii) (s : string) :
  isWhiteSpace c = false -> isEmpty (trim (String c s)) = false.
Proof. intros H. unfold trim. simpl. rewrite H. simpl. now rewrite H. Qed.

(* ================================================================== *)
(** * The guards on a state held as records                            *)
(* ================================================================== *)

Lemma validExam_toValue (e : ExamEntry.t) : validExam (ExamEntry_toValue e) = guardedExam e.
Proof.
  unfold validExam, guardedExam, ExamEntry_toValue. cbn.
  now rewrite !andb_true_r.
Qed.

Lemma validSubject_toValue (s : Subject.t) :
  validSubject (Subject_toValue s) = guardedSubject s.
Proof.
  unfold validSubject, guardedSubject, Subject_toValue.
  cbn [isObject field lookup String.eqb Ascii.eqb Bool.eqb nonBlank Array_isArray andb].
  rewrite andb_true_r. f_equal. induction (Subject.exams s) as [| e l IH]; [reflexivity |].
  cbn [map forallb]. now rewrite validExam_toValue, IH.
Qed.

Lemma hasId_toValue (active : string) (s : Subject.t) :
  hasId active (Subject_toValue s) = (Subject.id s === active).
Proof. reflexivity. Qed.

Lemma validAppState_toValue (s : AppState.t) :
  validAppState (AppState_toValue s) = guardedState s.
Proof.
  unfold validAppState, guardedState, subjectsNonEmpty, activeResolves, AppState_toValue.
  cbn [field lookup String.eqb Ascii.eqb Bool.eqb].
  destruct (AppState.subjects s) as [| x l]; [reflexivity |].
  change (map Subject_toValue (x :: l)) with (Subject_toValue x :: map Subject_toValue l).
  change (Subject_toValue x :: map Subject_toValue l) with (map Subject_toValue (x :: l)).
  cbn [List.length Nat.eqb negb andb].
  generalize (x :: l). intros subjects.
  destruct subjects as [| y m] eqn:E.
  - reflexivity.
  - rewrite <- E. clear E.
    replace (match map Subject_toValue subjects with
             | [] => false
             | x0 :: xs =>
                 forallb validSubject (x0 :: xs)
                 && existsb (hasId (AppState.activeSubjectId s)) (x0 :: xs)
             end)
      with (match subjects with
            | [] => false
            | _ => forallb validSubject (map Subject_toValue subjects)
                   && existsb (hasId (AppState.activeSubjectId s))
                              (map Subject_toValue subjects)
            end)
      by (destruct subjects; reflexivity).
    destruct subjects as [| z n] eqn:E; [reflexivity |]. rewrite <- E. clear E.
    f_equal.
    + induction subjects as [| a subjects IH]; [reflexivity |].
      cbn [map forallb]. now rewrite validSubject_toValue, IH.
    + induction subjects as [| a subjects IH]; [reflexivity |].
      cbn [map existsb]. now rewrite hasId_toValue, IH.
Qed.

Lemma isValidAppState_toValue (s : AppState.t) :
  Local.isValidAppState (AppState_toValue s) = Return (guardedState s).
Proof. now rewrite isValidAppState_eq, validAppState_toValue. Qed.

(* ================================================================== *)
(** * The stored state stays valid                                     *)
(* ================================================================== *)

Lemma guardedState_parts (s : AppState.t) :
  guardedState s = true <->
  AppState.subjects s <> [] /\
  (forall subject, In subject (AppState.subjects s) -> guardedSubject subject = true) /\
  activeResolves s = true.
Proof.
  unfold guardedState, subjectsNonEmpty.
  rewrite !andb_true_iff, forallb_forall, negb_true_iff.
  destruct (AppState.subjects s); simpl; intuition congruence.
Qed.

Lemma existsb_map_id (g : Subject.t -> Subject.t) (active : string) (l : list Subject.t) :
  (forall s, Subject.id (g s) = Subject.id s) ->
  existsb (fun subject => Subject.id subject === active) (map g l)
  = existsb (fun subject => Subject.id subject === active) l.
Proof.
  intros H. induction l as [| x l IH]; [reflexivity |].
  cbn [map existsb]. now rewrite H, IH.
Qed.

Lemma guardedState_map (g : Subject.t -> Subject.t) (current : AppState.t) :
  guardedState current = true ->
  (forall s, Subject.id (g s) = Subject.id s) ->
  (forall s, In s (AppState.subjects current) ->
             guardedSubject s = true -> guardedSubject (g s) = true) ->
  guardedState (AppState.mk (map g (AppState.subjects current))
                            (AppState.activeSubjectId current)) = true.
Proof.
  intros G I P. apply guardedState_parts in G. destruct G as [N [F A]].
  apply guardedState_parts. cbn [AppState.subjects]. repeat split.
  - destruct (AppState.subjects current); [contradiction | discriminate].
  - intros subject Hs. apply in_map_iff in Hs. destruct Hs as [x [<- Hx]]. auto.
  - unfold activeResolves in *. cbn [AppState.subjects AppState.activeSubjectId].
    now rewrite existsb_map_id.
Qed.

Lemma guardedSubject_withExams (s : Subject.t) (exams : list ExamEntry.t) :
  guardedSubject s = true -> forallb guardedExam exams = true ->
  guardedSubject (Local.withExams s exams) = true.
Proof.
  unfold guardedSubject. cbn [Local.withExams Subject.id Subject.name Subject.exams].
  rewrite !andb_true_iff. tauto.
Qed.

Lemma guardedSubject_exams (s : Subject.t) :
  guardedSubject s = true -> forallb guardedExam (Subject.exams s) = true.
Proof. unfold guardedSubject. rewrite !andb_true_iff. tauto. Qed.

Lemma payload_paper_nonblank (form : Local.ExamFormState.t) (payload : ExamPayload.t) :
  Local.prepareExamPayload form = Some payload ->
  isEmpty (trim (ExamPayload.paper payload)) = false.
Proof.
  unfold Local.prepareExamPayload.
  destruct (isEmpty (trim (Local.ExamFormState.paper form))) eqn:E; [discriminate |].
  intros H. inversion H; subst; clear H. cbn [ExamPayload.paper].
  now rewrite trim_idem.
Qed.

Lemma guardedExam_examOf (id : string) (form : Local.ExamFormState.t) (payload : ExamPayload.t) :
  Local.prepareExamPayload form = Some payload ->
  isEmpty (trim id) = false ->
  guardedExam (Local.examOf id payload) = true.
Proof.
  intros P I. unfold guardedExam. cbn [Local.examOf ExamEntry.id ExamEntry.paper].
  now rewrite I, (payload_paper_nonblank form payload P).
Qed.

(** X16: a state that passes [isValidAppState] still passes it after
    any of the handlers that change it: adding a paper under a non-blank
    id, editing or deleting one, selecting a subject, creating one.  The
    next normalization therefore hands the stored value back as it
    is. *)
Theorem handlers_keep_the_stored_state_valid :
  forall (rendered current : AppState.t),
    Local.isValidAppState (AppState_toValue current) = Return true ->
    (forall form id,
        isEmpty (trim id) = false ->
        Local.isValidAppState
          (AppState_toValue (Local.handleAddExam form id rendered current)) = Return true) /\
    (forall editingId editForm,
        Local.isValidAppState
          (AppState_toValue (Local.handleUpdateExam editingId editForm rendered current))
        = Return true) /\
    (forall id,
        Local.isValidAppState
          (AppState_toValue (Local.handleDeleteExam id rendered current)) = Return true) /\
    (forall subjectId,
        Local.isValidAppState
          (AppState_toValue (Local.handleSubjectSelect subjectId current)) = Return true) /\
    (forall newSubjectName w,
        exists after w',
          Local.handleCreateSubject newSubjectName current w = Return (after, w') /\
          Local.isValidAppState (AppState_toValue after) = Return true).
Proof.
  intros rendered current V.
  assert (G : guardedState current = true)
    by (rewrite isValidAppState_toValue in V; now injection V).
  clear V.
  split; [| split; [| split; [| split]]].
  - intros form id I. rewrite isValidAppState_toValue. f_equal.
    unfold Local.handleAddExam.
    destruct (Local.prepareExamPayload form) as [payload |] eqn:P; [| exact G].
    destruct (Local.activeSubject rendered) as [active |]; [| exact G].
    apply guardedState_map; [exact G | |].
    + intros s. destruct (Subject.id s === Subject.id active); reflexivity.
    + intros s _ Gs. destruct (Subject.id s === Subject.id active); [| exact Gs].
      apply guardedSubject_withExams; [exact Gs |].
      cbn [forallb]. rewrite (guardedExam_examOf id form payload P I).
      now apply guardedSubject_exams.
  - intros editingId editForm. rewrite isValidAppState_toValue. f_equal.
    unfold Local.handleUpdateExam.
    destruct editingId as [editing |]; [| exact G].
    destruct (isEmpty editing) eqn:Ee; [exact G |].
    destruct (Local.prepareExamPayload editForm) as [payload |] eqn:P; [| exact G].
    destruct (Local.activeSubject rendered) as [active |]; [| exact G].
    apply guardedState_map; [exact G | |].
    + intros s. destruct (Subject.id s === Subject.id active); reflexivity.
    + intros s _ Gs. destruct (Subject.id s === Subject.id active); [| exact Gs].
      cbn [negb]. apply guardedSubject_withExams; [exact Gs |].
      apply guardedSubject_exams in Gs. rewrite forallb_forall in *.
      intros e He. apply in_map_iff in He. destruct He as [x [<- Hx]].
      specialize (Gs x Hx).
      destruct (ExamEntry.id x === editing); [| exact Gs].
      unfold guardedExam in *. cbn [Local.examOf ExamEntry.id ExamEntry.paper].
      apply andb_true_iff in Gs. destruct Gs as [Gi _].
      now rewrite Gi, (payload_paper_nonblank editForm payload P).
  - intros id. rewrite isValidAppState_toValue. f_equal.
    unfold Local.handleDeleteExam.
    destruct (Local.activeSubject rendered) as [active |]; [| exact G].
    apply guardedState_map; [exact G | |].
    + intros s. destruct (Subject.id s === Subject.id active); reflexivity.
    + intros s _ Gs. destruct (Subject.id s === Subject.id active); [| exact Gs].
      apply guardedSubject_withExams; [exact Gs |].
      apply guardedSubject_exams in Gs. rewrite forallb_forall in *.
      intros e He. apply filter_In in He. now apply Gs.
  - intros subjectId. rewrite isValidAppState_toValue. f_equal.
    unfold Local.handleSubjectSelect.
    destruct (AppState.activeSubjectId current === subjectId); [exact G |].
    destruct (existsb _ (AppState.subjects current)) eqn:X; cbn [negb]; [| exact G].
    apply guardedState_parts in G. destruct G as [N [F A]].
    apply guardedState_parts. repeat split; assumption.
  - intros newSubjectName w. unfold Local.handleCreateSubject. cbv zeta.
    destruct (isEmpty (trim newSubjectName)) eqn:E.
    + exists current, w. split; [reflexivity |].
      now rewrite isValidAppState_toValue, G.
    + unfold bind, Local.createId, ret. destruct (draw w) as [r w'].
      eexists; eexists; split; [reflexivity |].
      rewrite isValidAppState_toValue. f_equal.
      apply guardedState_parts in G. destruct G as [N [F A]].
      apply guardedState_parts. cbn [AppState.subjects AppState.activeSubjectId].
      repeat split.
      * destruct (AppState.subjects current); discriminate.
      * intros subject Hs. apply in_app_or in Hs. destruct Hs as [Hs | [<- | []]]; [auto |].
        unfold guardedSubject. cbn [Subject.id Subject.name Subject.exams forallb].
        rewrite trim_idem, E.
        change ("subject" ++ "-" ++ r) with (String "s" ("ubject" ++ "-" ++ r)).
        rewrite trim_head by reflexivity. reflexivity.
      * unfold activeResolves. cbn [AppState.subjects AppState.activeSubjectId].
        rewrite existsb_app. cbn [existsb Subject.id].
        now rewrite String.eqb_refl, orb_true_r.
Qed.

Lemma handlers_keep_the_stored_state_valid_witness :
  let state := AppState.mk [ Subject.mk "s1" "Physics" [] ] "s1" in
  let form := Local.ExamFormState.mk " Mock 1 " "12" "x" "" "400" in
  Local.isValidAppState (AppState_toValue state) = Return true /\
  Local.isValidAppState (AppState_toValue (Local.handleAddExam form "e1" state state))
  = Return true /\
  Local.normalizeStoredValue
    (AppState_toValue (Local.handleAddExam form "e1" state state)) sampleWorld
  = Return (Local.TheArgument, sampleWorld).
Proof.
  split; [reflexivity | split].
  - apply (proj1 (handlers_keep_the_stored_state_valid
                    (AppState.mk [ Subject.mk "s1" "Physics" [] ] "s1")
                    (AppState.mk [ Subject.mk "s1" "Physics" [] ] "s1")
                    eq_refl)).
    reflexivity.
  - vm_compute. reflexivity.
Defined.

(* ================================================================== *)
(** * What the normalizer builds passes the guards                     *)
(* ================================================================== *)

Lemma ifNonBlank_trim_nonblank (v : value) (d : string) :
  isEmpty (trim d) = false -> isEmpty (trim (Local.ifNonBlank v trim d)) = false.
Proof.
  intros H. destruct v; cbn [Local.ifNonBlank]; auto.
  destruct (isEmpty (trim s)) eqn:E; [exact H |]. now rewrite trim_idem.
Qed.

Lemma returns_nonblank_id (v : value) (c : ascii) (rest : string) (w : World) :
  isWhiteSpace c = false ->
  returns (Local.ifNonBlank v ret (Local.createId (String c rest))) w
          (fun id => isEmpty (trim id) = false).
Proof.
  intros H.
  assert (F : returns (Local.createId (String c rest)) w
                      (fun id => isEmpty (trim id) = false)).
  { unfold Local.createId, returns. destruct (draw w) as [r w'].
    eexists; eexists; split; [reflexivity |]. cbn [append]. now apply trim_head. }
  destruct v; cbn [Local.ifNonBlank]; try exact F.
  destruct (isEmpty (trim s)) eqn:E; [exact F |].
  apply returns_ret. exact E.
Qed.

Lemma sanitizeExam_guarded (raw : value) (index : nat) (w : World) :
  isObject raw = true -> plain raw = true ->
  returns (Local.sanitizeExam raw index) w
          (fun o => exists e, o = Some e /\ guardedExam e = true).
Proof.
  intros O P. unfold Local.sanitizeExam. rewrite object_guard, O. cbn [negb].
  eapply returns_bind; [apply returns_get; assumption | intros rawPaper w1 _].
  eapply returns_bind; [apply returns_get; assumption | intros rawMcq w2 Pm].
  eapply returns_bind; [apply returns_ToNumber, Pm | intros mcqValue w3 _].
  eapply returns_bind; [apply returns_get; assumption | intros rawEssay w4 Pe].
  eapply returns_bind; [apply returns_ToNumber, Pe | intros essayValue w5 _].
  eapply returns_bind; [apply returns_get; assumption | intros rawTotal w6 Pt].
  eapply returns_bind; [apply returns_ToNumber, Pt | intros totalValue w7 _].
  eapply returns_bind; [apply returns_get; assumption | intros rawCompletion w8 Pc].
  eapply returns_bind; [apply returns_ToNumber, Pc | intros completionValue w9 _].
  eapply returns_bind; [apply returns_get; assumption | intros rawId w10 _].
  eapply returns_bind; [apply (returns_nonblank_id rawId "e" "xam"); reflexivity |].
  intros id w11 Hid. apply returns_ret.
  eexists; split; [reflexivity |].
  unfold guardedExam. cbn [ExamEntry.paper ExamEntry.id]. rewrite Hid.
  rewrite ifNonBlank_trim_nonblank; [reflexivity |].
  apply (trim_head "P"). reflexivity.
Qed.

Lemma returns_guarded_exams (elems : list value) (w : World) :
  Forall (fun x => plain x = true) elems ->
  returns (mapi Local.sanitizeExam 0 elems) w
          (fun sanitized => forallb guardedExam (dropNulls sanitized) = true).
Proof.
  intros H. eapply returns_weaken.
  - apply (returns_mapi Local.sanitizeExam (fun x => plain x = true)
             (fun o => forall e, o = Some e -> guardedExam e = true)); [| exact H].
    intros x i w' Px. destruct (isObject x) eqn:O.
    + eapply returns_weaken; [apply sanitizeExam_guarded; assumption |].
      intros o [e [-> He]] e' E. inversion E; subst. exact He.
    + exists None, w'. split; [now apply sanitizeExam_non_object | discriminate].
  - intros ys [Hys _]. apply Forall_forallb, Forall_dropNulls, Hys.
Qed.

Lemma sanitizeSubject_guarded (raw : value) (index : nat) (w : World) :
  isObject raw = true -> plain raw = true ->
  returns (Local.sanitizeSubject raw index) w
          (fun o => exists s, o = Some s /\ guardedSubject s = true).
Proof.
  intros O P. unfold Local.sanitizeSubject. rewrite object_guard, O. cbn [negb].
  eapply returns_bind; [apply returns_get; assumption | intros rawName w1 _].
  eapply returns_bind; [apply returns_get; assumption | intros rawId w2 _].
  eapply returns_bind; [apply (returns_nonblank_id rawId "s" "ubject"); reflexivity |].
  intros id w3 Hid.
  eapply returns_bind; [apply returns_get; assumption | intros rawExams w4 Px].
  eapply returns_bind; [apply returns_guarded_exams, plain_elements, Px |].
  intros sanitized w5 Hs. apply returns_ret.
  eexists; split; [reflexivity |].
  unfold guardedSubject. cbn [Subject.id Subject.name Subject.exams].
  rewrite Hid, Hs.
  rewrite ifNonBlank_trim_nonblank; [reflexivity |].
  apply (trim_head "S"). reflexivity.
Qed.

Lemma returns_guarded_subjects (elems : list value) (w : World) :
  Forall (fun x => plain x = true) elems ->
  returns (mapi Local.sanitizeSubject 0 elems) w
          (fun sanitized => forallb guardedSubject (dropNulls sanitized) = true).
Proof.
  intros H. eapply returns_weaken.
  - apply (returns_mapi Local.sanitizeSubject (fun x => plain x = true)
             (fun o => forall s, o = Some s -> guardedSubject s = true)); [| exact H].
    intros x i w' Px. destruct (isObject x) eqn:O.
    + eapply returns_weaken; [apply sanitizeSubject_guarded; assumption |].
      intros o [s [-> Hs]] s' E. inversion E; subst. exact Hs.
    + exists None, w'. split; [now apply sanitizeSubject_non_object | discriminate].
  - intros ys [Hys _]. apply Forall_forallb, Forall_dropNulls, Hys.
Qed.

Lemma guardedState_intro (subjects : list Subject.t) (active : string) :
  subjects <> [] ->
  forallb guardedSubject subjects = true ->
  existsb (fun s => Subject.id s === active) subjects = true ->
  guardedState (AppState.mk subjects active) = true.
Proof.
  intros N F X. apply guardedState_parts. cbn [AppState.subjects]. repeat split.
  - exact N.
  - now apply forallb_forall.
  - exact X.
Qed.

Lemma createDefaultState_guarded (w : World) :
  returns (bind Local.createDefaultState (fun state => ret (Local.Built state))) w
          (fun r => exists s, r = Local.Built s /\ guardedState s = true).
Proof.
  unfold Local.createDefaultState, bind, Local.createId, ret, returns.
  destruct (draw w) as [r w'].
  eexists; eexists; split; [reflexivity |].
  eexists; split; [reflexivity |].
  apply guardedState_intro.
  - discriminate.
  - cbn [forallb]. unfold guardedSubject. cbn [Subject.id Subject.name Subject.exams].
    cbn [append]. rewrite (trim_head "s") by reflexivity. reflexivity.
  - cbn [existsb Subject.id]. now rewrite String.eqb_refl.
Qed.

Lemma normalizeStoredValue_builds_guarded (x : value) (w : World) :
  plain x = true -> validAppState x = false ->
  returns (Local.normalizeStoredValue x) w
          (fun r => exists s, r = Local.Built s /\ guardedState s = true).
Proof.
  intros P V. unfold Local.normalizeStoredValue.
  eapply returns_bind;
    [eapply returns_lift with (Q := fun b => b = false);
     [apply isValidAppState_eq | exact V] |].
  intros valid w1 ->.
  destruct x as [ | | b | n | s | xs | ps].
  - cbn. apply createDefaultState_guarded.
  - cbn. apply createDefaultState_guarded.
  - destruct b; cbn; apply createDefaultState_guarded.
  - eapply returns_bind;
      [eapply returns_lift with (Q := fun b => b = false); [| reflexivity] |].
    + rewrite !oand_Return. cbn [typeof Array_isArray]. rewrite andb_false_r. reflexivity.
    + intros g w2 ->. apply createDefaultState_guarded.
  - eapply returns_bind;
      [eapply returns_lift with (Q := fun b => b = false); [| reflexivity] |].
    + rewrite !oand_Return. cbn [typeof Array_isArray]. rewrite andb_false_r. reflexivity.
    + intros g w2 ->. apply createDefaultState_guarded.
  - cbn [truthy typeof Array_isArray negb].
    eapply returns_bind;
      [eapply returns_lift with (Q := fun b => b = false); reflexivity |].
    intros g w2 ->.
    eapply returns_bind; [apply (returns_nonblank_id Undefined "s" "ubject"); reflexivity |].
    intros id w3 Hid.
    eapply returns_bind; [apply returns_guarded_exams, (plain_elements (Arr xs)), P |].
    intros sanitized w4 Hs. apply returns_ret.
    eexists; split; [reflexivity |].
    apply guardedState_intro.
    + discriminate.
    + cbn [forallb]. unfold guardedSubject. cbn [Subject.id Subject.name Subject.exams].
      rewrite Hid, Hs. reflexivity.
    + cbn [existsb Subject.id]. now rewrite String.eqb_refl.
  - cbn [truthy typeof Array_isArray negb].
    rewrite !oand_Return. cbn [andb]. change ("object" === "object") with true.
    rewrite oand_true_l, (get_object (Obj ps) "subjects" eq_refl). cbn [obind].
    destruct (Array_isArray (field (Obj ps) "subjects")) eqn:A.
    + eapply returns_bind;
        [eapply returns_lift with (Q := fun b => b = true); reflexivity |].
      intros g w2 ->.
      destruct (field (Obj ps) "subjects") as [ | | b | n | s | elems | qs] eqn:Es;
        try discriminate.
      eapply returns_bind;
        [eapply returns_lift with (Q := fun l => l = elems); reflexivity |].
      intros l w3 ->.
      eapply returns_bind.
      * apply returns_guarded_subjects.
        pose proof (field_plain (Obj ps) "subjects" P) as Pf. rewrite Es in Pf.
        apply (plain_elements (Arr elems)), Pf.
      * intros sanitized w4 Hs. cbv beta in Hs.
        destruct (dropNulls sanitized) as [| first rest] eqn:Ed.
        -- apply createDefaultState_guarded.
        -- eapply returns_bind;
             [apply (returns_lift _ (field (Obj ps) "activeSubjectId") _ (fun _ => True));
              [reflexivity | exact I] |].
           intros rawActive w5 _. apply returns_ret.
           eexists; split; [reflexivity |].
           apply guardedState_intro; [discriminate | exact Hs |].
           apply active_resolution.
    + eapply returns_bind;
        [eapply returns_lift with (Q := fun b => b = false); reflexivity |].
      intros g w2 ->. apply createDefaultState_guarded.
Qed.

(** X17: normalizing settles in one step.  Whatever is stored (with no
    own [toString] inside, so that [Number] cannot throw), the value
    [normalizeStoredValue] hands back passes [isValidAppState], and
    normalizing it again hands back that very value, without a draw: the
    effect that writes the normalized state back to storage writes at
    most once. *)
Theorem normalizeStoredValue_settles_in_one_step :
  forall (x : value) (w : World),
    plain x = true ->
    exists r w',
      Local.normalizeStoredValue x w = Return (r, w') /\
      Local.isValidAppState (resultValue x r) = Return true /\
      forall w2,
        Local.normalizeStoredValue (resultValue x r) w2 = Return (Local.TheArgument, w2).
Proof.
  intros x w P. destruct (validAppState x) eqn:V.
  - assert (E : Local.isValidAppState x = Return true)
      by (now rewrite isValidAppState_eq, V).
    exists Local.TheArgument, w. cbn [resultValue].
    split; [now apply normalize_valid_argument | split; [exact E |]].
    intros w2. now apply normalize_valid_argument.
  - destruct (normalizeStoredValue_builds_guarded x w P V) as [r [w' [E [s [-> G]]]]].
    exists (Local.Built s), w'. cbn [resultValue].
    assert (E2 : Local.isValidAppState (AppState_toValue s) = Return true)
      by (now rewrite isValidAppState_toValue, G).
    split; [exact E | split; [exact E2 |]].
    intros w2. now apply normalize_valid_argument.
Qed.

Lemma normalizeStoredValue_settles_in_one_step_witness :
  let x :=
    Obj [ ("subjects",
           Arr [ Obj [ ("id", Str "  "); ("name", Num (ofZ 3));
                       ("exams", Arr [ Obj [ ("paper", Str "  Mock  ") ]; Str "junk" ]) ] ]);
          ("activeSubjectId", Str "gone") ] in
  let built :=
    AppState.mk
      [ Subject.mk "subject-r0" "Subject 1"
          [ ExamEntry.mk "exam-r1" "Mock" (ofZ 0) (ofZ 0) (ofZ 0) (ofZ 0) ] ]
      "subject-r0" in
  resultOf (Local.normalizeStoredValue x sampleWorld) = Return (Local.Built built) /\
  exists r w',
    Local.normalizeStoredValue x sampleWorld = Return (r, w') /\
    Local.isValidAppState (resultValue x r) = Return true /\
    forall w2,
      Local.normalizeStoredValue (resultValue x r) w2 = Return (Local.TheArgument, w2).
Proof.
  split; [vm_compute; reflexivity |].
  apply normalizeStoredValue_settles_in_one_step. reflexivity.
Defined.

(* ================================================================== *)
(** * Sanitizing what is already well formed                           *)
(* ================================================================== *)

Lemma sanitizeExam_wellFormed (e : ExamEntry.t) (index : nat) (w : World) :
  wellFormedExam e = true ->
  Local.sanitizeExam (ExamEntry_toValue e) index w = Return (Some (clampExam e), w).
Proof.
  unfold wellFormedExam. rewrite !andb_true_iff, !negb_true_iff.
  intros [[[[[I T] N] Fm] Fe] Ft]. apply String.eqb_eq in T.
  unfold Local.sanitizeExam, ExamEntry_toValue.
  cbn [truthy typeof String.eqb Ascii.eqb Bool.eqb negb orb].
  unfold bind, lift, ret.
  cbn [get lookup String.eqb Ascii.eqb Bool.eqb nullish ToNumber Local.ifNonBlank].
  rewrite I, T, N, Fm, Fe, Ft. reflexivity.
Qed.

Lemma mapi_sanitizeExam_wellFormed (exams : list ExamEntry.t) (index : nat) (w : World) :
  forallb wellFormedExam exams = true ->
  mapi Local.sanitizeExam index (map ExamEntry_toValue exams) w
  = Return (map (fun e => Some (clampExam e)) exams, w).
Proof.
  revert index. induction exams as [| e exams IH]; intros index H; [reflexivity |].
  cbn [forallb] in H. apply andb_true_iff in H. destruct H as [He Hr].
  cbn [map mapi]. unfold bind at 1. rewrite (sanitizeExam_wellFormed e index w He).
  unfold bind at 1. rewrite (IH (S index) Hr). reflexivity.
Qed.

Lemma dropNulls_Some {A B : Type} (f : A -> B) (l : list A) :
  dropNulls (map (fun x => Some (f x)) l) = map f l.
Proof. induction l as [| x l IH]; [reflexivity |]. cbn [map dropNulls]. now rewrite IH. Qed.

(** X18: an exam entry with a non-blank id, a trimmed and non-empty
    paper and finite marks goes through [sanitizeExam] unchanged but for
    its completion, which is clamped to 0..100: the id is kept, none is
    drawn, and the index plays no part. *)
Theorem sanitizeExam_keeps_a_well_formed_entry :
  forall (e : ExamEntry.t) (index : nat) (w : World),
    isEmpty (trim (ExamEntry.id e)) = false ->
    trim (ExamEntry.paper e) = ExamEntry.paper e ->
    ExamEntry.paper e <> "" ->
    Number_isFinite (ExamEntry.mcq e) = true ->
    Number_isFinite (ExamEntry.essay e) = true ->
    Number_isFinite (ExamEntry.total e) = true ->
    Local.sanitizeExam (ExamEntry_toValue e) index w
    = Return (Some (ExamEntry.mk (ExamEntry.id e) (ExamEntry.paper e) (ExamEntry.mcq e)
                      (ExamEntry.essay e) (ExamEntry.total e)
                      (clampCompletion (ExamEntry.completion e))), w).
Proof.
  intros e index w I T N Fm Fe Ft.
  apply sanitizeExam_wellFormed. unfold wellFormedExam.
  rewrite I, Fm, Fe, Ft. apply String.eqb_eq in T. rewrite T.
  apply isEmpty_false in N. now rewrite N.
Qed.

Lemma sanitizeExam_keeps_a_well_formed_entry_witness :
  let e := ExamEntry.mk " e 1" "Mock 1" (ofZ 12) (ofZ 3) (ofZ 99) (ofZ 140) in
  Local.sanitizeExam (ExamEntry_toValue e) 7 sampleWorld
  = Return (Some (ExamEntry.mk " e 1" "Mock 1" (ofZ 12) (ofZ 3) (ofZ 99)
                    (clampCompletion (ofZ 140))), sampleWorld) /\
  clampCompletion (ofZ 140) = ofZ 100.
Proof.
  split; [| vm_compute; reflexivity].
  apply (sanitizeExam_keeps_a_well_formed_entry
           (ExamEntry.mk " e 1" "Mock 1" (ofZ 12) (ofZ 3) (ofZ 99) (ofZ 140)));
    try reflexivity.
  discriminate.
Defined.

Lemma sanitizeSubject_wellFormed (s : Subject.t) (index : nat) (w : World) :
  wellFormedSubject s = true ->
  Local.sanitizeSubject (Subject_toValue s) index w = Return (Some (clampSubject s), w).
Proof.
  unfold wellFormedSubject. rewrite !andb_true_iff, !negb_true_iff.
  intros [[[I T] N] F]. apply String.eqb_eq in T.
  unfold Local.sanitizeSubject, Subject_toValue.
  cbn [truthy typeof String.eqb Ascii.eqb Bool.eqb negb orb].
  unfold bind at 1, lift at 1.
  cbn [get lookup String.eqb Ascii.eqb Bool.eqb].
  unfold bind at 1, lift at 1.
  cbn [get lookup String.eqb Ascii.eqb Bool.eqb Local.ifNonBlank].
  rewrite I. unfold bind at 1, ret at 1.
  unfold bind at 1, lift at 1.
  cbn [get lookup String.eqb Ascii.eqb Bool.eqb].
  unfold bind at 1. rewrite (mapi_sanitizeExam_wellFormed _ 0 w F).
  unfold ret. rewrite dropNulls_Some, T, N. reflexivity.
Qed.

Lemma mapi_sanitizeSubject_wellFormed (subjects : list Subject.t) (index : nat) (w : World) :
  forallb wellFormedSubject subjects = true ->
  mapi Local.sanitizeSubject index (map Subject_toValue subjects) w
  = Return (map (fun s => Some (clampSubject s)) subjects, w).
Proof.
  revert index. induction subjects as [| s subjects IH]; intros index H; [reflexivity |].
  cbn [forallb] in H. apply andb_true_iff in H. destruct H as [Hs Hr].
  cbn [map mapi]. unfold bind at 1. rewrite (sanitizeSubject_wellFormed s index w Hs).
  unfold bind at 1. rewrite (IH (S index) Hr). reflexivity.
Qed.

(** X19: a selection that names no stored subject costs no data.  When
    every stored subject is well formed and only [activeSubjectId] is
    stale, [normalizeStoredValue] builds a state with the same subjects
    and exams in the same order, under the same ids and names, with each
    completion clamped to 0..100, selects the first subject, and draws
    no id. *)
Theorem stale_selection_is_repaired_without_loss :
  forall (first : Subject.t) (rest : list Subject.t) (stale : string) (w : World),
    forallb wellFormedSubject (first :: rest) = true ->
    existsb (fun subject => Subject.id subject === stale) (first :: rest) = false ->
    Local.normalizeStoredValue (AppState_toValue (AppState.mk (first :: rest) stale)) w
    = Return (Local.Built (AppState.mk (map clampSubject (first :: rest)) (Subject.id first)),
              w).
Proof.
  intros first rest stale w F X.
  set (s := AppState.mk (first :: rest) stale).
  assert (V : Local.isValidAppState (AppState_toValue s) = Return false).
  { rewrite isValidAppState_toValue. f_equal. unfold guardedState, activeResolves.
    cbn [s AppState.subjects AppState.activeSubjectId]. rewrite X.
    apply andb_false_r. }
  unfold Local.normalizeStoredValue.
  unfold bind at 1. rewrite V. cbn [lift].
  unfold AppState_toValue at 1 2 3 4.
  cbn [truthy typeof Array_isArray negb String.eqb Ascii.eqb Bool.eqb oand obind get lookup].
  unfold bind at 1. cbn [lift].
  unfold AppState_toValue at 1.
  cbn [get lookup String.eqb Ascii.eqb Bool.eqb obind asArray].
  unfold bind at 1. cbn [lift].
  unfold bind at 1.
  cbn [s AppState.subjects AppState.activeSubjectId].
  rewrite (mapi_sanitizeSubject_wellFormed (first :: rest) 0 w F).
  rewrite dropNulls_Some. cbn [map].
  unfold AppState_toValue.
  cbn [get lookup String.eqb Ascii.eqb Bool.eqb].
  unfold bind at 1. cbn [lift]. unfold ret.
  cbn [AppState.activeSubjectId Local.ifNonBlank clampSubject Subject.id].
  assert (Y : forall a,
             existsb (fun subject => Subject.id subject === a)
                     (Subject.mk (Subject.id first) (Subject.name first)
                                 (map clampExam (Subject.exams first))
                        :: map clampSubject rest)
             = existsb (fun subject => Subject.id subject === a) (first :: rest)).
  { intros a. change (Subject.mk (Subject.id first) (Subject.name first)
                                 (map clampExam (Subject.exams first))
                        :: map clampSubject rest)
      with (map clampSubject (first :: rest)).
    apply existsb_map_id. reflexivity. }
  clear V. subst s. cbn [AppState.activeSubjectId].
  destruct (isEmpty (trim stale)); rewrite Y.
  - cbn [existsb]. rewrite String.eqb_refl. reflexivity.
  - rewrite X. reflexivity.
Qed.

Lemma stale_selection_is_repaired_without_loss_witness :
  let first :=
    Subject.mk "s1" "Physics"
      [ ExamEntry.mk "e1" "Mock 1" (ofZ 12) (ofZ 3) (ofZ 15) (ofZ 140) ] in
  let second := Subject.mk "s2" "Maths" [] in
  Local.normalizeStoredValue
    (AppState_toValue (AppState.mk [ first; second ] "s3")) sampleWorld
  = Return (Local.Built
              (AppState.mk
                 [ Subject.mk "s1" "Physics"
                     [ ExamEntry.mk "e1" "Mock 1" (ofZ 12) (ofZ 3) (ofZ 15) (ofZ 100) ];
                   second ] "s1"),
            sampleWorld).
Proof.
  cbv zeta.
  rewrite (stale_selection_is_repaired_without_loss
             (Subject.mk "s1" "Physics"
                [ ExamEntry.mk "e1" "Mock 1" (ofZ 12) (ofZ 3) (ofZ 15) (ofZ 140) ])
             [ Subject.mk "s2" "Maths" [] ] "s3" sampleWorld eq_refl eq_refl).
  vm_compute. reflexivity.
Defined.

(* ================================================================== *)
(** * The numbers of a payload                                         *)
(* ================================================================== *)

Lemma floor_never_negative (x : number) : num_ltb (Math_max (ofZ 0) x) (ofZ 0) = false.
Proof. destruct x as [[|] | [|] | | [|] m e]; reflexivity. Qed.

(** X20: whatever the form holds, the payload either builder returns
    has a trimmed, non-empty paper, an mcq and an essay that are finite
    and not negative, a total that is not negative, and a finite
    completion within 0..100; in the Supabase variant the total is the
    sum of the returned mcq and essay. *)
Theorem payload_fields_are_in_range :
  (forall form payload,
      Local.prepareExamPayload form = Some payload ->
      trim (ExamPayload.paper payload) = ExamPayload.paper payload /\
      ExamPayload.paper payload <> "" /\
      floored (ExamPayload.mcq payload) = true /\
      floored (ExamPayload.essay payload) = true /\
      num_ltb (ExamPayload.total payload) (ofZ 0) = false /\
      Number_isFinite (ExamPayload.completion payload) = true /\
      inRange (ExamPayload.completion payload) = true) /\
  (forall form payload,
      Remote.prepareExamPayload form = Some payload ->
      trim (ExamPayload.paper payload) = ExamPayload.paper payload /\
      ExamPayload.paper payload <> "" /\
      floored (ExamPayload.mcq payload) = true /\
      floored (ExamPayload.essay payload) = true /\
      num_ltb (ExamPayload.total payload) (ofZ 0) = false /\
      ExamPayload.total payload
      = num_add (ExamPayload.mcq payload) (ExamPayload.essay payload) /\
      Number_isFinite (ExamPayload.completion payload) = true /\
      inRange (ExamPayload.completion payload) = true).
Proof.
  split; intros form payload.
  - unfold Local.prepareExamPayload.
    destruct (isEmpty (trim (Local.ExamFormState.paper form))) eqn:E; [discriminate |].
    intros H. inversion H; subst; clear H.
    cbn [ExamPayload.paper ExamPayload.mcq ExamPayload.essay ExamPayload.total
         ExamPayload.completion].
    split; [apply trim_idem |].
    split; [now apply isEmpty_false |].
    split; [apply floor_at_zero |].
    split; [apply floor_at_zero |].
    split; [apply floor_never_negative |].
    split; [apply clampCompletion_finite | apply clampCompletion_inRange].
  - unfold Remote.prepareExamPayload.
    destruct (isEmpty (trim (Remote.ExamFormState.paper form))) eqn:E; [discriminate |].
    intros H. inversion H; subst; clear H.
    cbn [ExamPayload.paper ExamPayload.mcq ExamPayload.essay ExamPayload.total
         ExamPayload.completion].
    pose proof (floor_at_zero (StringToNumber (Remote.ExamFormState.mcq form))) as Fm.
    pose proof (floor_at_zero (StringToNumber (Remote.ExamFormState.essay form))) as Fe.
    split; [apply trim_idem |].
    split; [now apply isEmpty_false |].
    split; [exact Fm |].
    split; [exact Fe |].
    split; [apply floor_never_negative |].
    split; [now apply floor_of_floored_sum |].
    split; [apply clampCompletion_finite | apply clampCompletion_inRange].
Qed.

Lemma payload_fields_are_in_range_witness :
  let form := Local.ExamFormState.mk "  Mock 1 " "-4" "abc" "-7.5" "1e9" in
  let payload := ExamPayload.mk "Mock 1" (ofZ 0) (ofZ 0) (ofZ 0) (ofZ 100) in
  Local.prepareExamPayload form = Some payload /\
  floored (ExamPayload.mcq payload) = true /\
  inRange (ExamPayload.completion payload) = true.
Proof.
  cbv zeta.
  assert (E : Local.prepareExamPayload
                (Local.ExamFormState.mk "  Mock 1 " "-4" "abc" "-7.5" "1e9")
              = Some (ExamPayload.mk "Mock 1" (ofZ 0) (ofZ 0) (ofZ 0) (ofZ 100)))
    by (vm_compute; reflexivity).
  split; [exact E |].
  destruct (proj1 payload_fields_are_in_range _ _ E) as [_ [_ [Fm [_ [_ [_ R]]]]]].
  split; [exact Fm | exact R].
Defined.

(* ================================================================== *)
(** * The type guards never throw                                      *)
(* ================================================================== *)

(** X21: the three type guards answer on every value, whatever its
    shape, without ever throwing; and a value [isValidAppState] accepts
    reads as a state with at least one subject, non-empty subject and
    exam ids, and an active id that names one of the subjects. *)
Theorem type_guards_never_throw :
  forall x : value,
    (exists b, Local.isValidExam x = Return b) /\
    (exists b, Local.isValidSubject x = Return b) /\
    (exists b,
        Local.isValidAppState x = Return b /\
        (b = true ->
         exists s, asAppState x = Some s /\
                   subjectsNonEmpty s = true /\
                   subjectIdsNonEmpty s = true /\
                   examIdsNonEmpty s = true /\
                   activeResolves s = true)).
Proof.
  intros x. split; [| split].
  - eexists. apply isValidExam_eq.
  - eexists. apply isValidSubject_eq.
  - exists (validAppState x). split; [apply isValidAppState_eq |].
    apply validAppState_view.
Qed.

(* ================================================================== *)
(** * Editing keeps the exams in place                                 *)
(* ================================================================== *)

Lemma Forall2_same {A : Type} (R : A -> A -> Prop) (l : list A) :
  (forall x, R x x) -> Forall2 R l l.
Proof. intros H. induction l; constructor; auto. Qed.

Lemma Forall2_map_r {A B : Type} (R : A -> B -> Prop) (g : A -> B) (l : list A) :
  (forall x, R x (g x)) -> Forall2 R l (map g l).
Proof. intros H. induction l; cbn [map]; constructor; auto. Qed.

(** X22: editing a paper never adds, removes, reorders or renumbers
    exams: every subject keeps its exams position by position under
    their ids, and an exam whose id is not the one being edited is left
    as it was. *)
Theorem editing_keeps_every_exam_in_place :
  forall (editingId : option string) (editForm : Local.ExamFormState.t)
         (rendered current : AppState.t),
    Forall2 (fun before after =>
               Forall2 (fun b a =>
                          ExamEntry.id a = ExamEntry.id b /\
                          (editingId <> Some (ExamEntry.id b) -> a = b))
                       (Subject.exams before) (Subject.exams after))
            (AppState.subjects current)
            (AppState.subjects (Local.handleUpdateExam editingId editForm rendered current)).
Proof.
  intros editingId editForm rendered current.
  assert (S : forall l : list Subject.t,
             Forall2 (fun before after =>
                        Forall2 (fun b a =>
                                   ExamEntry.id a = ExamEntry.id b /\
                                   (editingId <> Some (ExamEntry.id b) -> a = b))
                                (Subject.exams before) (Subject.exams after)) l l).
  { intros l. apply Forall2_same. intros s. apply Forall2_same. auto. }
  unfold Local.handleUpdateExam.
  destruct editingId as [editing |]; [| apply S].
  destruct (isEmpty editing); [apply S |].
  destruct (Local.prepareExamPayload editForm) as [payload |]; [| apply S].
  destruct (Local.activeSubject rendered) as [active |]; [| apply S].
  cbn [AppState.subjects]. apply Forall2_map_r. intros s.
  destruct (Subject.id s === Subject.id active); cbn [negb].
  - cbn [Local.withExams Subject.exams]. apply Forall2_map_r. intros e.
    destruct (String.eqb_spec (ExamEntry.id e) editing) as [E | E].
    + split; [reflexivity |]. intros N. congruence.
    + split; reflexivity.
  - apply Forall2_same. auto.
Qed.

(* ================================================================== *)
(** * Selecting and creating a subject                                 *)
(* ================================================================== *)

Lemma find_first_with_id (id : string) (l : list Subject.t) :
  existsb (fun subject => Subject.id subject === id) l = true ->
  exists subject,
    find (fun subject => Subject.id subject === id) l = Some subject /\
    Subject.id subject = id.
Proof.
  intros X. destruct (find (fun subject => Subject.id subject === id) l) as [s |] eqn:F.
  - exists s. split; [reflexivity |]. apply find_some in F. now apply String.eqb_eq.
  - apply existsb_exists in X. destruct X as [s [I E]].
    now rewrite (find_none _ _ F s I) in E.
Qed.

(** X23: selecting a subject never changes the subjects.  An id that
    names a stored subject becomes the selection, and the subject on
    display is the first one under that id; any other id leaves the
    state as it was. *)
Theorem selecting_a_subject_only_moves_the_selection :
  forall (subjectId : string) (current : AppState.t),
    let after := Local.handleSubjectSelect subjectId current in
    AppState.subjects after = AppState.subjects current /\
    (existsb (fun subject => Subject.id subject === subjectId) (AppState.subjects current)
     = true ->
     AppState.activeSubjectId after = subjectId /\
     Local.activeSubject after
     = find (fun subject => Subject.id subject === subjectId) (AppState.subjects current) /\
     option_map Subject.id (Local.activeSubject after) = Some subjectId) /\
    (existsb (fun subject => Subject.id subject === subjectId) (AppState.subjects current)
     = false ->
     after = current).
Proof.
  intros subjectId current. cbn zeta. unfold Local.handleSubjectSelect.
  destruct (String.eqb_spec (AppState.activeSubjectId current) subjectId) as [E | E].
  - split; [reflexivity | split; [| reflexivity]].
    intros X. destruct (find_first_with_id subjectId _ X) as [s [F I]].
    unfold Local.activeSubject. rewrite E, F.
    split; [reflexivity | split; [reflexivity |]]. cbn [option_map]. now rewrite I.
  - destruct (existsb _ (AppState.subjects current)) eqn:X; cbn [negb].
    + split; [reflexivity | split; [| discriminate]].
      intros _. destruct (find_first_with_id subjectId _ X) as [s [F I]].
      unfold Local.activeSubject. cbn [AppState.subjects AppState.activeSubjectId].
      rewrite F.
      split; [reflexivity | split; [reflexivity |]]. cbn [option_map]. now rewrite I.
    + split; [reflexivity | split; [discriminate | reflexivity]].
Qed.

Lemma find_app_none {A : Type} (p : A -> bool) (l : list A) (x : A) :
  (forall y, In y l -> p y = false) -> p x = true -> find p (l ++ [x])%list = Some x.
Proof.
  intros H P. induction l as [| y l IH]; cbn [app find].
  - now rewrite P.
  - rewrite (H y (or_introl eq_refl)). apply IH. intros z Hz. apply H. now right.
Qed.

(** X24: creating a subject under a name that is blank changes nothing
    and draws no id.  Under any other name one id is drawn, the subjects
    already stored are left as they were, and a subject with the trimmed
    name and no exams is appended and selected; when no stored subject
    carries the drawn id, the new subject is the one on display. *)
Theorem created_subject_is_appended_and_displayed :
  forall (newSubjectName : string) (current : AppState.t) (w : World),
    let id := "subject-" ++ random w (drawn w) in
    let created := Subject.mk id (trim newSubjectName) [] in
    (trim newSubjectName = "" ->
     Local.handleCreateSubject newSubjectName current w = Return (current, w)) /\
    (trim newSubjectName <> "" ->
     exists after,
       Local.handleCreateSubject newSubjectName current w
       = Return (after, mkWorld (random w) (S (drawn w))) /\
       AppState.subjects after = (AppState.subjects current ++ [ created ])%list /\
       AppState.activeSubjectId after = id /\
       activeResolves after = true /\
       ((forall subject, In subject (AppState.subjects current) -> Subject.id subject <> id) ->
        Local.activeSubject after = Some created)).
Proof.
  intros newSubjectName current w. cbn zeta. unfold Local.handleCreateSubject. cbv zeta.
  split.
  - intros E. rewrite E. reflexivity.
  - intros N. apply isEmpty_false in N. rewrite N.
    unfold bind, Local.createId, ret, draw.
    eexists; split; [reflexivity |].
    cbn [AppState.subjects AppState.activeSubjectId].
    split; [reflexivity | split; [reflexivity | split]].
    + unfold activeResolves. cbn [AppState.subjects AppState.activeSubjectId].
      rewrite existsb_app. cbn [existsb Subject.id].
      now rewrite String.eqb_refl, orb_true_r.
    + intros Fresh. unfold Local.activeSubject.
      cbn [AppState.subjects AppState.activeSubjectId].
      rewrite find_app_none; [reflexivity | |].
      * intros y Hy. apply String.eqb_neq. now apply Fresh.
      * cbn [Subject.id]. apply String.eqb_refl.
Qed.

Lemma created_subject_is_appended_and_displayed_witness :
  let current := AppState.mk [ Subject.mk "s1" "Physics" [] ] "s1" in
  exists after,
    Local.handleCreateSubject "  Maths " current sampleWorld
    = Return (after, mkWorld (random sampleWorld) 1) /\
    AppState.subjects after
    = [ Subject.mk "s1" "Physics" []; Subject.mk "subject-r0" "Maths" [] ] /\
    Local.activeSubject after = Some (Subject.mk "subject-r0" "Maths" []).
Proof.
  cbv zeta.
  destruct (proj2 (created_subject_is_appended_and_displayed
                     "  Maths " (AppState.mk [ Subject.mk "s1" "Physics" [] ] "s1")
                     sampleWorld)) as [after [E [S [_ [_ D]]]]].
  - vm_compute. discriminate.
  - exists after. split; [exact E | split; [exact S |]].
    apply D. intros subject [<- | []]. vm_compute. discriminate.
Defined.

(* ================================================================== *)
(** * What the sanitizer keeps of an object                            *)
(* ================================================================== *)

Ltac read_property O :=
  unfold bind at 1; unfold lift at 1; rewrite (get_object _ _ O); cbv beta iota.

Ltac convert_number P :=
  unfold bind at 1; unfold lift at 1;
  match goal with
  | |- context [ToNumber (nullish (field ?raw ?k) ?d)] =>
      let n := fresh "n" in
      let E := fresh "E" in
      destruct (ToNumber_plain (nullish (field raw k) d)
                  (nullish_plain (field raw k) d (field_plain raw k P) eq_refl)) as [n E];
      rewrite E; cbv beta iota
  end.

(** X25: [sanitizeExam] answers [null] for what is not an object, and
    for nothing else, without drawing an id.  Of an object (with no own
    [toString] inside) it makes an entry: an id that is a non-blank
    string is kept as it is and nothing is drawn; otherwise one id is
    drawn; a non-blank paper is kept trimmed, and a missing or blank one
    becomes [Paper n] for the position [n] of the entry, counted
    from 1. *)
Theorem sanitizeExam_keeps_ids_and_names :
  forall (raw : value) (index : nat) (w : World),
    plain raw = true ->
    (isObject raw = false -> Local.sanitizeExam raw index w = Return (None, w)) /\
    (isObject raw = true ->
     exists e w',
       Local.sanitizeExam raw index w = Return (Some e, w') /\
       (forall s, field raw "id" = Str s -> trim s <> "" ->
                  ExamEntry.id e = s /\ w' = w) /\
       (nonBlank (field raw "id") = false ->
        ExamEntry.id e = "exam-" ++ random w (drawn w) /\
        w' = mkWorld (random w) (S (drawn w))) /\
       (forall s, field raw "paper" = Str s -> trim s <> "" ->
                  ExamEntry.paper e = trim s) /\
       (nonBlank (field raw "paper") = false ->
        ExamEntry.paper e = "Paper " ++ showNat (index + 1))).
Proof.
  intros raw index w P. split; [apply sanitizeExam_non_object |].
  intros O. unfold Local.sanitizeExam. rewrite object_guard, O. cbn [negb].
  read_property O.
  read_property O. convert_number P.
  read_property O. convert_number P.
  read_property O. convert_number P.
  read_property O. convert_number P.
  read_property O.
  assert (Paper :
            (forall s, field raw "paper" = Str s -> trim s <> "" ->
                       Local.ifNonBlank (field raw "paper") trim
                         ("Paper " ++ showNat (index + 1)) = trim s) /\
            (nonBlank (field raw "paper") = false ->
             Local.ifNonBlank (field raw "paper") trim
               ("Paper " ++ showNat (index + 1)) = "Paper " ++ showNat (index + 1))).
  { split.
    - intros s -> N. cbn [Local.ifNonBlank]. apply isEmpty_false in N. now rewrite N.
    - destruct (field raw "paper"); cbn [nonBlank Local.ifNonBlank]; try reflexivity.
      intros N. apply negb_false_iff in N. now rewrite N. }
  destruct Paper as [Paper1 Paper2].
  destruct (field raw "id") as [ | | b | x | s | xs | ps] eqn:Eid;
    cbn [Local.ifNonBlank];
    try (unfold bind, Local.createId, ret, draw;
         eexists; eexists; split; [reflexivity |];
         cbn [ExamEntry.id ExamEntry.paper];
         split; [discriminate | split; [split; reflexivity | split; assumption]]).
  destruct (isEmpty (trim s)) eqn:B.
  + unfold bind, Local.createId, ret, draw.
    eexists; eexists; split; [reflexivity |].
    cbn [ExamEntry.id ExamEntry.paper].
    split; [| split; [split; reflexivity | split; assumption]].
    intros s' Es N. inversion Es; subst. apply isEmpty_false in N. congruence.
  + unfold bind, ret.
    eexists; eexists; split; [reflexivity |].
    cbn [ExamEntry.id ExamEntry.paper].
    split; [| split; [| split; assumption]].
    * intros s' Es _. inversion Es; subst. split; reflexivity.
    * cbn [nonBlank]. rewrite B. discriminate.
Qed.

Lemma sanitizeExam_keeps_ids_and_names_witness :
  let raw := Obj [ ("id", Str "kept"); ("paper", Str "  "); ("mcq", Str "7") ] in
  Local.sanitizeExam raw 2 sampleWorld
  = Return (Some (ExamEntry.mk "kept" "Paper 3" (ofZ 7) (ofZ 0) (ofZ 7) (ofZ 0)), sampleWorld) /\
  Local.sanitizeExam (Str "junk") 2 sampleWorld = Return (None, sampleWorld).
Proof.
  split; [vm_compute; reflexivity |].
  apply (proj1 (sanitizeExam_keeps_ids_and_names (Str "junk") 2 sampleWorld eq_refl)).
  reflexivity.
Defined.

(* ================================================================== *)
(** * The length of a session, and the two timers side by side         *)
(* ================================================================== *)

Lemma Local_ticks (k : nat) (t : Local.Timer) :
  0 <= Local.secondsLeft t ->
  fold_left Local.step (repeat Local.IntervalTick k) t
  = Local.setSecondsLeft (Z.max 0 (Local.secondsLeft t - Z.of_nat k)) t.
Proof.
  revert t. induction k as [| k IH]; intros t H.
  - cbn [repeat fold_left]. destruct t as [o s l r c]. unfold Local.setSecondsLeft.
    cbn [Local.secondsLeft Local.isRunning Local.sessionType Local.timerOpen
         Local.completedPomodoros] in *.
    f_equal. lia.
  - cbn [repeat fold_left Local.step]. rewrite IH.
    + unfold Local.tick, Local.setSecondsLeft.
      cbn [Local.secondsLeft Local.isRunning Local.sessionType Local.timerOpen
           Local.completedPomodoros].
      f_equal. lia.
    + unfold Local.tick, Local.setSecondsLeft. cbn [Local.secondsLeft]. lia.
Qed.

(** X26: a focus session of the local-storage variant that runs from
    its full length lasts 1500 ticks: before that the countdown effect
    leaves the timer alone, with one second less on the clock for each
    tick; from the 1500th tick on it pauses the timer on a break of 300
    seconds and counts one more completed pomodoro. *)
Theorem focus_session_lasts_1500_ticks :
  forall (t : Local.Timer) (k : nat),
    Local.isRunning t = true ->
    Local.sessionType t = focus ->
    Local.secondsLeft t = FOCUS_DURATION ->
    let ticked := fold_left Local.step (repeat Local.IntervalTick k) t in
    Local.secondsLeft ticked = Z.max 0 (1500 - Z.of_nat k) /\
    ((k < 1500)%nat -> Local.countdownEffect ticked = ticked) /\
    ((1500 <= k)%nat ->
     Local.countdownEffect ticked
     = Local.mkTimer (Local.timerOpen t) break 300 false (Local.completedPomodoros t + 1)).
Proof.
  intros t k R S L. cbn zeta.
  rewrite Local_ticks by (rewrite L; unfold FOCUS_DURATION; lia).
  rewrite L. unfold FOCUS_DURATION. change (25 * 60) with 1500.
  destruct t as [o s l r c].
  cbn [Local.isRunning Local.sessionType Local.secondsLeft] in R, S, L. subst.
  unfold Local.setSecondsLeft, Local.countdownEffect, Local.setIsRunning,
    Local.setCompletedPomodoros, Local.setSessionType, Local.durationOf, BREAK_DURATION.
  cbn [Local.isRunning Local.sessionType Local.secondsLeft Local.timerOpen
       Local.completedPomodoros negb].
  change (5 * 60) with 300.
  split; [reflexivity | split].
  - intros H. destruct (Z.leb_spec (Z.max 0 (1500 - Z.of_nat k)) 0); [lia | reflexivity].
  - intros H. destruct (Z.leb_spec (Z.max 0 (1500 - Z.of_nat k)) 0); [reflexivity | lia].
Qed.

Lemma focus_session_lasts_1500_ticks_witness :
  let t := Local.run [ Local.SidebarAlerts; Local.StartPause ] in
  Local.countdownEffect (fold_left Local.step (repeat Local.IntervalTick 1499) t)
  = Local.mkTimer true focus 1 true 0 /\
  Local.countdownEffect (fold_left Local.step (repeat Local.IntervalTick 1500) t)
  = Local.mkTimer true break 300 false 1.
Proof.
  cbv zeta.
  destruct (focus_session_lasts_1500_ticks
              (Local.run [ Local.SidebarAlerts; Local.StartPause ]) 1499
              eq_refl eq_refl eq_refl) as [S1 [B1 _]].
  destruct (focus_session_lasts_1500_ticks
              (Local.run [ Local.SidebarAlerts; Local.StartPause ]) 1500
              eq_refl eq_refl eq_refl) as [_ [_ A2]].
  split.
  - rewrite B1 by lia. rewrite Local_ticks by (vm_compute; discriminate).
    vm_compute. reflexivity.
  - rewrite A2 by lia. reflexivity.
Defined.

Ltac nothing_sent net a :=
  match goal with
  | |- context [Remote.step ?c (Remote.step ?c ?b _) _] =>
      rewrite (settle_nothing c net b (List.length (Remote.pending a)) eq_refl)
  end.

(** X27: the timers of the two variants agree as long as every
    request is answered before the next event.  Each event of the
    local-storage timer, taken in the Supabase variant together with the
    replies to the requests it sends, whatever they are, leaves the same
    panel state, session, seconds left and running state; and so does
    every sequence of such events from the initial states.  In the
    Supabase variant, besides, Papers, opening Analytics and a sign-out
    that has gone through act on the timer as its Close button does:
    they close it, which pauses it.  And without the condition the
    timers part: Skip pressed a second time before the first insert is
    answered leaves the Supabase timer on the break, where two presses
    take the local-storage timer back to the focus session. *)
Theorem timers_of_both_variants_agree :
  (forall (isSupabaseConfigured : bool) (net : Remote.Net)
          (a : Remote.App) (t : Local.Timer) (e : Local.TimerEvent),
      remoteView a = localView t ->
      remoteView (Remote.thenSettled isSupabaseConfigured net a
                    (asRemote (Remote.nowISO net) e))
      = localView (Local.step t e)) /\
  (forall (isSupabaseConfigured : bool) (u : string)
          (events : list (Remote.Net * Local.TimerEvent)),
      remoteView
        (fold_left
           (fun a ne =>
              Remote.thenSettled isSupabaseConfigured (fst ne) a
                (asRemote (Remote.nowISO (fst ne)) (snd ne)))
           events (Remote.initialApp u))
      = localView (Local.run (map snd events))) /\
  (forall (isSupabaseConfigured : bool) (a : Remote.App),
      remoteView (Remote.step isSupabaseConfigured a Remote.SidebarPapers)
      = remoteView (Remote.step isSupabaseConfigured a Remote.CloseTimer) /\
      (Remote.productivityOpen a = false ->
       remoteView (Remote.step isSupabaseConfigured a Remote.SidebarAnalytics)
       = remoteView (Remote.step isSupabaseConfigured a Remote.CloseTimer)) /\
      (forall i,
          nth_error (Remote.pending a) i = Some Remote.SigningOut ->
          remoteView (Remote.step isSupabaseConfigured a
                        (Remote.SignOutSettles i (Remote.Data tt)))
          = remoteView (Remote.step isSupabaseConfigured a Remote.CloseTimer))) /\
  (forall (u now now' : string) (reply reply' : Remote.Reply (list Remote.SupabaseFocusEntryRow.t)),
      remoteView
        (Remote.run true u
           [ Remote.SkipSession now; Remote.SkipSession now';
             Remote.InsertSettles 0 (Remote.Data tt); Remote.InsertSettles 0 (Remote.Data tt);
             Remote.SelectSettles 0 reply now; Remote.SelectSettles 0 reply' now' ])
      = (false, break, 300, false) /\
      localView (Local.run [ Local.SkipSession; Local.SkipSession ])
      = (false, focus, 1500, false)).
Proof.
  assert (One : forall cfg net (a : Remote.App) (t : Local.Timer) (e : Local.TimerEvent),
             remoteView a = localView t ->
             remoteView (Remote.thenSettled cfg net a (asRemote (Remote.nowISO net) e))
             = localView (Local.step t e)).
  { intros cfg net a t e V. unfold Remote.thenSettled. cbv zeta.
    destruct a as [user err entries o s l r p table tasks].
    destruct t as [o' s' l' r' c'].
    unfold remoteView, localView in V.
    cbn [Remote.timerOpen Remote.sessionType Remote.secondsLeft Remote.isRunning
         Local.timerOpen Local.sessionType Local.secondsLeft Local.isRunning] in V.
    inversion V; subst o' s' l' r'; clear V.
    set (a := Remote.mkApp user err entries o s l r p table tasks).
    destruct e; cbn [asRemote];
      match goal with
      | |- context [Remote.step cfg a ?e] =>
          let b := eval cbn [Remote.step] in (Remote.step cfg a e) in
          change (Remote.step cfg a e) with b
      end;
      cbn [Local.step].
    - nothing_sent net a. reflexivity.
    - unfold Remote.countdownEffect, Local.countdownEffect. cbv zeta.
      cbn [a Remote.isRunning Remote.secondsLeft Remote.sessionType
           Local.isRunning Local.secondsLeft Local.sessionType].
      destruct r; cbn [negb];
        [| nothing_sent net a; reflexivity].
      destruct (l <=? 0);
        [| nothing_sent net a; reflexivity].
      destruct s;
        [| nothing_sent net a; reflexivity].
      unfold Remote.recordFocusSession. cbn [Remote.user Remote.setIsRunning].
      destruct user as [u |]; [destruct cfg; cbn [negb] |].
      + match goal with
        | |- context [Remote.step true (Remote.step true ?b _) _] =>
            rewrite (settle_recording net b (Remote.pending a) _ _ u eq_refl eq_refl)
        end.
        destruct (Remote.insertReply net) as [x | message]; [| reflexivity].
        unfold Remote.loadFocusEntriesReply.
        destruct (Remote.selectReply net); reflexivity.
      + nothing_sent net a. reflexivity.
      + nothing_sent net a. reflexivity.
    - unfold Remote.handleSidebarClickAlerts, Local.handleSidebarClickAlerts,
        Remote.timerOpenEffect, Local.timerOpenEffect. cbv zeta.
      cbn [a Remote.timerOpen].
      destruct o; cbn [negb];
        nothing_sent net a; reflexivity.
    - nothing_sent net a. reflexivity.
    - nothing_sent net a. reflexivity.
    - nothing_sent net a. reflexivity.
    - unfold Remote.handleSkipSession, Local.handleSkipSession. cbv zeta.
      cbn [a Remote.sessionType Local.sessionType].
      destruct s;
        [| nothing_sent net a; reflexivity].
      unfold Remote.recordFocusSession. cbn [Remote.user].
      destruct user as [u |]; [destruct cfg; cbn [negb] |].
      + match goal with
        | |- context [Remote.step true (Remote.step true ?b _) _] =>
            rewrite (settle_recording net b (Remote.pending a) _ _ u eq_refl eq_refl)
        end.
        destruct (Remote.insertReply net) as [x | message]; [| reflexivity].
        unfold Remote.loadFocusEntriesReply.
        destruct (Remote.selectReply net); reflexivity.
      + nothing_sent net a. reflexivity.
      + nothing_sent net a. reflexivity.
    - nothing_sent net a.
      destruct type; reflexivity. }
  split; [exact One | split; [| split]].
  - intros cfg u events. unfold Local.run.
    assert (G : forall (l : list (Remote.Net * Local.TimerEvent))
                       (a : Remote.App) (t : Local.Timer),
               remoteView a = localView t ->
               remoteView
                 (fold_left
                    (fun a ne =>
                       Remote.thenSettled cfg (fst ne) a
                         (asRemote (Remote.nowISO (fst ne)) (snd ne))) l a)
               = localView (fold_left Local.step (map snd l) t)).
    { induction l as [| [net e] l IH]; intros a t V; [exact V |].
      cbn [map fold_left fst snd]. apply IH, One, V. }
    apply G. reflexivity.
  - intros cfg a. split; [| split].
    + cbn [Remote.step].
      unfold Remote.handleSidebarClickPapers, Remote.handleCloseTimer, Remote.timerOpenEffect.
      reflexivity.
    + intros P. cbn [Remote.step].
      unfold Remote.handleSidebarClickAnalytics, Remote.handleCloseTimer,
        Remote.timerOpenEffect. cbv zeta. rewrite P. reflexivity.
    + intros i H. cbn [Remote.step]. rewrite H.
      unfold Remote.handleSignOutReply, Remote.handleCloseTimer, Remote.timerOpenEffect.
      reflexivity.
  - intros u now now' reply reply'. split; [| reflexivity].
    destruct reply, reply'; reflexivity.
Qed.

Lemma timers_of_both_variants_agree_witness :
  let net := Remote.mkNet (Remote.Failed "offline") (Remote.Data []) "2025-03-01T10:00:00.000Z" in
  let a := Remote.mkApp (Some "u1") None [] true focus 7 true false [] [] in
  let t := Local.mkTimer true focus 7 true 2 in
  remoteView (Remote.thenSettled true net a (asRemote (Remote.nowISO net) Local.SkipSession))
  = localView (Local.step t Local.SkipSession) /\
  localView (Local.step t Local.SkipSession) = (true, break, 300, false).
Proof.
  split; [| reflexivity].
  apply (proj1 timers_of_both_variants_agree true
           (Remote.mkNet (Remote.Failed "offline") (Remote.Data [])
              "2025-03-01T10:00:00.000Z")
           (Remote.mkApp (Some "u1") None [] true focus 7 true false [] [])
           (Local.mkTimer true focus 7 true 2) Local.SkipSession).
  reflexivity.
Defined.

(* ================================================================== *)
(** * Entries whose timestamp does not parse                           *)
(* ================================================================== *)

Lemma parseEntries_parsed parse (entries : list Remote.FocusEntry.t) :
  Remote.parseEntries parse
    (filter (fun e => match parse (Remote.FocusEntry.timestamp e) with
                      | Some _ => true
                      | None => false
                      end) entries)
  = Remote.parseEntries parse entries.
Proof.
  unfold Remote.parseEntries. induction entries as [| e l IH]; [reflexivity |].
  cbn [filter map dropNulls].
  destruct (parse (Remote.FocusEntry.timestamp e)) eqn:E.
  - cbn [map dropNulls]. rewrite E. cbn [dropNulls]. now rewrite IH.
  - exact IH.
Qed.

(** X28: an entry whose timestamp does not parse to a date counts
    nowhere: every figure of the analytics, the totals, the buckets of
    both breakdowns and the recent sessions, is what it would be without
    these entries. *)
Theorem entries_without_a_date_count_nowhere :
  forall parse tz weekdayLabel now (focusEntries : list Remote.FocusEntry.t),
    Remote.productivityStats parse tz weekdayLabel now focusEntries
    = Remote.productivityStats parse tz weekdayLabel now
        (filter (fun e => match parse (Remote.FocusEntry.timestamp e) with
                          | Some _ => true
                          | None => false
                          end) focusEntries).
Proof.
  intros parse tz weekdayLabel now focusEntries.
  unfold Remote.productivityStats. now rewrite parseEntries_parsed.
Qed.
